(** * get_yt_transcripts.py: a shallow embedding and its properties

    The script enumerates the uploads of a channel, fetches metadata and
    transcripts, renders one text block per video and writes the blocks
    into word-bounded output files named after the ordinal range of the
    videos they hold.

    Conventions of the embedding:
    - a Python [str] is a [string]; a character is a code point below 256;
    - a Python call that may raise returns a [result];
    - the remote services, the clock and the file system are explicit
      oracles passed to the functions that use them;
    - [time.sleep] is recorded as a list of durations in milliseconds. *)

From Stdlib Require Import Ascii String DecimalString DecimalNat DecimalFacts Lia.
From stdpp Require Import base option list gmap strings.

Set Warnings "-abstract-large-number".

Local Arguments String.append : simpl nomatch.
Local Arguments Nat.mul : simpl never.
Local Arguments Nat.pow : simpl never.

(** ** Python strings *)

Module Py.

(** [str.isspace] for one code point below 256. *)
Definition is_space (c : ascii) : bool :=
  let n := nat_of_ascii c in
  (Nat.leb 9 n && Nat.leb n 13) || (Nat.leb 28 n && Nat.leb n 32)
  || Nat.eqb n 133 || Nat.eqb n 160.

Definition chars (s : string) : list ascii := list_ascii_of_string s.

Definition starts_with_space (s : string) : bool :=
  match s with
  | String c _ => is_space c
  | EmptyString => true
  end.

(** [s.split()] with no argument: the maximal runs of non-whitespace. *)
Fixpoint split (s : string) : list string :=
  match s with
  | EmptyString => []
  | String c s' =>
      if is_space c then split s'
      else if starts_with_space s' then String c "" :: split s'
      else match split s' with
           | t :: ts => String c t :: ts
           | [] => [String c ""]
           end
  end.

Fixpoint lstrip (s : string) : string :=
  match s with
  | String c s' => if is_space c then lstrip s' else s
  | EmptyString => ""
  end.

Fixpoint rstrip (s : string) : string :=
  match s with
  | String c s' =>
      match rstrip s' with
      | EmptyString => if is_space c then "" else String c ""
      | r => String c r
      end
  | EmptyString => ""
  end.

(** [s.strip()] with no argument. *)
Definition strip (s : string) : string := lstrip (rstrip s).

(** [sep.join(parts)]. *)
Fixpoint join (sep : string) (parts : list string) : string :=
  match parts with
  | [] => ""
  | [p] => p
  | p :: ps => p +:+ sep +:+ join sep ps
  end.

(** [str(n)] for a non-negative integer. *)
Definition str (n : nat) : string := NilZero.string_of_uint (Nat.to_uint n).

(** [len(s.split())], the word count the writer uses. *)
Definition word_count (s : string) : nat := length (split s).

(** [s * n]. *)
Fixpoint repeat (s : string) (n : nat) : string :=
  match n with
  | O => ""
  | S n' => s +:+ repeat s n'
  end.

(** [s.replace(old, new)] for a one-character [old]. *)
Fixpoint replace_char (old : ascii) (new : string) (s : string) : string :=
  match s with
  | EmptyString => ""
  | String c s' =>
      if Ascii.eqb c old then new +:+ replace_char old new s'
      else String c (replace_char old new s')
  end.

(** The newline character as a string. *)
Definition nl : string := String "010"%char "".

(** Truthiness of a string. *)
Definition truthy (s : string) : bool :=
  match s with EmptyString => false | _ => true end.

(** Predicates used to state properties of strings. A token is a non-empty
    run of non-whitespace characters. *)
Definition no_space (l : list ascii) : Prop :=
  Forall (fun c => is_space c = false) l.
Definition token (t : string) : Prop := t <> "" /\ no_space (chars t).

(** No whitespace character is followed by another one. *)
Definition spaced (l : list ascii) : Prop :=
  forall i c d, l !! i = Some c -> l !! S i = Some d ->
                is_space c = true -> is_space d = false.

Definition head_no_space (l : list ascii) : Prop :=
  forall c, head l = Some c -> is_space c = false.

Definition last_no_space (l : list ascii) : Prop :=
  forall c, last l = Some c -> is_space c = false.

End Py.

(** ** Exceptions and results *)

Inductive exn : Type :=
  | HttpError (msg : string)
  | TranscriptsDisabled
  | NoTranscriptFound
  | OSError (msg : string)
  | TypeError (msg : string)
  | OtherException (type_name msg : string).

(** [type(e).__name__]. *)
Definition exn_name (e : exn) : string :=
  match e with
  | HttpError _ => "HttpError"
  | TranscriptsDisabled => "TranscriptsDisabled"
  | NoTranscriptFound => "NoTranscriptFound"
  | OSError _ => "OSError"
  | TypeError _ => "TypeError"
  | OtherException n _ => n
  end.

(** [str(e)] as it appears in an f-string. *)
Definition exn_msg (e : exn) : string :=
  match e with
  | HttpError m | OSError m | TypeError m | OtherException _ m => m
  | TranscriptsDisabled => "TranscriptsDisabled"
  | NoTranscriptFound => "NoTranscriptFound"
  end.

Inductive result (A : Type) : Type :=
  | Ok (a : A)
  | Raise (e : exn).
Arguments Ok {A} a.
Arguments Raise {A} e.

Definition rbind {A B} (m : result A) (k : A -> result B) : result B :=
  match m with Ok a => k a | Raise e => Raise e end.

(** ** Configuration (lines 18-29) *)

Definition TARGET_CHANNEL_ID : string := "UCWrF0oN6unbXrWsTN7RctTw".
Definition PREFERRED_LANGUAGES : list string := ["en"].
Definition MAX_WORDS_PER_FILE : nat := 500000.

(** ** get_ordinal (lines 33-39) *)

Definition get_ordinal (n : nat) : string :=
  let suffix :=
    if Nat.leb 11 (n mod 100) && Nat.leb (n mod 100) 13 then "th"
    else nth (Nat.min (n mod 10) 4) ["th"; "st"; "nd"; "rd"; "th"] "th" in
  Py.str n +:+ suffix.

(** ** sanitize_filename (lines 43-54) *)

(** The character class of the regular expression on line 46; code 034 is
    the double quote. *)
Definition is_invalid_char (c : ascii) : bool :=
  match c with
  | "<" | ">" | ":" | "034" | "/" | "\" | "|" | "?" | "*" => true
  | _ => false
  end%char.

(** The [re.sub] of line 46: every character of the class is deleted. *)
Fixpoint remove_invalid (name : string) : string :=
  match name with
  | EmptyString => ""
  | String c s => if is_invalid_char c then remove_invalid s
                  else String c (remove_invalid s)
  end.

Definition sanitize_filename (name : string) : string :=
  let sanitized := remove_invalid name in
  let sanitized := Py.join " " (Py.split (Py.strip sanitized)) in
  if Py.truthy sanitized then sanitized else "youtube_channel".

(** ** format_video_entry (lines 58-87) *)

(** The part of the standard [datetime] module the script uses.
    [fromisoformat] answers [None] where Python raises [ValueError];
    [strftime] renders a parsed value under a format string. *)
Class DateTime : Type := {
  datetime : Type;
  fromisoformat : string -> option datetime;
  strftime : datetime -> string -> string;
}.

(** A metadata record: the dictionary built on lines 218-223, or the error
    marker of lines 239-249, or the empty dictionary of line 406. *)
Abbreviation metadata_t := (gmap string string).

(** [metadata.get(key, 'N/A')]. *)
Definition get_or_na (metadata : metadata_t) (key : string) : string :=
  default "N/A" (metadata !! key).

Definition published_at_formatted `{DateTime} (metadata : metadata_t) : string :=
  let published_at_raw := get_or_na metadata "publishedAt" in
  if String.eqb published_at_raw "N/A" then "N/A"
  else
    match fromisoformat (Py.replace_char "Z" "+00:00" published_at_raw) with
    | Some dt_obj => strftime dt_obj "%Y-%m-%d %H:%M:%S %Z"
    | None => published_at_raw
    end.

(** [transcript_text] is [None] or a string; [if transcript_text] holds for
    a non-empty string only. *)
Definition text_truthy (t : option string) : bool :=
  match t with
  | Some s => Py.truthy s
  | None => false
  end.

Definition entry_lines `{DateTime} (video_number : nat) (video_id : string)
    (metadata : metadata_t) (transcript_text : option string)
    (transcript_lang : string) : list string :=
  [ "--- Video " +:+ Py.str video_number +:+ " ---";
    "Video ID: " +:+ video_id;
    "URL: " +:+ get_or_na metadata "url";
    "Title: " +:+ get_or_na metadata "title";
    "Published: " +:+ published_at_formatted metadata;
    "Description:" +:+ Py.nl +:+ get_or_na metadata "description" +:+ Py.nl;
    "Transcript Language: " +:+ transcript_lang ]
  ++ [ if text_truthy transcript_text then default "" transcript_text
       else "--- Transcript not available or fetch failed ---" ]
  ++ [ Py.nl +:+ Py.repeat "=" 40 +:+ Py.nl ].

Definition format_video_entry `{DateTime} (video_number : nat)
    (video_id : string) (metadata : metadata_t)
    (transcript_text : option string) (transcript_lang : string) : string :=
  Py.join Py.nl
    (entry_lines video_number video_id metadata transcript_text transcript_lang).

(** A sample [DateTime]: it reads the layout the listing service emits,
    [YYYY-MM-DDTHH:MM:SS] followed by [+00:00], and prints it back under the
    format of line 68. It serves the examples only. *)
Module SampleDateTime.

Record dt : Type := Dt {
  year : nat; month : nat; day : nat;
  hour : nat; minute : nat; second : nat;
}.

Definition digit (c : ascii) : option nat :=
  let n := nat_of_ascii c in
  if Nat.leb 48 n && Nat.leb n 57 then Some (n - 48) else None.

Fixpoint digits (k : nat) (acc : nat) (s : string) : option (nat * string) :=
  match k with
  | O => Some (acc, s)
  | S k' =>
      match s with
      | String c s' =>
          match digit c with
          | Some d => digits k' (10 * acc + d) s'
          | None => None
          end
      | EmptyString => None
      end
  end.

Definition expect (c : ascii) (s : string) : option string :=
  match s with
  | String c' s' => if Ascii.eqb c c' then Some s' else None
  | EmptyString => None
  end.

Definition is_leap (y : nat) : bool :=
  (Nat.eqb (y mod 4) 0 && negb (Nat.eqb (y mod 100) 0)) || Nat.eqb (y mod 400) 0.

Definition days_in_month (y m : nat) : nat :=
  match m with
  | 2 => if is_leap y then 29 else 28
  | 4 | 6 | 9 | 11 => 30
  | _ => 31
  end.

Definition parse (s : string) : option dt :=
  '(y, s) ← digits 4 0 s; s ← expect "-" s;
  '(mo, s) ← digits 2 0 s; s ← expect "-" s;
  '(d, s) ← digits 2 0 s; s ← expect "T" s;
  '(h, s) ← digits 2 0 s; s ← expect ":" s;
  '(mi, s) ← digits 2 0 s; s ← expect ":" s;
  '(se, s) ← digits 2 0 s;
  if String.eqb s "+00:00"
     && Nat.leb 1 y && Nat.leb 1 mo && Nat.leb mo 12
     && Nat.leb 1 d && Nat.leb d (days_in_month y mo)
     && Nat.leb h 23 && Nat.leb mi 59 && Nat.leb se 59
  then Some (Dt y mo d h mi se) else None.

Definition pad (width n : nat) : string :=
  let s := Py.str n in Py.repeat "0" (width - String.length s) +:+ s.

Definition print (d : dt) (fmt : string) : string :=
  pad 4 (year d) +:+ "-" +:+ pad 2 (month d) +:+ "-" +:+ pad 2 (day d) +:+ " "
  +:+ pad 2 (hour d) +:+ ":" +:+ pad 2 (minute d) +:+ ":" +:+ pad 2 (second d)
  +:+ " UTC".

Definition instance : DateTime :=
  {| datetime := dt; fromisoformat := parse; strftime := print |}.

End SampleDateTime.

(** ** The listing service *)

(** One item of a [channels().list] response: the values reached by the
    [get] chains of lines 130-135, absent when a key on the way is. *)
Record channel_item : Type := ChannelItem {
  uploads : option string;
  channel_title : option string;
}.

(** One page of a [playlistItems().list] response: per item the value of
    [contentDetails.videoId] if any, and the continuation token if any. *)
Record playlist_page : Type := PlaylistPage {
  page_video_ids : list (option string);
  nextPageToken : option string;
}.

(** One item of a [videos().list] response. *)
Record video_item : Type := VideoItem {
  item_id : option string;
  snippet_title : option string;
  snippet_description : option string;
  snippet_publishedAt : option string;
}.

(** The service object. A request that is issued more than once in a run
    ([playlistItems], [videos]) is answered according to the number of
    requests of that kind already made. [channels_list] answers with the
    value of the [items] key, if present. *)
Record youtube_service : Type := YoutubeService {
  channels_list : string -> result (option (list channel_item));
  playlist_items_list : nat -> string -> option string -> result playlist_page;
  videos_list : nat -> string -> result (list video_item);
}.

(** Truthiness of an optional string ([None] and the empty string are
    false). *)
Definition opt_truthy (o : option string) : bool :=
  match o with
  | Some s => Py.truthy s
  | None => false
  end.

(** [try: body except ...]: [handler] answers [None] for an exception no
    clause matches, which then propagates. *)
Definition try_except {A} (body : result A)
    (handler : exn -> option (result A)) : result A :=
  match body with
  | Ok a => Ok a
  | Raise e => match handler e with Some r => r | None => Raise e end
  end.

Notation "x ←r m ; k" := (rbind m (fun x => k))
  (at level 20, m at level 100, k at level 200, only parsing).
Notation "' x ←r m ; k" := (rbind m (fun x => k))
  (at level 20, x pattern, m at level 100, k at level 200, only parsing).

(** ** get_channel_upload_playlist_id (lines 114-143) *)

(** What the function hands back: a two-element tuple, or the bare [None]
    of line 143. *)
Inductive channel_lookup : Type :=
  | RetPair (playlist_id title : option string)
  | RetNone.

Definition get_channel_upload_playlist_id (youtube : option youtube_service)
    (channel_id : string) : result channel_lookup :=
  match youtube with
  | None => Ok (RetPair None None)
  | Some yt =>
      try_except
        (items ←r channels_list yt channel_id;
         match items with
         | None | Some [] => Ok (RetPair None None)
         | Some (channel_item :: _) =>
             let uploads_playlist_id := uploads channel_item in
             let title := Some (default "Unknown Channel" (channel_title channel_item)) in
             if opt_truthy uploads_playlist_id
             then Ok (RetPair uploads_playlist_id title)
             else Ok (RetPair None title)
         end)
        (fun e => match e with
                  | HttpError _ => Some (Ok RetNone)
                  | _ => None
                  end)
  end.

(** The unpacking [a, b = ...] of lines 353-355. *)
Definition unpack_pair (v : channel_lookup)
    : result (option string * option string) :=
  match v with
  | RetPair a b => Ok (a, b)
  | RetNone => Raise (TypeError "cannot unpack non-iterable NoneType object")
  end.

(** ** get_all_video_ids_in_playlist (lines 146-197) *)

(** What the run does that the return value does not show: the requests it
    sends, with the page token of each and how the service answered, and
    the pauses, in milliseconds. *)
Inductive enum_event : Type :=
  | EvRequest (page_token : option string) (answer : result playlist_page)
  | EvSleep (ms : N).

Record enum_state : Type := EnumState {
  video_ids : list string;
  next_page_token : option string;
  requests : nat;
  enum_log : list enum_event;
}.

(** How the inner [while True] loop ends. *)
Inductive pages_outcome : Type :=
  | PagesReturn (st : enum_state)
  | PagesRaise (e : exn) (st : enum_state)
  | PagesOutOfFuel.

(** The identifiers lines 164-167 append for one page. *)
Definition truthy_ids (items : list (option string)) : list string :=
  omap (fun o => match o with
                 | Some v => if Py.truthy v then Some v else None
                 | None => None
                 end) items.

(** The inner loop, lines 156-172; [fuel] bounds the number of pages. *)
Fixpoint fetch_pages (yt : youtube_service) (playlist_id : string)
    (fuel : nat) (st : enum_state) : pages_outcome :=
  match fuel with
  | O => PagesOutOfFuel
  | S fuel' =>
      let answer := playlist_items_list yt (requests st) playlist_id (next_page_token st) in
      let log := enum_log st ++ [EvRequest (next_page_token st) answer] in
      match answer with
      | Raise e =>
          PagesRaise e (EnumState (video_ids st) (next_page_token st)
                                  (S (requests st)) log)
      | Ok response =>
          let ids := video_ids st ++ truthy_ids (page_video_ids response) in
          let token := nextPageToken response in
          if opt_truthy token
          then fetch_pages yt playlist_id fuel'
                 (EnumState ids token (S (requests st)) (log ++ [EvSleep 100%N]))
          else PagesReturn (EnumState ids token (S (requests st)) log)
      end
  end.

(** The outer [while retries > 0] loop, lines 154-197, for
    [max_retries = 3]. [None] stands for a run that [fuel] pages per attempt
    do not finish. *)
Fixpoint retry_pages (yt : youtube_service) (playlist_id : string)
    (fuel : nat) (max_retries retries : nat) (st : enum_state)
    : option (result enum_state) :=
  match retries with
  | O => Some (Ok st)
  | S retries' =>
      match fetch_pages yt playlist_id fuel st with
      | PagesOutOfFuel => None
      | PagesReturn st' => Some (Ok st')
      | PagesRaise e st' =>
          match e with
          | HttpError _ =>
              match retries' with
              | O => Some (Ok st')
              | S _ =>
                  let wait_time := (2 ^ N.of_nat (max_retries - retries'))%N in
                  retry_pages yt playlist_id fuel max_retries retries'
                    (EnumState (video_ids st') (next_page_token st') (requests st')
                               (enum_log st' ++ [EvSleep (1000 * wait_time)%N]))
              end
          | _ => Some (Ok st')
          end
      end
  end.

(** The whole run with its events. *)
Definition enumerate_playlist (youtube : option youtube_service)
    (playlist_id : string) (fuel : nat) : option (result enum_state) :=
  match youtube with
  | None => Some (Ok (EnumState [] None 0 []))
  | Some yt =>
      if negb (Py.truthy playlist_id) then Some (Ok (EnumState [] None 0 []))
      else retry_pages yt playlist_id fuel 3 3 (EnumState [] None 0 [])
  end.

(** The function: the list it returns, or the exception it raises. *)
Definition get_all_video_ids_in_playlist (youtube : option youtube_service)
    (playlist_id : string) (fuel : nat) : option (result (list string)) :=
  (fun r => st ←r r; Ok (video_ids st)) <$> enumerate_playlist youtube playlist_id fuel.

(** The identifiers the answers recorded in a log carry, in order. *)
Definition collected (log : list enum_event) : list string :=
  log ≫= (fun ev => match ev with
                    | EvRequest _ (Ok response) => truthy_ids (page_video_ids response)
                    | _ => []
                    end).

(** The runs the enumeration is meant to have, from request number [n] on
    with [failures] refused requests behind it and [token] the page to ask
    for: a page that names a successor is followed, after a tenth of a
    second, by the request for that successor; a refused request is
    followed, after two to the power of the number of failures so far
    seconds, by a request for the same page, unless it is the third failure,
    which ends the run; any other exception ends the run; so does a page
    with no successor. *)
Inductive retry_trace (yt : youtube_service) (playlist_id : string)
    : nat -> nat -> option string -> list enum_event -> Prop :=
  | trace_last_page n failures token response :
      playlist_items_list yt n playlist_id token = Ok response ->
      opt_truthy (nextPageToken response) = false ->
      retry_trace yt playlist_id n failures token [EvRequest token (Ok response)]
  | trace_next_page n failures token response rest :
      playlist_items_list yt n playlist_id token = Ok response ->
      opt_truthy (nextPageToken response) = true ->
      retry_trace yt playlist_id (S n) failures (nextPageToken response) rest ->
      retry_trace yt playlist_id n failures token
        (EvRequest token (Ok response) :: EvSleep 100%N :: rest)
  | trace_retry n failures token msg rest :
      playlist_items_list yt n playlist_id token = Raise (HttpError msg) ->
      S failures < 3 ->
      retry_trace yt playlist_id (S n) (S failures) token rest ->
      retry_trace yt playlist_id n failures token
        (EvRequest token (Raise (HttpError msg))
         :: EvSleep (1000 * 2 ^ N.of_nat (S failures))%N :: rest)
  | trace_exhausted n token msg :
      playlist_items_list yt n playlist_id token = Raise (HttpError msg) ->
      retry_trace yt playlist_id n 2 token
        [EvRequest token (Raise (HttpError msg))]
  | trace_unexpected n failures token e :
      playlist_items_list yt n playlist_id token = Raise e ->
      (forall msg, e <> HttpError msg) ->
      retry_trace yt playlist_id n failures token [EvRequest token (Raise e)].

(** ** get_videos_metadata (lines 200-252) *)

(** [range(start, stop, step)] for a positive [step]. *)
Definition py_range (start stop step : nat) : list nat :=
  (fun k => start + k * step) <$> seq 0 ((stop - start + (step - 1)) / step).

(** [l[i : j]]. *)
Definition slice {A} (l : list A) (i j : nat) : list A := take (j - i) (drop i l).

(** The dictionary the function fills. A key is the [id] of a response item,
    which [item.get] leaves [None] when the item has none, or an identifier
    of the input list. *)
Abbreviation metadata_dict_t := (gmap (option string) metadata_t).

Inductive meta_event : Type :=
  | MvRequest (ids_string : string) (answer : result (list video_item))
  | MvSleep (ms : N).

Record meta_state : Type := MetaState {
  metadata_dict : metadata_dict_t;
  meta_requests : nat;
  meta_log : list meta_event;
}.

(** [str(video_id)] inside the f-string of line 222. *)
Definition str_of_id (video_id : option string) : string :=
  default "None" video_id.

(** The record of lines 218-223. *)
Definition item_record (item : video_item) : metadata_t :=
  {[ "title" := default "N/A" (snippet_title item);
     "description" := default "N/A" (snippet_description item);
     "publishedAt" := default "N/A" (snippet_publishedAt item);
     "url" := "https://www.youtube.com/watch?v=" +:+ str_of_id (item_id item) ]}.

(** Lines 216-223 for one item. *)
Definition store_item (d : metadata_dict_t) (item : video_item) : metadata_dict_t :=
  let video_id := item_id item in
  <[ video_id := item_record item ]> d.

Definition error_marker (msg : string) : metadata_t := {[ "error" := msg ]}.

(** Lines 237-241 and 245-249: the identifiers of the batch that have no
    entry yet get the error marker. *)
Definition mark_failed (msg : string) (batch_ids : list string)
    (d : metadata_dict_t) : metadata_dict_t :=
  foldl (fun d vid => match d !! Some vid with
                      | None => <[ Some vid := error_marker msg ]> d
                      | Some _ => d
                      end) d batch_ids.

(** The retry loop of one batch, lines 210-250. *)
Fixpoint fetch_batch (yt : youtube_service) (batch_ids : list string)
    (max_retries retries : nat) (st : meta_state) : result meta_state :=
  match retries with
  | O => Ok st
  | S retries' =>
      let ids_string := Py.join "," batch_ids in
      let answer := videos_list yt (meta_requests st) ids_string in
      let log := meta_log st ++ [MvRequest ids_string answer] in
      let n := S (meta_requests st) in
      try_except
        (items ←r answer;
         Ok (MetaState (foldl store_item (metadata_dict st) items) n log))
        (fun e =>
           match e with
           | HttpError _ =>
               match retries' with
               | O =>
                   Some (Ok (MetaState
                     (mark_failed "Metadata fetch failed after retries"
                                  batch_ids (metadata_dict st)) n log))
               | S _ =>
                   let wait_time := (2 ^ N.of_nat (max_retries - retries'))%N in
                   Some (fetch_batch yt batch_ids max_retries retries'
                     (MetaState (metadata_dict st) n
                                (log ++ [MvSleep (1000 * wait_time)%N])))
               end
           | _ =>
               Some (Ok (MetaState
                 (mark_failed ("Unexpected metadata fetch error: " +:+ exn_msg e)
                              batch_ids (metadata_dict st)) n log))
           end)
  end.

(** A [for] loop whose body may raise. *)
Fixpoint for_each {A S} (body : S -> A -> result S) (st : S) (l : list A)
    : result S :=
  match l with
  | [] => Ok st
  | a :: l' => st' ←r body st a; for_each body st' l'
  end.

(** One turn of the [for] loop, lines 207-251. *)
Definition batch_step (yt : youtube_service) (video_ids : list string)
    (st : meta_state) (i : nat) : result meta_state :=
  let batch_ids := slice video_ids i (i + 50) in
  st' ←r fetch_batch yt batch_ids 3 3 st;
  Ok (MetaState (metadata_dict st') (meta_requests st')
                (meta_log st' ++ [MvSleep 200%N])).

Definition fetch_all_metadata (yt : youtube_service) (video_ids : list string)
    : result meta_state :=
  for_each (batch_step yt video_ids) (MetaState ∅ 0 [])
           (py_range 0 (length video_ids) 50).

Definition get_videos_metadata (youtube : option youtube_service)
    (video_ids : list string) : result metadata_dict_t :=
  match youtube, video_ids with
  | None, _ | _, [] => Ok ∅
  | Some yt, _ => st ←r fetch_all_metadata yt video_ids; Ok (metadata_dict st)
  end.

(** The batches the loop of line 207 walks through. *)
Definition batches (video_ids : list string) : list (list string) :=
  (fun i => slice video_ids i (i + 50)) <$> py_range 0 (length video_ids) 50.

(** One turn of that loop as a function of the batch. *)
Definition batch_body (yt : youtube_service) (st : meta_state)
    (batch_ids : list string) : result meta_state :=
  st' ←r fetch_batch yt batch_ids 3 3 st;
  Ok (MetaState (metadata_dict st') (meta_requests st')
                (meta_log st' ++ [MvSleep 200%N])).

(** A batch whose first request is number [n] fails with the message [msg]
    when its three requests are all refused, or when one of them, after
    refusals only, meets another exception. *)
Inductive batch_failure (yt : youtube_service) (ids_string : string) (n : nat)
    : string -> Prop :=
  | failure_exhausted :
      (forall k, k < 3 -> exists m, videos_list yt (n + k) ids_string = Raise (HttpError m)) ->
      batch_failure yt ids_string n "Metadata fetch failed after retries"
  | failure_unexpected k e :
      k < 3 ->
      (forall j, j < k -> exists m, videos_list yt (n + j) ids_string = Raise (HttpError m)) ->
      videos_list yt (n + k) ids_string = Raise e ->
      (forall m, e <> HttpError m) ->
      batch_failure yt ids_string n ("Unexpected metadata fetch error: " +:+ exn_msg e).

(** An entry that holds the error marker, or a record stored since. *)
Definition marked_or_stored (msg : string) (entry : option metadata_t) : Prop :=
  entry = Some (error_marker msg) \/ exists item, entry = Some (item_record item).

(** ** The transcript service *)

(** One fragment of a fetched transcript: its [text] when it has one that is
    a string, anything else otherwise (no [text] attribute, a [text] that is
    not a string, or an access that raises, which line 307 swallows). *)
Inductive fragment : Type :=
  | FragmentText (text : string)
  | FragmentOther.

(** One transcript track; [fetch] is what [transcript.fetch()] answers. *)
Record transcript : Type := Transcript {
  language : string;
  language_code : string;
  is_generated : bool;
  fetch : result (list fragment);
}.

(** The object [list_transcripts] answers with: the manually created tracks
    and the generated ones. Iterating over it yields the former, then the
    latter. *)
Record transcript_list : Type := TranscriptList {
  manually_created : list transcript;
  generated : list transcript;
}.

Definition all_transcripts (tl : transcript_list) : list transcript :=
  manually_created tl ++ generated tl.

(** The lookup behind both [find_..._transcript] methods: the first
    requested language code that has a track wins. *)
Fixpoint find_transcript (language_codes : list string)
    (tracks : list transcript) : result transcript :=
  match language_codes with
  | [] => Raise NoTranscriptFound
  | code :: rest =>
      match List.find (fun t => String.eqb (language_code t) code) tracks with
      | Some t => Ok t
      | None => find_transcript rest tracks
      end
  end.

Definition find_manually_created_transcript (tl : transcript_list)
    (language_codes : list string) : result transcript :=
  find_transcript language_codes (manually_created tl).

Definition find_generated_transcript (tl : transcript_list)
    (language_codes : list string) : result transcript :=
  find_transcript language_codes (generated tl).

(** [YouTubeTranscriptApi.list_transcripts]. *)
Abbreviation transcript_api := (string -> result transcript_list).

(** ** get_transcript_for_video (lines 255-326) *)

(** Lines 263-287: the track to fetch and its language. *)
Definition select_transcript (tl : transcript_list) (languages : list string)
    : result (transcript * string) :=
  try_except
    (t ←r find_manually_created_transcript tl languages; Ok (t, language t))
    (fun e =>
       match e with
       | NoTranscriptFound =>
           Some (try_except
             (t ←r find_generated_transcript tl languages; Ok (t, language t))
             (fun e =>
                match e with
                | NoTranscriptFound =>
                    Some (match all_transcripts tl with
                          | t :: _ => Ok (t, language t)
                          | [] => Raise NoTranscriptFound
                          end)
                | _ => None
                end))
       | _ => None
       end).

(** [" ".join(text.split())]. *)
Definition clean_text (text : string) : string := Py.join " " (Py.split text).

(** Lines 298-308: the cleaned text of every fragment that has a non-empty
    string as text. *)
Definition full_transcript_parts (fetched : list fragment) : list string :=
  omap (fun item => match item with
                    | FragmentText text =>
                        if Py.truthy text then Some (clean_text text) else None
                    | FragmentOther => None
                    end) fetched.

(** The texts line 302 lets through, in the order of the fragments: those
    of the fragments whose text is a non-empty string. *)
Definition non_empty_texts (fetched : list fragment) : list string :=
  omap (fun item => match item with
                    | FragmentText text => if Py.truthy text then Some text else None
                    | FragmentOther => None
                    end) fetched.

(** The status the clauses of lines 318-326 give an exception. *)
Definition failure_status (e : exn) : string :=
  match e with
  | TranscriptsDisabled => "Transcripts Disabled"
  | NoTranscriptFound => "No Transcript Found"
  | _ => "Error: " +:+ exn_name e
  end.

(** Lines 289-316: the text of the selected track. *)
Definition fetch_text (t : transcript) (found_lang : string)
    : result (option string * string) :=
  fetched_transcript_list ←r fetch t;
  match fetched_transcript_list with
  | [] => Ok (None, found_lang)
  | _ =>
      match full_transcript_parts fetched_transcript_list with
      | [] => Ok (None, found_lang)
      | parts => Ok (Some (Py.join " " parts), found_lang)
      end
  end.

(** The three [except] clauses of lines 318-326. *)
Definition transcript_handler (e : exn)
    : option (result (option string * string)) :=
  match e with
  | TranscriptsDisabled => Some (Ok (None, "Transcripts Disabled"))
  | NoTranscriptFound => Some (Ok (None, "No Transcript Found"))
  | _ => Some (Ok (None, "Error: " +:+ exn_name e))
  end.

Definition get_transcript_for_video (api : transcript_api) (video_id : string)
    (languages : list string) : result (option string * string) :=
  try_except
    (transcript_list ←r api video_id;
     '(t, found_lang) ←r select_transcript transcript_list languages;
     fetch_text t found_lang)
    transcript_handler.

(** ** The main program (lines 333-614) *)

(** The three settings of lines 24-28 that the writer reads. *)
Record config : Type := Config {
  target_channel_id : string;
  preferred_languages : list string;
  max_words_per_file : nat;
}.

Definition default_config : config :=
  Config TARGET_CHANNEL_ID PREFERRED_LANGUAGES MAX_WORDS_PER_FILE.

(** Everything outside the script: the credential, the two services, the
    clock (already rendered as on line 502) and the file system, whose
    operations fail where the three predicates say so, and whose
    [os.makedirs(path, exist_ok=True)] answers or raises as [makedirs]
    says. *)
Record environment : Type := Environment {
  developer_key : option string;
  build_service : result youtube_service;
  list_transcripts : transcript_api;
  now : string;
  open_fails : string -> bool;
  write_fails : string -> string -> bool;
  rename_fails : string -> string -> bool;
  makedirs : string -> result unit;
}.

(** [get_youtube_service], lines 91-111. *)
Definition get_youtube_service (env : environment) : option youtube_service :=
  if negb (opt_truthy (developer_key env)) then None
  else match build_service env with
       | Ok yt => Some yt
       | Raise _ => None
       end.

(** [os.path.join] of a directory and a relative name. *)
Definition path_join (dir name : string) : string := dir +:+ "/" +:+ name.

(** The local variables of the file-splitting loop, the files written so
    far (a path maps to the chunks written to it, oldest first) and the
    numbers of the videos whose turn of the loop has begun. *)
Record writer_state : Type := WriterState {
  current_word_count : nat;
  current_file_handle : option string;
  current_filename_temp : option string;
  file_start_video_number : nat;
  output_filenames : list string;
  successful_transcripts : nat;
  videos_with_issues : nat;
  current_video_number : nat;
  files : gmap string (list string);
  processing : list nat;
}.

Definition final_filename_base (first last : nat) : string :=
  "video-" +:+ get_ordinal first +:+ "-" +:+ get_ordinal last +:+ "-transcripts.txt".

Definition partial_filename_base (first last : nat) : string :=
  "video-" +:+ get_ordinal first +:+ "-" +:+ get_ordinal last
  +:+ "-transcripts_PARTIAL.txt".

Definition temp_filename_base (part : nat) : string :=
  "temp_transcripts_part_" +:+ Py.str part +:+ ".txt".

(** [os.rename(src, dst)] on the model of the file system. *)
Definition rename_file (src dst : string) (fs : gmap string (list string))
    : gmap string (list string) :=
  match fs !! src with
  | Some content => <[ dst := content ]> (delete src fs)
  | None => fs
  end.

(** Closing the open file and renaming it: lines 463-480, 531-553 and
    562-585, which differ in the target name and in the marker appended to
    the temporary name when the renaming fails. *)
Definition close_and_rename (env : environment) (target failed_marker : string)
    (st : writer_state) : writer_state :=
  let temp := default "" (current_filename_temp st) in
  let renamed := negb (rename_fails env temp target) in
  WriterState
    (current_word_count st) None (current_filename_temp st)
    (file_start_video_number st)
    (output_filenames st ++ [if renamed then target else temp +:+ failed_marker])
    (successful_transcripts st) (videos_with_issues st)
    (current_video_number st)
    (if renamed then rename_file temp target (files st) else files st)
    (processing st).

(** The header of a new file, lines 499-507. *)
Definition file_header (cfg : config) (env : environment)
    (channel_title : string) (total_videos first : nat) : string :=
  "--- YouTube Channel Transcript Export ---" +:+ Py.nl
  +:+ "Channel: " +:+ channel_title +:+ " (ID: " +:+ target_channel_id cfg +:+ ")" +:+ Py.nl
  +:+ "Export Date: " +:+ now env +:+ Py.nl
  +:+ "Total Videos Found (in channel): " +:+ Py.str total_videos +:+ Py.nl
  +:+ "Preferred Languages: " +:+ Py.join ", " (preferred_languages cfg) +:+ Py.nl
  +:+ "--- Videos starting from " +:+ get_ordinal first +:+ " in this file ---" +:+ Py.nl
  +:+ Py.repeat "=" 40 +:+ Py.nl +:+ Py.nl.

(** How one turn of the loop, and the loop, ends. *)
Inductive flow : Type :=
  | Continue
  | Break
  | Raised (e : exn).

Section Writer.

Context `{DateTime}.
Variable cfg : config.
Variable env : environment.
Variable channel_title : string.
Variable output_dir : string.
Variable total_videos : nat.
Variable all_metadata : metadata_dict_t.

(** Lines 406-438: the transcript text, the language or status, and
    whether the video counts as a success. *)
Definition transcript_of_video (video_id : string) (metadata : metadata_t)
    : result (option string * string * bool) :=
  match metadata !! "error" with
  | Some err => Ok (None, "Skipped (" +:+ err +:+ ")", false)
  | None =>
      '(transcript_text, transcript_lang) ←r
        get_transcript_for_video (list_transcripts env) video_id
                                 (preferred_languages cfg);
      Ok (transcript_text, transcript_lang, text_truthy transcript_text)
  end.

(** Line 454. *)
Definition needs_new_file (st : writer_state) (entry_word_count : nat) : bool :=
  match current_file_handle st with
  | None => true
  | Some _ =>
      Nat.ltb (max_words_per_file cfg) (current_word_count st + entry_word_count)
      && Nat.ltb 0 (current_word_count st)
  end.

(** Lines 461-480: the file that is open is closed under its final name. *)
Definition close_previous (st : writer_state) : writer_state :=
  match current_file_handle st with
  | None => st
  | Some _ =>
      let last_video_number_in_file := current_video_number st - 1 in
      let final_filepath :=
        path_join output_dir
          (final_filename_base (file_start_video_number st)
                               last_video_number_in_file) in
      close_and_rename env final_filepath " (rename failed)" st
  end.

(** Lines 482-517: a new temporary file is opened and gets its header. *)
Definition start_new_file (st : writer_state) : flow * writer_state :=
  let first := current_video_number st in
  let temp :=
    path_join output_dir (temp_filename_base (length (output_filenames st) + 1)) in
  let header := file_header cfg env channel_title total_videos first in
  if open_fails env temp then
    (Break,
     WriterState (current_word_count st) None (Some temp) first
       (output_filenames st) (successful_transcripts st)
       (videos_with_issues st) (current_video_number st) (files st)
       (processing st))
  else if write_fails env temp header then
    (Break,
     WriterState (current_word_count st) None (Some temp) first
       (output_filenames st) (successful_transcripts st)
       (videos_with_issues st) (current_video_number st)
       (<[ temp := [] ]> (files st)) (processing st))
  else
    (Continue,
     WriterState (Py.word_count header) (Some temp) (Some temp) first
       (output_filenames st) (successful_transcripts st)
       (videos_with_issues st) (current_video_number st)
       (<[ temp := [header] ]> (files st)) (processing st)).

(** Lines 519-554: the entry is appended, or the file is closed under a
    PARTIAL name. *)
Definition write_entry (video_entry_text : string) (entry_word_count : nat)
    (st : writer_state) : flow * writer_state :=
  match current_file_handle st with
  | None => (Continue, st)
  | Some handle =>
      let chunk := video_entry_text +:+ Py.nl in
      if write_fails env handle chunk then
        let last_video_number_in_file := current_video_number st - 1 in
        let partial_filepath :=
          path_join output_dir
            (partial_filename_base (file_start_video_number st)
                                   last_video_number_in_file) in
        (Break, close_and_rename env partial_filepath " (partial, rename failed)" st)
      else
        (Continue,
         WriterState (current_word_count st + entry_word_count)
           (current_file_handle st) (current_filename_temp st)
           (file_start_video_number st) (output_filenames st)
           (successful_transcripts st) (videos_with_issues st)
           (current_video_number st)
           (<[ handle := default [] (files st !! handle) ++ [chunk] ]> (files st))
           (processing st))
  end.

(** Lines 400-449 for the video at index [i]: the loop variable and the
    log are updated, the transcript is fetched and counted, the entry is
    rendered. *)
Definition entry_of_video (i : nat) (video_id : string) (st : writer_state)
    : writer_state * result string :=
  let n := i + 1 in
  let metadata := default ∅ (all_metadata !! Some video_id) in
  let st :=
    WriterState (current_word_count st) (current_file_handle st)
      (current_filename_temp st) (file_start_video_number st)
      (output_filenames st) (successful_transcripts st)
      (videos_with_issues st) n (files st) (processing st ++ [n]) in
  match transcript_of_video video_id metadata with
  | Raise e => (st, Raise e)
  | Ok (transcript_text, transcript_lang, success) =>
      (WriterState (current_word_count st) (current_file_handle st)
         (current_filename_temp st) (file_start_video_number st)
         (output_filenames st)
         (if success then S (successful_transcripts st)
          else successful_transcripts st)
         (if success then videos_with_issues st
          else S (videos_with_issues st))
         (current_video_number st) (files st) (processing st),
       Ok (format_video_entry n video_id metadata transcript_text transcript_lang))
  end.

(** Lines 454-517: the file the entry goes to, the open one or a new one. *)
Definition file_for_entry (entry_word_count : nat) (st : writer_state)
    : flow * writer_state :=
  if needs_new_file st entry_word_count
  then start_new_file (close_previous st)
  else (Continue, st).

(** One turn of the loop, lines 400-557, for the video at index [i]. *)
Definition process_video (i : nat) (video_id : string) (st : writer_state)
    : flow * writer_state :=
  match entry_of_video i video_id st with
  | (st, Raise e) => (Raised e, st)
  | (st, Ok video_entry_text) =>
      let entry_word_count := Py.word_count video_entry_text in
      match file_for_entry entry_word_count st with
      | (Continue, st) => write_entry video_entry_text entry_word_count st
      | stop => stop
      end
  end.

(** The [for] loop of line 399 from index [i] on. *)
Fixpoint process_videos (i : nat) (video_ids : list string) (st : writer_state)
    : flow * writer_state :=
  match video_ids with
  | [] => (Continue, st)
  | video_id :: rest =>
      match process_video i video_id st with
      | (Continue, st') => process_videos (S i) rest st'
      | stop => stop
      end
  end.

(** The [finally] block, lines 559-585. *)
Definition finalize_last_file (st : writer_state) : writer_state :=
  match current_file_handle st with
  | None => st
  | Some _ =>
      let last_video_number_in_file := current_video_number st in
      let final_filepath :=
        path_join output_dir
          (final_filename_base (file_start_video_number st)
                               last_video_number_in_file) in
      close_and_rename env final_filepath " (rename failed)" st
  end.

(** The state on line 383-388, before the loop. *)
Definition initial_writer_state (fs : gmap string (list string)) : writer_state :=
  WriterState 0 None None 1 [] 0 0 0 fs [].

(** Lines 398-585: the loop and its [finally] block. An exception a turn
    raises comes back after the block has run. *)
Definition write_all (video_ids : list string) (fs : gmap string (list string))
    : flow * writer_state :=
  let '(fl, st) := process_videos 0 video_ids (initial_writer_state fs) in
  (fl, finalize_last_file st).

(** *** Vocabulary for the properties of the writer *)

(** The ranges [first..last] of a list follow one another from [first] up
    to [last] with no gap and no overlap, each with at least one number. *)
Fixpoint contiguous (first : nat) (ranges : list (nat * nat)) (last : nat) : Prop :=
  match ranges with
  | [] => first = last + 1
  | (a, b) :: rest => a = first /\ a <= b /\ contiguous (b + 1) rest last
  end.

Definition final_filepath (r : nat * nat) : string :=
  path_join output_dir (final_filename_base r.1 r.2).

(** The temporary path of the file that is opened when [k] names are
    listed. *)
Definition temp_filepath (k : nat) : string :=
  path_join output_dir (temp_filename_base (k + 1)).

(** The name [output_filenames] gets for the file number [k] (from 0) that
    holds the range [r]: the final name, or the temporary one with its
    marker when the renaming fails. *)
Definition listed_name (k : nat) (r : nat * nat) : string :=
  if rename_fails env (temp_filepath k) (final_filepath r)
  then temp_filepath k +:+ " (rename failed)"
  else final_filepath r.

(** No operation that opens or writes a file fails. *)
Definition no_fatal_write_error : Prop :=
  (forall path, open_fails env path = false)
  /\ (forall path text, write_fails env path text = false).

(** What holds between two turns of the loop as long as no write fails,
    after [i] turns, the closed files holding [ranges]. *)
Definition writer_inv (i : nat) (ranges : list (nat * nat)) (st : writer_state)
    : Prop :=
  current_video_number st = i
  /\ processing st = seq 1 i
  /\ output_filenames st = imap listed_name ranges
  /\ contiguous 1 ranges (file_start_video_number st - 1)
  /\ match i with
     | O => current_file_handle st = None
            /\ file_start_video_number st = 1
     | S _ => current_file_handle st = Some (temp_filepath (length ranges))
              /\ current_filename_temp st = Some (temp_filepath (length ranges))
              /\ 1 <= file_start_video_number st <= i
     end.

End Writer.

(** The program from line 345 on; [fuel] bounds the pages of one attempt
    at the playlist. The answer is the flow and final state of the writer
    when the run gets that far. The call of [os.makedirs] on lines 394-396
    stands outside every [try]: what it raises ends the run. *)
Definition main `{DateTime} (cfg : config) (env : environment) (fuel : nat)
    (fs : gmap string (list string))
    : option (result (option (flow * writer_state))) :=
  if negb (opt_truthy (developer_key env)) then Some (Ok None)
  else if negb (Py.truthy (target_channel_id cfg)) then Some (Ok None)
  else
    match get_youtube_service env with
    | None => Some (Ok None)
    | Some youtube_service =>
        match
          (v ←r get_channel_upload_playlist_id (Some youtube_service)
                  (target_channel_id cfg);
           unpack_pair v)
        with
        | Raise e => Some (Raise e)
        | Ok (upload_playlist_id, channel_title) =>
            if negb (opt_truthy upload_playlist_id) then Some (Ok None)
            else
              match get_all_video_ids_in_playlist (Some youtube_service)
                      (default "" upload_playlist_id) fuel with
              | None => None
              | Some (Raise e) => Some (Raise e)
              | Some (Ok video_ids) =>
                  let total_videos := length video_ids in
                  if Nat.ltb 0 total_videos then
                    match get_videos_metadata (Some youtube_service) video_ids with
                    | Raise e => Some (Raise e)
                    | Ok all_metadata =>
                        match channel_title with
                        | None =>
                            Some (Raise (TypeError "expected string or bytes-like object"))
                        | Some title =>
                            let output_dir :=
                              path_join "transcripts_output" (sanitize_filename title) in
                            match makedirs env output_dir with
                            | Raise e => Some (Raise e)
                            | Ok _ =>
                                match write_all cfg env title output_dir total_videos
                                                all_metadata video_ids fs with
                                | (Raised e, _) => Some (Raise e)
                                | r => Some (Ok (Some r))
                                end
                            end
                        end
                    end
                  else Some (Ok None)
              end
        end
    end.

(** ** Sample environments for the examples *)

Module Samples.

(** A service whose channel lookup is refused, as when the quota is
    exhausted; the other two requests answer with nothing. *)
Definition refused_service : youtube_service :=
  YoutubeService
    (fun _ => Raise (HttpError "quotaExceeded"))
    (fun _ _ _ => Ok (PlaylistPage [] None))
    (fun _ _ => Ok []).

Definition quiet_transcripts : transcript_api :=
  fun _ => Ok (TranscriptList [] []).

Definition refused_env : environment :=
  Environment (Some "key") (Ok refused_service) quiet_transcripts
              "2025-01-01 00:00:00"
              (fun _ => false) (fun _ _ => false) (fun _ _ => false)
              (fun _ => Ok tt).

(** A video with a manual and a generated English track and a French one. *)
Definition manual_en : transcript :=
  Transcript "English" "en" false
    (Ok [FragmentText "  hello   world "; FragmentOther; FragmentText "again"]).
Definition generated_en : transcript :=
  Transcript "English (auto-generated)" "en" true (Ok [FragmentText "helo wrld"]).
Definition generated_fr : transcript :=
  Transcript "French (auto-generated)" "fr" true (Ok []).

Definition sample_transcripts : transcript_api :=
  fun video_id =>
    if String.eqb video_id "both" then Ok (TranscriptList [manual_en] [generated_en])
    else if String.eqb video_id "generated" then Ok (TranscriptList [] [generated_en])
    else if String.eqb video_id "french" then Ok (TranscriptList [] [generated_fr])
    else if String.eqb video_id "disabled" then Raise TranscriptsDisabled
    else if String.eqb video_id "broken" then Raise (OtherException "VideoUnavailable" "gone")
    else Ok (TranscriptList [] []).

(** A playlist whose first page arrives and whose second page is refused
    every time. *)
Definition flaky_playlist : youtube_service :=
  YoutubeService
    (fun _ => Ok (Some [ChannelItem (Some "UU") (Some "Channel")]))
    (fun n _ _ =>
       match n with
       | 0 => Ok (PlaylistPage [Some "v1"; None; Some "v2"] (Some "page2"))
       | _ => Raise (HttpError "503")
       end)
    (fun _ _ => Ok []).

(** A service that refuses every metadata request. *)
Definition refused_metadata : youtube_service :=
  YoutubeService
    (fun _ => Ok (Some [ChannelItem (Some "UU") (Some "Channel")]))
    (fun _ _ _ => Ok (PlaylistPage [] None))
    (fun _ _ => Raise (HttpError "503")).

(** 120 identifiers, and a service that answers the first and the fifth
    metadata request and refuses the three in between. *)
Definition ids120 : list string := (fun k => "v" +:+ Py.str k) <$> seq 0 120.

Definition second_batch_refused : youtube_service :=
  YoutubeService
    (fun _ => Ok (Some [ChannelItem (Some "UU") (Some "Channel")]))
    (fun _ _ _ => Ok (PlaylistPage [] None))
    (fun n _ =>
       match n with
       | 0 => Ok [VideoItem (Some "v0") (Some "first") None None]
       | 4 => Ok [VideoItem (Some "v100") (Some "last") None None]
       | _ => Raise (HttpError "503")
       end).

(** The writer's surroundings in the examples: the sample transcripts, no
    metadata, and a file system that fails where [wf] and [rf] say. *)
Definition writer_env (wf rf : string -> string -> bool) : environment :=
  Environment (Some "key") (Ok refused_service) sample_transcripts
              "2025-01-01 00:00:00" (fun _ => false) wf rf (fun _ => Ok tt).

Definition never (src dst : string) : bool := false.
Definition always (src dst : string) : bool := true.

(** The write of the entry of video [n] fails. *)
Definition entry_write_fails (n : nat) (path text : string) : bool :=
  String.prefix ("--- Video " +:+ Py.str n +:+ " ---") text.

Definition sample_config (budget : nat) : config := Config "CH" ["en"] budget.

(** A run of the writer over [video_ids], from an empty directory. *)
Definition sample_run (budget : nat) (wf rf : string -> string -> bool)
    (video_ids : list string) : flow * writer_state :=
  @write_all SampleDateTime.instance (sample_config budget) (writer_env wf rf)
    "Channel" "out" (length video_ids) ∅ video_ids ∅.

(** A playlist of three pages whose first request for each page is
    refused. *)
Definition failing_pages : youtube_service :=
  YoutubeService
    (fun _ => Ok (Some [ChannelItem (Some "UU") (Some "Channel")]))
    (fun n _ _ =>
       match n with
       | 1 => Ok (PlaylistPage [Some "v1"] (Some "t1"))
       | 3 => Ok (PlaylistPage [Some "v2"] (Some "t2"))
       | 5 => Ok (PlaylistPage [Some "v3"] None)
       | _ => Raise (HttpError "503")
       end)
    (fun _ _ => Ok []).

(** 101 identifiers of which the 51st and the 101st are the same, and a
    service that answers the first metadata request with nothing, refuses
    the next three and answers the fifth with an item for that
    identifier. *)
Definition ids_dup : list string :=
  ((fun k => "a" +:+ Py.str k) <$> seq 0 50)
  ++ ["dup"] ++ ((fun k => "b" +:+ Py.str k) <$> seq 0 49) ++ ["dup"].

Definition dup_answered_later : youtube_service :=
  YoutubeService
    (fun _ => Ok (Some [ChannelItem (Some "UU") (Some "Channel")]))
    (fun _ _ _ => Ok (PlaylistPage [] None))
    (fun n _ =>
       match n with
       | 0 => Ok []
       | 4 => Ok [VideoItem (Some "dup") (Some "T") None None]
       | _ => Raise (HttpError "503")
       end).

End Samples.


(** ** Vocabulary for the further properties *)

(** A decimal digit. *)
Definition is_digit (c : ascii) : Prop :=
  48 <= nat_of_ascii c <= 57.

(** What a log of the enumeration amounts to: the requests that met an
    exception, the requests that were answered, and the time slept, in
    milliseconds. *)
Definition is_refused (ev : enum_event) : bool :=
  match ev with EvRequest _ (Raise _) => true | _ => false end.

Definition is_answered (ev : enum_event) : bool :=
  match ev with EvRequest _ (Ok _) => true | _ => false end.

Definition failed_requests (log : list enum_event) : nat :=
  length (List.filter is_refused log).

Definition answered_requests (log : list enum_event) : nat :=
  length (List.filter is_answered log).

Definition total_sleep (log : list enum_event) : N :=
  foldr (fun ev acc => match ev with EvSleep ms => (ms + acc)%N | _ => acc end)
        0%N log.

(** The number of requests in a log of the metadata run. *)
Definition request_count (log : list meta_event) : nat :=
  length (List.filter (fun ev => match ev with MvRequest _ _ => true | _ => false end)
                      log).

(** The items request number [k] brings when it asks for the batch [b]. *)
Definition batch_answer (yt : youtube_service) (k : nat) (b : list string)
    : list video_item :=
  match videos_list yt k (Py.join "," b) with
  | Ok items => items
  | Raise _ => []
  end.

(** An item some answer of the service carries. *)
Definition served (yt : youtube_service) (item : video_item) : Prop :=
  exists n ids_string items,
    videos_list yt n ids_string = Ok items /\ item ∈ items.

(** The two messages an error marker can carry. *)
Definition failure_message (msg : string) : Prop :=
  msg = "Metadata fetch failed after retries"
  \/ exists e, msg = "Unexpected metadata fetch error: " +:+ exn_msg e.

(** An entry of the mapping is the record of an item the service answered
    with, stored under the identifier of that item, or an error marker
    under an identifier of the input. *)
Definition entry_ok (yt : youtube_service) (video_ids : list string)
    (k : option string) (m : metadata_t) : Prop :=
  (exists item, served yt item /\ item_id item = k /\ m = item_record item)
  \/ (exists vid msg, k = Some vid /\ vid ∈ video_ids
                      /\ m = error_marker msg /\ failure_message msg).

(** *** Vocabulary for the further properties of the writer *)

Section WriterSpec.

Context `{DateTime}.
Variable cfg : config.
Variable env : environment.
Variable channel_title : string.
Variable output_dir : string.
Variable total_videos : nat.
Variable all_metadata : metadata_dict_t.

(** Line 406. *)
Definition video_metadata (video_id : string) : metadata_t :=
  default ∅ (all_metadata !! Some video_id).

(** What lines 406-438 find for a video: the text, the language or status,
    and whether it counts as a success. *)
Definition video_outcome (video_id : string) : option string * string * bool :=
  match transcript_of_video cfg env video_id (video_metadata video_id) with
  | Ok r => r
  | Raise _ => (None, "N/A", false)
  end.

Definition video_success (video_id : string) : bool := (video_outcome video_id).2.

(** The entry of the video numbered [n] (from 1), line 441. *)
Definition video_entry (n : nat) (video_id : string) : string :=
  format_video_entry n video_id (video_metadata video_id)
    (video_outcome video_id).1.1 (video_outcome video_id).1.2.

Definition entry_at (video_ids : list string) (n : nat) : string :=
  match video_ids !! (n - 1) with
  | Some video_id => video_entry n video_id
  | None => ""
  end.

(** The numbers of the videos of a range. *)
Definition range_numbers (r : nat * nat) : list nat := seq r.1 (r.2 + 1 - r.1).

(** What a file that holds the range [r] is made of: its header, then the
    entry of each video of the range, each followed by a newline. *)
Definition file_content (video_ids : list string) (r : nat * nat) : list string :=
  file_header cfg env channel_title total_videos r.1
  :: ((fun n => entry_at video_ids n +:+ Py.nl) <$> range_numbers r).

(** The words the writer charges to that file. *)
Definition file_words (video_ids : list string) (r : nat * nat) : nat :=
  Py.word_count (file_header cfg env channel_title total_videos r.1)
  + sum_list ((fun n => Py.word_count (entry_at video_ids n)) <$> range_numbers r).

(** The text of a file: its chunks one after the other. *)
Definition file_text (chunks : list string) : string :=
  foldr String.append "" chunks.

(** Where the file number [k] (from 0) that holds the range [r] is found
    once it is closed: under its final name, or still under its temporary
    name when the renaming fails. *)
Definition stored_path (k : nat) (r : nat * nat) : string :=
  if rename_fails env (temp_filepath output_dir k) (final_filepath output_dir r)
  then temp_filepath output_dir k
  else final_filepath output_dir r.

(** What holds of the closed files, which hold [ranges], in the file
    system [fl] that started as [fs]: every one is found at its place with
    its content, its temporary name is gone when it was renamed, and
    nothing but temporary and final names of the directory was touched. *)
Definition closed_inv (video_ids : list string) (fs : gmap string (list string))
    (ranges : list (nat * nat)) (fl : gmap string (list string)) : Prop :=
  (forall k r, ranges !! k = Some r ->
     fl !! stored_path k r = Some (file_content video_ids r))
  /\ (forall k r, ranges !! k = Some r ->
        rename_fails env (temp_filepath output_dir k) (final_filepath output_dir r) = false ->
        fl !! temp_filepath output_dir k = None)
  /\ (forall path,
        (forall k, path <> temp_filepath output_dir k) ->
        (forall r, path <> final_filepath output_dir r) ->
        fl !! path = fs !! path).

(** A file with more than one video is within the budget, and a file was
    closed only because the next entry did not fit. *)
Definition budget_inv (video_ids : list string) (ranges : list (nat * nat))
    : Prop :=
  (forall r, r ∈ ranges ->
     r.1 = r.2 \/ file_words video_ids r <= max_words_per_file cfg)
  /\ (forall r, r ∈ ranges ->
        max_words_per_file cfg
        < file_words video_ids r + Py.word_count (entry_at video_ids (r.2 + 1))).

(** What holds of the files between two turns of the loop, after [i] turns
    with the closed files holding [ranges]: the two above, and the open
    file holds the videos from its first one on, the count kept being the
    count charged. *)
Definition files_inv (video_ids : list string) (fs : gmap string (list string))
    (i : nat) (ranges : list (nat * nat)) (st : writer_state) : Prop :=
  closed_inv video_ids fs ranges (files st)
  /\ budget_inv video_ids ranges
  /\ match i with
     | O => True
     | S _ =>
         let r := (file_start_video_number st, i) in
         files st !! temp_filepath output_dir (length ranges)
           = Some (file_content video_ids r)
         /\ current_word_count st = file_words video_ids r
         /\ (r.1 = r.2 \/ file_words video_ids r <= max_words_per_file cfg)
     end.

End WriterSpec.

(** ** The timestamps the datetime module reads *)

(** [datetime.fromisoformat] and [strftime] are the standard library's, not
    the script's. What the properties of [format_video_entry] need of them
    is stated here as two laws, which every version of the module that has
    [fromisoformat] meets: a timestamp written in one of the forms below is
    read, and printed under the format of line 68 as [render] says; a
    string that does not start with the four digits of a year is rejected
    with [ValueError]. The forms are the calendar date [YYYY-MM-DD], alone
    or followed by [T] or a space and the time [HH:MM], [HH:MM:SS],
    [HH:MM:SS.fff] or [HH:MM:SS.ffffff], itself alone or followed by an
    offset [+HH:MM] or [-HH:MM]. *)
Module Iso.

Definition is_digit_char (c : ascii) : bool :=
  let n := nat_of_ascii c in Nat.leb 48 n && Nat.leb n 57.

(** A string of exactly [k] decimal digits. *)
Definition all_digits (k : nat) (f : string) : bool :=
  Nat.eqb (String.length f) k && forallb is_digit_char (Py.chars f).

(** The number a string of digits denotes. *)
Definition value (f : string) : nat :=
  match NilEmpty.uint_of_string f with
  | Some u => Nat.of_uint u
  | None => 0
  end.

(** A timestamp as it is written: its fields are strings of digits. *)
Record written_offset : Type := WrittenOffset {
  w_negative : bool;
  w_off_hour : string;
  w_off_minute : string;
}.

Record written_time : Type := WrittenTime {
  w_sep : ascii;
  w_hour : string;
  w_minute : string;
  w_second : option (string * option string);
  w_offset : option written_offset;
}.

Record written : Type := Written {
  w_year : string;
  w_month : string;
  w_day : string;
  w_time : option written_time;
}.

Definition offset_to_string (o : written_offset) : string :=
  (if w_negative o then "-" else "+") +:+ w_off_hour o +:+ ":" +:+ w_off_minute o.

Definition second_to_string (s : option (string * option string)) : string :=
  match s with
  | None => ""
  | Some (sec, None) => ":" +:+ sec
  | Some (sec, Some fraction) => ":" +:+ sec +:+ "." +:+ fraction
  end.

Definition time_to_string (t : written_time) : string :=
  String (w_sep t)
    (w_hour t +:+ ":" +:+ w_minute t +:+ second_to_string (w_second t)
     +:+ match w_offset t with
         | None => ""
         | Some o => offset_to_string o
         end).

Definition to_string (w : written) : string :=
  w_year w +:+ "-" +:+ w_month w +:+ "-" +:+ w_day w
  +:+ match w_time w with
      | None => ""
      | Some t => time_to_string t
      end.

Definition valid_offset (o : written_offset) : bool :=
  all_digits 2 (w_off_hour o) && Nat.leb (value (w_off_hour o)) 23
  && all_digits 2 (w_off_minute o) && Nat.leb (value (w_off_minute o)) 59.

Definition valid_second (s : option (string * option string)) : bool :=
  match s with
  | None => true
  | Some (sec, fraction) =>
      all_digits 2 sec && Nat.leb (value sec) 59
      && match fraction with
         | None => true
         | Some f => all_digits 3 f || all_digits 6 f
         end
  end.

Definition valid_time (t : written_time) : bool :=
  (Ascii.eqb (w_sep t) "T" || Ascii.eqb (w_sep t) " ")
  && all_digits 2 (w_hour t) && Nat.leb (value (w_hour t)) 23
  && all_digits 2 (w_minute t) && Nat.leb (value (w_minute t)) 59
  && valid_second (w_second t)
  && match w_offset t with
     | None => true
     | Some o => valid_offset o
     end.

(** The year has four digits and does not start with 0: how [%Y] prints a
    year below 1000 depends on the platform. *)
Definition valid (w : written) : bool :=
  all_digits 4 (w_year w) && Nat.leb 1000 (value (w_year w))
  && all_digits 2 (w_month w)
  && Nat.leb 1 (value (w_month w)) && Nat.leb (value (w_month w)) 12
  && all_digits 2 (w_day w)
  && Nat.leb 1 (value (w_day w))
  && Nat.leb (value (w_day w))
       (SampleDateTime.days_in_month (value (w_year w)) (value (w_month w)))
  && match w_time w with
     | None => true
     | Some t => valid_time t
     end.

(** What is read: the fields as numbers, and the offset from UTC if one is
    written. *)
Record timestamp : Type := Timestamp {
  year : nat; month : nat; day : nat;
  hour : nat; minute : nat; second : nat;
  utcoffset : option (bool * nat * nat);
}.

Definition offset_of (o : written_offset) : bool * nat * nat :=
  (w_negative o, value (w_off_hour o), value (w_off_minute o)).

Definition timestamp_of (w : written) : timestamp :=
  match w_time w with
  | None =>
      Timestamp (value (w_year w)) (value (w_month w)) (value (w_day w)) 0 0 0 None
  | Some t =>
      Timestamp (value (w_year w)) (value (w_month w)) (value (w_day w))
        (value (w_hour t)) (value (w_minute t))
        (match w_second t with Some (sec, _) => value sec | None => 0 end)
        (offset_of <$> w_offset t)
  end.

(** [tzinfo.tzname]: nothing for a timestamp without offset, [UTC] for the
    offset zero, [UTC+HH:MM] or [UTC-HH:MM] otherwise. *)
Definition tzname (o : option (bool * nat * nat)) : string :=
  match o with
  | None => ""
  | Some (negative, h, m) =>
      if Nat.eqb h 0 && Nat.eqb m 0 then "UTC"
      else "UTC" +:+ (if negative then "-" else "+")
           +:+ SampleDateTime.pad 2 h +:+ ":" +:+ SampleDateTime.pad 2 m
  end.

(** [strftime] under the format [%Y-%m-%d %H:%M:%S %Z]. *)
Definition render (t : timestamp) : string :=
  SampleDateTime.pad 4 (year t) +:+ "-" +:+ SampleDateTime.pad 2 (month t)
  +:+ "-" +:+ SampleDateTime.pad 2 (day t) +:+ " "
  +:+ SampleDateTime.pad 2 (hour t) +:+ ":" +:+ SampleDateTime.pad 2 (minute t)
  +:+ ":" +:+ SampleDateTime.pad 2 (second t) +:+ " " +:+ tzname (utcoffset t).

(** The string starts with the four digits of a year. *)
Definition year_prefix (s : string) : bool :=
  match s with
  | String a (String b (String c (String d _))) =>
      is_digit_char a && is_digit_char b && is_digit_char c && is_digit_char d
  | _ => false
  end.

(** The timestamp the listing service sends, [YYYY-MM-DDTHH:MM:SSZ], and
    what line 68 makes of it. *)
Definition utc_written (y mo d h mi s : string) : written :=
  Written y mo d
    (Some (WrittenTime "T" h mi (Some (s, None))
             (Some (WrittenOffset false "00" "00")))).

Definition utc_form (y mo d h mi s : string) : string :=
  y +:+ "-" +:+ mo +:+ "-" +:+ d +:+ "T" +:+ h +:+ ":" +:+ mi +:+ ":" +:+ s +:+ "Z".

Definition utc_rendered (y mo d h mi s : string) : string :=
  y +:+ "-" +:+ mo +:+ "-" +:+ d +:+ " " +:+ h +:+ ":" +:+ mi +:+ ":" +:+ s +:+ " UTC".

(** A reader of the forms above, used to show that the laws can be met. *)
Fixpoint field (k : nat) (s : string) : option (string * string) :=
  match k with
  | O => Some ("", s)
  | S k' =>
      match s with
      | String c s' =>
          if is_digit_char c
          then match field k' s' with
               | Some (f, r) => Some (String c f, r)
               | None => None
               end
          else None
      | EmptyString => None
      end
  end.

Definition expect (c : ascii) (s : string) : option string :=
  match s with
  | String c' s' => if Ascii.eqb c c' then Some s' else None
  | EmptyString => None
  end.

Definition parse_offset (s : string) : option (option (bool * nat * nat)) :=
  match s with
  | EmptyString => Some None
  | String c r =>
      if Ascii.eqb c "+" || Ascii.eqb c "-" then
        '(fh, r) ← field 2 r; r ← expect ":" r; '(fm, r) ← field 2 r;
        if String.eqb r "" && Nat.leb (value fh) 23 && Nat.leb (value fm) 59
        then Some (Some (Ascii.eqb c "-", value fh, value fm))
        else None
      else None
  end.

Definition parse_fraction (s : string) : option string :=
  match s with
  | String c r =>
      if Ascii.eqb c "." then
        match field 6 r with
        | Some (_, r') => Some r'
        | None => snd <$> field 3 r
        end
      else Some s
  | EmptyString => Some s
  end.

Definition parse_second (s : string) : option (nat * string) :=
  match s with
  | String c r =>
      if Ascii.eqb c ":" then
        '(fs, r) ← field 2 r; r ← parse_fraction r; Some (value fs, r)
      else Some (0, s)
  | EmptyString => Some (0, s)
  end.

Definition parse (s : string) : option timestamp :=
  '(fy, r) ← field 4 s; r ← expect "-" r;
  '(fm, r) ← field 2 r; r ← expect "-" r;
  '(fd, r) ← field 2 r;
  let y := value fy in
  let mo := value fm in
  let d := value fd in
  if Nat.leb 1000 y && Nat.leb 1 mo && Nat.leb mo 12
     && Nat.leb 1 d && Nat.leb d (SampleDateTime.days_in_month y mo)
  then
    match r with
    | EmptyString => Some (Timestamp y mo d 0 0 0 None)
    | String sep r =>
        if Ascii.eqb sep "T" || Ascii.eqb sep " " then
          '(fh, r) ← field 2 r; r ← expect ":" r;
          '(fmi, r) ← field 2 r;
          '(sec, r) ← parse_second r;
          off ← parse_offset r;
          if Nat.leb (value fh) 23 && Nat.leb (value fmi) 59 && Nat.leb sec 59
          then Some (Timestamp y mo d (value fh) (value fmi) sec off)
          else None
        else None
    end
  else None.

Definition instance : DateTime :=
  {| datetime := timestamp;
     fromisoformat := parse;
     strftime := fun t _ => render t |}.

End Iso.

(** The two laws. *)
Class DateTimeLaws `{DateTime} : Prop := {
  fromisoformat_reads : forall w,
    Iso.valid w = true ->
    exists d,
      fromisoformat (Iso.to_string w) = Some d
      /\ strftime d "%Y-%m-%d %H:%M:%S %Z" = Iso.render (Iso.timestamp_of w);
  fromisoformat_rejects : forall s,
    Iso.year_prefix s = false -> fromisoformat s = None;
}.

(** ** Vocabulary for the properties of the metadata run *)

(** The items the answered requests of a log carried, in order. *)
Definition answered_items (log : list meta_event) : list video_item :=
  log ≫= (fun ev => match ev with
                    | MvRequest _ (Ok items) => items
                    | _ => []
                    end).

(** The last of the items that carry the identifier [k]: the one whose
    record the mapping keeps. *)
Definition stored_under (k : option string) (items : list video_item)
    : option video_item :=
  last (filter (fun item => item_id item = k) items).

(** The part of a log that belongs to one batch: up to two refused requests,
    each followed by its pause of two and then four seconds, one more
    request, which is refused only if it is the third, and the pause of
    line 251. All requests ask for the identifiers of the batch. *)
Definition refusal (ids_string : string) (j : nat) (msg : string)
    : list meta_event :=
  [MvRequest ids_string (Raise (HttpError msg));
   MvSleep (1000 * 2 ^ N.of_nat (S j))%N].

Definition batch_segment (b : list string) (seg : list meta_event) : Prop :=
  exists msgs answer,
    length msgs <= 2
    /\ seg = concat (imap (refusal (Py.join "," b)) msgs)
             ++ [MvRequest (Py.join "," b) answer; MvSleep 200%N]
    /\ (length msgs < 2 -> forall msg, answer <> Raise (HttpError msg)).

(** * Properties *)

(** ** Python strings *)

Section PyFacts.
Import Py.

Lemma chars_app (a b : string) : chars (a +:+ b) = chars a ++ chars b.
Proof. induction a as [|c a IH]; simpl; [done|]. by rewrite IH. Qed.

Lemma chars_nil (s : string) : chars s = [] -> s = "".
Proof. by destruct s. Qed.

Lemma append_assoc (a b c : string) : (a +:+ b) +:+ c = a +:+ (b +:+ c).
Proof. induction a as [|x a IH]; simpl; [done|]. by rewrite IH. Qed.

Lemma append_nil_r (a : string) : a +:+ "" = a.
Proof. induction a as [|x a IH]; simpl; [done|]. by rewrite IH. Qed.

Lemma split_tokens (s : string) : Forall token (split s).
Proof.
  induction s as [|c s IH]; simpl; [constructor|].
  destruct (is_space c) eqn:Hc; [done|].
  destruct (starts_with_space s).
  - constructor; [|done]. split; [done|]. by repeat constructor.
  - destruct (split s) as [|t ts].
    + repeat constructor; done.
    + inversion IH as [|? ? [Ht Hs] Hts]; subst.
      constructor; [|done]. split; [done|]. by constructor.
Qed.

Lemma split_chars (P : ascii -> Prop) (s : string) :
  Forall P (chars s) -> Forall (fun t => Forall P (chars t)) (split s).
Proof.
  induction s as [|c s IH]; simpl; [constructor|].
  intros H. inversion H as [|? ? Hc Hs]; subst. specialize (IH Hs).
  destruct (is_space c); [done|].
  destruct (starts_with_space s).
  - constructor; [|done]. by repeat constructor.
  - destruct (split s) as [|t ts].
    + by repeat constructor.
    + inversion IH; subst. constructor; [|done]. by constructor.
Qed.

Lemma split_nil_iff (s : string) :
  split s = [] <-> Forall (fun c => is_space c = true) (chars s).
Proof.
  induction s as [|c s IH]; simpl; [by split; constructor|].
  destruct (is_space c) eqn:Hc.
  - rewrite IH. split; [by constructor|]. by inversion 1.
  - split.
    + destruct (starts_with_space s); [done|]. by destruct (split s).
    + inversion 1; congruence.
Qed.

Lemma lstrip_chars (P : ascii -> Prop) (s : string) :
  Forall P (chars s) -> Forall P (chars (lstrip s)).
Proof.
  induction s as [|c s IH]; simpl; [done|].
  intros H. destruct (is_space c); [|done]. inversion H; auto.
Qed.

Lemma rstrip_chars (P : ascii -> Prop) (s : string) :
  Forall P (chars s) -> Forall P (chars (rstrip s)).
Proof.
  induction s as [|c s IH]; simpl; [done|].
  intros H. inversion H as [|? ? Hc Hs]; subst. specialize (IH Hs).
  destruct (rstrip s) as [|d r].
  - destruct (is_space c); by repeat constructor.
  - by constructor.
Qed.

Lemma strip_chars (P : ascii -> Prop) (s : string) :
  Forall P (chars s) -> Forall P (chars (strip s)).
Proof. intros. by apply lstrip_chars, rstrip_chars. Qed.

Lemma join_chars (P : ascii -> Prop) (sep : string) (l : list string) :
  Forall P (chars sep) -> Forall (fun t => Forall P (chars t)) l ->
  Forall P (chars (join sep l)).
Proof.
  intros Hsep. induction 1 as [|t l Ht Hl IH]; [constructor|].
  destruct l as [|u l]; [done|].
  change (join sep (t :: u :: l)) with (t +:+ sep +:+ join sep (u :: l)).
  rewrite !chars_app. by repeat (apply Forall_app; split).
Qed.

Lemma spaced_cons (a : ascii) (l : list ascii) :
  (is_space a = true -> head_no_space l) -> spaced l -> spaced (a :: l).
Proof.
  intros Hh Hl [|i] c d Hc Hd Hsp; simpl in *.
  - injection Hc as ->. apply (Hh Hsp). by destruct l; simplify_eq/=.
  - by apply (Hl i c d).
Qed.

Lemma no_space_spaced (l : list ascii) : no_space l -> spaced l.
Proof.
  intros H i c d Hc _ Hsp.
  apply list_elem_of_lookup_2 in Hc.
  unfold no_space in H. rewrite Forall_forall in H. rewrite (H c Hc) in Hsp. done.
Qed.

Lemma spaced_app_sep (xs ys : list ascii) :
  no_space xs -> head_no_space ys -> spaced ys ->
  spaced (xs ++ " "%char :: ys).
Proof.
  induction 1 as [|a xs Ha Hxs IH]; intros Hh Hs; simpl.
  - by apply spaced_cons.
  - apply spaced_cons; [congruence|]. by apply IH.
Qed.

Lemma token_chars_cons (t : string) :
  token t -> exists c l, chars t = c :: l /\ is_space c = false /\ no_space l.
Proof.
  intros [Hne Hns]. destruct t as [|c t]; [done|].
  exists c, (chars t). inversion Hns; subst. done.
Qed.

Lemma join_cons2 (sep t u : string) (l : list string) :
  chars (join sep (t :: u :: l)) = chars t ++ chars sep ++ chars (join sep (u :: l)).
Proof.
  change (join sep (t :: u :: l)) with (t +:+ sep +:+ join sep (u :: l)).
  by rewrite !chars_app.
Qed.

(** The shape of [" ".join(tokens)]: starts and ends with a token character
    and never has two whitespace characters in a row. *)
Lemma join_tokens (l : list string) :
  Forall token l -> l <> [] ->
  let r := chars (join " " l) in
  r <> [] /\ head_no_space r /\ last_no_space r /\ spaced r.
Proof.
  induction 1 as [|t l Ht Hl IH]; [done|]. intros _.
  destruct (token_chars_cons t Ht) as (c & cs & Hcs & Hc & Hns).
  destruct l as [|u l].
  - simpl. rewrite Hcs. split; [done|]. split; [|split].
    + intros d [= <-]. done.
    + intros d Hd. apply last_Some_elem_of in Hd.
      assert (H : no_space (c :: cs)) by by constructor.
      unfold no_space in H. rewrite Forall_forall in H. auto.
    + apply no_space_spaced. by constructor.
  - destruct IH as (Hne & Hh & Hla & Hsp); [done|].
    cbv zeta in *. rewrite join_cons2, Hcs. change (chars " ") with [" "%char].
    remember (chars (join " " (u :: l))) as R eqn:ER. clear ER.
    simpl. split; [done|]. split; [|split].
    + intros d [= <-]. done.
    + intros d. rewrite app_comm_cons, last_app_cons.
      destruct R as [|r R]; [done|].
      rewrite last_cons_cons. apply Hla.
    + apply spaced_cons; [congruence|].
      apply spaced_app_sep; done.
Qed.

Lemma split_token_app (t s : string) :
  token t -> starts_with_space s = true -> split (t +:+ s) = t :: split s.
Proof.
  intros [Hne Hns] Hs. induction t as [|c t IH]; [done|].
  inversion Hns as [|? ? Hc Ht]; subst. simpl. rewrite Hc.
  destruct t as [|d t].
  - simpl. by rewrite Hs.
  - inversion Ht as [|? ? Hd _]; subst.
    rewrite IH by done. simpl. by rewrite Hd.
Qed.

Lemma split_join_tokens (l : list string) :
  Forall token l -> split (join " " l) = l.
Proof.
  induction 1 as [|t l Ht Hl IH]; [done|].
  destruct l as [|u l].
  - simpl. rewrite <- (append_nil_r t) at 1. by rewrite split_token_app.
  - change (join " " (t :: u :: l)) with (t +:+ " " +:+ join " " (u :: l)).
    rewrite split_token_app by done.
    change (" " +:+ join " " (u :: l)) with (String " " (join " " (u :: l))).
    assert (Hsp : forall s, split (String " " s) = split s) by done.
    by rewrite Hsp, IH.
Qed.

(** In [" ".join(tokens)] the only whitespace is the separator. *)
Lemma join_tokens_plain_spaces (l : list string) :
  Forall token l ->
  Forall (fun c => is_space c = true -> c = " "%char) (chars (join " " l)).
Proof.
  intros Hl. apply join_chars; [by repeat constructor|].
  eapply Forall_impl; [exact Hl|]. intros t [_ Hns].
  eapply Forall_impl; [exact Hns|]. simpl. congruence.
Qed.

End PyFacts.

(** ** sanitize_filename *)

Lemma remove_invalid_chars (name : string) :
  Forall (fun c => is_invalid_char c = false) (Py.chars (remove_invalid name)).
Proof.
  induction name as [|c s IH]; simpl; [constructor|].
  destruct (is_invalid_char c) eqn:Hc; [done|]. by constructor.
Qed.

Lemma remove_invalid_all_space (name : string) :
  Forall (fun c => Py.is_space c || is_invalid_char c = true) (Py.chars name) ->
  Forall (fun c => Py.is_space c = true) (Py.chars (remove_invalid name)).
Proof.
  induction name as [|c s IH]; simpl; [constructor|].
  intros H. inversion H as [|? ? Hc Hs]; subst.
  destruct (is_invalid_char c) eqn:Hi; [auto|].
  constructor; [|auto]. by rewrite orb_false_r in Hc.
Qed.

Lemma truthy_false (s : string) : Py.truthy s = false -> s = "".
Proof. by destruct s. Qed.

(** C10. For every input, [sanitize_filename] returns a non-empty string
    that holds none of the nine characters of the class, neither starts nor
    ends with whitespace, and never has two whitespace characters (so never
    two spaces) in a row; when the input holds only whitespace and invalid
    characters (in particular when it is empty) the result is the fallback
    name. *)
Theorem sanitize_filename_spec (name : string) :
  let r := sanitize_filename name in
  r <> "" /\
  Forall (fun c => is_invalid_char c = false) (Py.chars r) /\
  Py.head_no_space (Py.chars r) /\
  Py.last_no_space (Py.chars r) /\
  Py.spaced (Py.chars r) /\
  (forall i, Py.chars r !! i = Some " "%char ->
             Py.chars r !! S i <> Some " "%char) /\
  (Forall (fun c => Py.is_space c || is_invalid_char c = true) (Py.chars name) ->
   r = "youtube_channel") /\
  sanitize_filename "" = "youtube_channel".
Proof.
  cbv zeta. unfold sanitize_filename.
  set (toks := Py.split (Py.strip (remove_invalid name))).
  assert (Htok : Forall Py.token toks) by apply split_tokens.
  assert (Hinv : Forall (fun c => is_invalid_char c = false)
                        (Py.chars (Py.join " " toks))).
  { apply join_chars; [by repeat constructor|].
    apply split_chars, strip_chars, remove_invalid_chars. }
  assert (Hfb : Forall (fun c => is_invalid_char c = false)
                       (Py.chars "youtube_channel")) by by repeat constructor.
  assert (Hsp : forall l, Py.spaced l ->
            forall i, l !! i = Some " "%char -> l !! S i <> Some " "%char).
  { intros l Hl i Hi Hi'. by specialize (Hl i _ _ Hi Hi' eq_refl). }
  destruct (Py.truthy (Py.join " " toks)) eqn:Htr.
  - assert (Hne : toks <> []) by (intros E; by rewrite E in Htr).
    destruct (join_tokens toks Htok Hne) as (Hr & Hh & Hl & Hs).
    split; [by destruct (Py.join " " toks)|].
    repeat split; auto.
    intros Hall. exfalso. apply Hne. apply split_nil_iff.
    by apply strip_chars, remove_invalid_all_space.
  - split; [done|]. split; [done|].
    split; [by intros c [= <-]|]. split; [by intros c [= <-]|].
    assert (Hs : Py.spaced (Py.chars "youtube_channel")).
    { apply no_space_spaced. by repeat constructor. }
    repeat split; auto.
Qed.

(** Witness for C10: an input made of whitespace and invalid characters. *)
Lemma sanitize_filename_spec_witness :
  Forall (fun c => Py.is_space c || is_invalid_char c = true) (Py.chars " ?* ")
  /\ sanitize_filename " ?* " = "youtube_channel".
Proof.
  assert (H : Forall (fun c => Py.is_space c || is_invalid_char c = true)
                     (Py.chars " ?* ")) by (repeat constructor).
  split; [exact H|].
  exact (proj1 (proj2 (proj2 (proj2 (proj2 (proj2 (proj2
           (sanitize_filename_spec " ?* "))))))) H).
Defined.

Example sanitize_filename_ex :
  sanitize_filename "  My: Channel /  <x>  " = "My Channel x".
Proof. reflexivity. Qed.



(** ** format_video_entry *)

Section FormatFacts.
Context `{DateTime}.

Lemma get_or_na_missing (metadata : metadata_t) (key : string) :
  metadata !! key = None -> get_or_na metadata key = "N/A".
Proof. unfold get_or_na. by intros ->. Qed.

Lemma get_or_na_present (metadata : metadata_t) (key v : string) :
  metadata !! key = Some v -> get_or_na metadata key = v.
Proof. unfold get_or_na. by intros ->. Qed.

Lemma published_missing (metadata : metadata_t) :
  metadata !! "publishedAt" = None -> published_at_formatted metadata = "N/A".
Proof.
  intros Hm. unfold published_at_formatted.
  by rewrite (get_or_na_missing _ _ Hm).
Qed.

Lemma published_parsed (metadata : metadata_t) (raw : string) (dt : datetime) :
  metadata !! "publishedAt" = Some raw -> raw <> "N/A" ->
  fromisoformat (Py.replace_char "Z" "+00:00" raw) = Some dt ->
  published_at_formatted metadata = strftime dt "%Y-%m-%d %H:%M:%S %Z".
Proof.
  intros Hm Hna Hp. unfold published_at_formatted.
  rewrite (get_or_na_present _ _ _ Hm).
  destruct (String.eqb_spec raw "N/A"); [done|]. by rewrite Hp.
Qed.

Lemma published_malformed (metadata : metadata_t) (raw : string) :
  metadata !! "publishedAt" = Some raw ->
  fromisoformat (Py.replace_char "Z" "+00:00" raw) = None ->
  published_at_formatted metadata = raw.
Proof.
  intros Hm Hp. unfold published_at_formatted.
  rewrite (get_or_na_present _ _ _ Hm).
  destruct (String.eqb_spec raw "N/A"); [done|]. by rewrite Hp.
Qed.

End FormatFacts.


(** ** get_channel_upload_playlist_id *)

(** On every path but one the function hands back a pair. *)
Lemma channel_lookup_pair_unless_http_error (yt : youtube_service)
    (channel_id : string) (v : channel_lookup) :
  get_channel_upload_playlist_id (Some yt) channel_id = Ok v ->
  (forall msg, channels_list yt channel_id <> Raise (HttpError msg)) ->
  exists a b, v = RetPair a b.
Proof.
  unfold get_channel_upload_playlist_id, try_except. intros Hv Hne.
  destruct (channels_list yt channel_id) as [[[|item items]|]|e]; simpl in Hv.
  - injection Hv as <-. eauto.
  - destruct (opt_truthy (uploads item)); injection Hv as <-; eauto.
  - injection Hv as <-. eauto.
  - destruct e; try discriminate. by destruct (Hne msg).
Qed.

(** C9, at the failing input. When the channel request is refused with an
    [HttpError], the function hands back the bare [None] of line 143 and not
    a pair, the unpacking of line 353 raises [TypeError], and the run ends
    with that exception. *)
Theorem channel_lookup_http_error_not_a_pair :
  get_channel_upload_playlist_id (Some Samples.refused_service) TARGET_CHANNEL_ID
    = Ok RetNone
  /\ (v ←r get_channel_upload_playlist_id (Some Samples.refused_service)
              TARGET_CHANNEL_ID; unpack_pair v)
     = Raise (TypeError "cannot unpack non-iterable NoneType object")
  /\ (forall fuel fs,
        @main SampleDateTime.instance default_config Samples.refused_env fuel fs
        = Some (Raise (TypeError "cannot unpack non-iterable NoneType object"))).
Proof. repeat split. Qed.

(** ** get_transcript_for_video *)

Lemma find_transcript_Ok (codes : list string) (tracks : list transcript)
    (t : transcript) :
  find_transcript codes tracks = Ok t ->
  t ∈ tracks /\ language_code t ∈ codes.
Proof.
  induction codes as [|code rest IH]; simpl; [done|].
  destruct (List.find _ tracks) as [t'|] eqn:Hf.
  - intros [= ->]. apply List.find_some in Hf as [Hin Heq].
    apply String.eqb_eq in Heq. split.
    + by apply list_elem_of_In.
    + rewrite Heq. by left.
  - intros Hr. destruct (IH Hr) as [? ?]. split; [done|]. by right.
Qed.

Lemma find_transcript_Raise (codes : list string) (tracks : list transcript)
    (e : exn) :
  find_transcript codes tracks = Raise e ->
  e = NoTranscriptFound /\ forall t, t ∈ tracks -> language_code t ∉ codes.
Proof.
  induction codes as [|code rest IH]; simpl.
  - intros [= <-]. split; [done|]. intros t _ Hin. by apply elem_of_nil in Hin.
  - destruct (List.find _ tracks) as [t'|] eqn:Hf; [done|].
    intros Hr. destruct (IH Hr) as [-> Hno]. split; [done|].
    intros t Hin [Hc|Hc]%elem_of_cons; [|by apply (Hno t)].
    apply list_elem_of_In in Hin.
    pose proof (List.find_none _ _ Hf t Hin) as Hne. simpl in Hne.
    by rewrite Hc, String.eqb_refl in Hne.
Qed.

Lemma find_transcript_exists (codes : list string) (tracks : list transcript) :
  (exists t, t ∈ tracks /\ language_code t ∈ codes) ->
  exists t, find_transcript codes tracks = Ok t.
Proof.
  intros (t & Hin & Hc).
  destruct (find_transcript codes tracks) as [t'|e] eqn:Hf; [eauto|].
  apply find_transcript_Raise in Hf as [_ Hno]. by destruct (Hno t Hin).
Qed.

Lemma select_manual (tl : transcript_list) (languages : list string)
    (t : transcript) :
  find_manually_created_transcript tl languages = Ok t ->
  select_transcript tl languages = Ok (t, language t).
Proof. unfold select_transcript. by intros ->. Qed.

Lemma select_generated (tl : transcript_list) (languages : list string)
    (t : transcript) :
  (forall m, m ∈ manually_created tl -> language_code m ∉ languages) ->
  find_generated_transcript tl languages = Ok t ->
  select_transcript tl languages = Ok (t, language t).
Proof.
  intros Hno Hg. unfold select_transcript.
  destruct (find_manually_created_transcript tl languages) as [m|e] eqn:Hm.
  - apply find_transcript_Ok in Hm as [Hin Hc]. by destruct (Hno m Hin).
  - apply find_transcript_Raise in Hm as [-> _]. simpl. by rewrite Hg.
Qed.

Lemma select_fallback (tl : transcript_list) (languages : list string) :
  (forall t, t ∈ all_transcripts tl -> language_code t ∉ languages) ->
  select_transcript tl languages =
    match all_transcripts tl with
    | t :: _ => Ok (t, language t)
    | [] => Raise NoTranscriptFound
    end.
Proof.
  intros Hno. unfold select_transcript.
  destruct (find_manually_created_transcript tl languages) as [m|e] eqn:Hm.
  { apply find_transcript_Ok in Hm as [Hin Hc].
    destruct (Hno m); [|done]. apply elem_of_app. by left. }
  apply find_transcript_Raise in Hm as [-> _]. simpl.
  destruct (find_generated_transcript tl languages) as [g|e] eqn:Hg.
  { apply find_transcript_Ok in Hg as [Hin Hc].
    destruct (Hno g); [|done]. apply elem_of_app. by right. }
  apply find_transcript_Raise in Hg as [-> _]. done.
Qed.

Lemma select_language (tl : transcript_list) (languages : list string)
    (t : transcript) (lang : string) :
  select_transcript tl languages = Ok (t, lang) -> lang = language t.
Proof.
  unfold select_transcript.
  destruct (find_manually_created_transcript tl languages) as [m|e]; simpl.
  { by intros [= -> ->]. }
  destruct e; try done. simpl.
  destruct (find_generated_transcript tl languages) as [g|e]; simpl.
  { by intros [= -> ->]. }
  destruct e; try done. destruct (all_transcripts tl); [done|].
  by intros [= -> ->].
Qed.

Lemma transcript_handler_total (e : exn) :
  transcript_handler e = Some (Ok (None, failure_status e)).
Proof. by destruct e. Qed.

(** The function hands back a pair whatever the service does. *)
Lemma get_transcript_for_video_total (api : transcript_api) (video_id : string)
    (languages : list string) :
  exists r, get_transcript_for_video api video_id languages = Ok r.
Proof.
  unfold get_transcript_for_video, try_except.
  match goal with |- context [match ?b with Ok _ => _ | Raise _ => _ end] =>
    destruct b as [r|e] end; [eauto|].
  rewrite transcript_handler_total. eauto.
Qed.

Lemma get_transcript_selected (api : transcript_api) (video_id : string)
    (languages : list string) (tl : transcript_list) (t : transcript)
    (lang : string) :
  api video_id = Ok tl ->
  select_transcript tl languages = Ok (t, lang) ->
  get_transcript_for_video api video_id languages =
    try_except (fetch_text t lang) transcript_handler.
Proof.
  unfold get_transcript_for_video. intros -> Hs. simpl. by rewrite Hs.
Qed.

Lemma get_transcript_failure (api : transcript_api) (video_id : string)
    (languages : list string) (e : exn) :
  api video_id = Raise e ->
  get_transcript_for_video api video_id languages = Ok (None, failure_status e).
Proof.
  unfold get_transcript_for_video. intros ->. simpl.
  by rewrite transcript_handler_total.
Qed.

(** C3. [get_transcript_for_video] never raises and follows the tiers: a
    manually created track in a requested language is selected even when a
    generated one matches too; failing that a generated track in a requested
    language; failing that the first track the list enumerates; with no
    track at all the answer is no text and the status No Transcript Found.
    The language handed back is that of the selected track. Disabled
    transcripts and every other exception, from the listing or from the
    fetch, come back as no text and a status naming the failure. *)
Theorem get_transcript_for_video_tiers (api : transcript_api)
    (video_id : string) (languages : list string) :
  (exists r, get_transcript_for_video api video_id languages = Ok r)
  /\ (forall tl, api video_id = Ok tl ->
        ((exists m, m ∈ manually_created tl /\ language_code m ∈ languages) ->
         exists t, t ∈ manually_created tl /\ language_code t ∈ languages /\
                   select_transcript tl languages = Ok (t, language t))
        /\ ((forall m, m ∈ manually_created tl -> language_code m ∉ languages) ->
            (exists g, g ∈ generated tl /\ language_code g ∈ languages) ->
            exists t, t ∈ generated tl /\ language_code t ∈ languages /\
                      select_transcript tl languages = Ok (t, language t))
        /\ ((forall t, t ∈ all_transcripts tl -> language_code t ∉ languages) ->
            forall t rest, all_transcripts tl = t :: rest ->
            select_transcript tl languages = Ok (t, language t))
        /\ (all_transcripts tl = [] ->
            get_transcript_for_video api video_id languages
            = Ok (None, "No Transcript Found"))
        /\ (forall t lang, select_transcript tl languages = Ok (t, lang) ->
            match fetch t with
            | Ok _ => exists text,
                get_transcript_for_video api video_id languages
                = Ok (text, language t)
            | Raise e =>
                get_transcript_for_video api video_id languages
                = Ok (None, failure_status e)
            end))
  /\ (api video_id = Raise TranscriptsDisabled ->
      get_transcript_for_video api video_id languages
      = Ok (None, "Transcripts Disabled"))
  /\ (forall e, api video_id = Raise e ->
      get_transcript_for_video api video_id languages
      = Ok (None, failure_status e))
  /\ (forall e, failure_status e = "Transcripts Disabled"
                \/ failure_status e = "No Transcript Found"
                \/ failure_status e = "Error: " +:+ exn_name e).
Proof.
  split; [apply get_transcript_for_video_total|].
  split; [|split; [|split]].
  - intros tl Htl. split; [|split; [|split; [|split]]].
    + intros Hm. destruct (find_transcript_exists _ _ Hm) as [t Ht].
      exists t. destruct (find_transcript_Ok _ _ _ Ht) as [? ?].
      split; [done|]. split; [done|]. by apply select_manual.
    + intros Hno Hg. destruct (find_transcript_exists _ _ Hg) as [t Ht].
      exists t. destruct (find_transcript_Ok _ _ _ Ht) as [? ?].
      split; [done|]. split; [done|]. by apply select_generated.
    + intros Hno t rest Hall. rewrite (select_fallback _ _ Hno), Hall. done.
    + intros Hall. unfold get_transcript_for_video. rewrite Htl. simpl.
      rewrite select_fallback, Hall; [done|].
      intros t. rewrite Hall. by intros ?%elem_of_nil.
    + intros t lang Hs.
      rewrite (get_transcript_selected _ _ _ _ _ _ Htl Hs).
      pose proof (select_language _ _ _ _ Hs) as ->.
      unfold fetch_text. destruct (fetch t) as [frags|e]; simpl.
      * destruct frags; [eauto|].
        destruct (full_transcript_parts _); eauto.
      * by rewrite transcript_handler_total.
  - intros Hd. by rewrite (get_transcript_failure _ _ _ _ Hd).
  - intros e. apply get_transcript_failure.
  - intros e. destruct e; simpl; auto.
Qed.

(** Witness for C3: with a manual and a generated English track, the manual
    one is selected. *)
Lemma get_transcript_for_video_tiers_witness :
  exists t, t ∈ [Samples.manual_en] /\ language_code t ∈ ["en"] /\
    select_transcript
      (TranscriptList [Samples.manual_en] [Samples.generated_en]) ["en"]
    = Ok (t, language t).
Proof.
  destruct (get_transcript_for_video_tiers Samples.sample_transcripts "both" ["en"])
    as (_ & H & _).
  destruct (H _ eq_refl) as (H1 & _). apply H1.
  exists Samples.manual_en. split; constructor.
Defined.

Example transcript_tiers_ex :
  get_transcript_for_video Samples.sample_transcripts "both" ["en"]
    = Ok (Some "hello world again", "English")
  /\ get_transcript_for_video Samples.sample_transcripts "generated" ["en"]
    = Ok (Some "helo wrld", "English (auto-generated)")
  /\ get_transcript_for_video Samples.sample_transcripts "french" ["en"]
    = Ok (None, "French (auto-generated)")
  /\ get_transcript_for_video Samples.sample_transcripts "none" ["en"]
    = Ok (None, "No Transcript Found")
  /\ get_transcript_for_video Samples.sample_transcripts "disabled" ["en"]
    = Ok (None, "Transcripts Disabled")
  /\ get_transcript_for_video Samples.sample_transcripts "broken" ["en"]
    = Ok (None, "Error: VideoUnavailable").
Proof. repeat split. Qed.

Lemma full_transcript_parts_texts (fetched : list fragment) :
  full_transcript_parts fetched = clean_text <$> non_empty_texts fetched.
Proof.
  induction fetched as [|[text|] l IH]; simpl; [done| |done].
  unfold full_transcript_parts, non_empty_texts in *. simpl.
  destruct (Py.truthy text); simpl; by rewrite IH.
Qed.

(** [clean_text] keeps the words and puts one space between them. *)
Lemma clean_text_collapsed (text : string) :
  Py.split (clean_text text) = Py.split text
  /\ Forall (fun c => Py.is_space c = true -> c = " "%char)
            (Py.chars (clean_text text))
  /\ Py.head_no_space (Py.chars (clean_text text))
  /\ Py.last_no_space (Py.chars (clean_text text))
  /\ Py.spaced (Py.chars (clean_text text)).
Proof.
  unfold clean_text. pose proof (split_tokens text) as Ht.
  split; [by apply split_join_tokens|].
  split; [by apply join_tokens_plain_spaces|].
  destruct (Py.split text) as [|t l] eqn:E.
  - simpl. repeat split; try by intros c [=].
    intros i c d Hc. by destruct i.
  - destruct (join_tokens (t :: l) Ht) as (_ & ? & ? & ?); done.
Qed.

(** C4. Once a track is selected and its fetch answers, the text handed
    back is the texts of the fragments that have a non-empty string as text,
    each with its words separated by one space, joined by one space in the
    order of the fragments; when the fetch yields no fragment, or none with
    such a text, the answer is no text together with the language of the
    selected track. *)
Theorem get_transcript_text_spec (api : transcript_api) (video_id : string)
    (languages : list string) (tl : transcript_list) (t : transcript)
    (lang : string) (fetched : list fragment) :
  api video_id = Ok tl ->
  select_transcript tl languages = Ok (t, lang) ->
  fetch t = Ok fetched ->
  lang = language t
  /\ get_transcript_for_video api video_id languages
     = Ok (match non_empty_texts fetched with
           | [] => None
           | texts => Some (Py.join " " (clean_text <$> texts))
           end, lang)
  /\ (fetched = [] ->
      get_transcript_for_video api video_id languages = Ok (None, lang))
  /\ (non_empty_texts fetched = [] ->
      get_transcript_for_video api video_id languages = Ok (None, lang))
  /\ (forall text,
        Py.split (clean_text text) = Py.split text
        /\ Forall (fun c => Py.is_space c = true -> c = " "%char)
                  (Py.chars (clean_text text))
        /\ Py.head_no_space (Py.chars (clean_text text))
        /\ Py.last_no_space (Py.chars (clean_text text))
        /\ Py.spaced (Py.chars (clean_text text))).
Proof.
  intros Htl Hs Hf.
  assert (Hr : get_transcript_for_video api video_id languages
               = Ok (match non_empty_texts fetched with
                     | [] => None
                     | texts => Some (Py.join " " (clean_text <$> texts))
                     end, lang)).
  { rewrite (get_transcript_selected _ _ _ _ _ _ Htl Hs).
    unfold fetch_text. rewrite Hf. simpl.
    destruct fetched as [|f l]; [done|].
    rewrite full_transcript_parts_texts.
    by destruct (non_empty_texts (f :: l)). }
  split; [by eapply select_language|]. split; [exact Hr|].
  split; [|split].
  - intros ->. exact Hr.
  - intros E. by rewrite Hr, E.
  - apply clean_text_collapsed.
Qed.

(** Witness for C4: the manual English track of the sample. *)
Lemma get_transcript_text_spec_witness :
  get_transcript_for_video Samples.sample_transcripts "both" ["en"]
  = Ok (Some "hello world again", "English").
Proof.
  exact (proj1 (proj2 (get_transcript_text_spec Samples.sample_transcripts
    "both" ["en"] (TranscriptList [Samples.manual_en] [Samples.generated_en])
    Samples.manual_en "English"
    [FragmentText "  hello   world "; FragmentOther; FragmentText "again"]
    eq_refl eq_refl eq_refl))).
Defined.

(** ** get_all_video_ids_in_playlist *)

Section EnumFacts.
Variable yt : youtube_service.
Variable playlist_id : string.

Lemma collected_app (l1 l2 : list enum_event) :
  collected (l1 ++ l2) = collected l1 ++ collected l2.
Proof. unfold collected. apply bind_app. Qed.

Lemma collected_page (token : option string) (response : playlist_page)
    (evs : list enum_event) :
  collected (EvRequest token (Ok response) :: EvSleep 100%N :: evs)
  = truthy_ids (page_video_ids response) ++ collected evs.
Proof. reflexivity. Qed.

Lemma collected_refused (token : option string) (e : exn) :
  collected [EvRequest token (Raise e)] = [].
Proof. reflexivity. Qed.

(** What one run of the inner loop adds to the state. [k] is what remains
    of the trace after a failed request. *)
Lemma fetch_pages_trace (fuel : nat) (st : enum_state) :
  match fetch_pages yt playlist_id fuel st with
  | PagesReturn st' =>
      exists evs,
        enum_log st' = enum_log st ++ evs
        /\ video_ids st' = video_ids st ++ collected evs
        /\ forall failures,
             retry_trace yt playlist_id (requests st) failures
                         (next_page_token st) evs
  | PagesRaise e st' =>
      exists evs,
        enum_log st' = enum_log st ++ evs ++ [EvRequest (next_page_token st') (Raise e)]
        /\ video_ids st' = video_ids st ++ collected evs
        /\ playlist_items_list yt (requests st' - 1) playlist_id
             (next_page_token st') = Raise e
        /\ 0 < requests st'
        /\ forall failures k,
             retry_trace yt playlist_id (requests st' - 1) failures
               (next_page_token st') (EvRequest (next_page_token st') (Raise e) :: k) ->
             retry_trace yt playlist_id (requests st) failures
               (next_page_token st)
               (evs ++ EvRequest (next_page_token st') (Raise e) :: k)
  | PagesOutOfFuel => True
  end.
Proof.
  revert st. induction fuel as [|fuel IH]; intros st; simpl; [done|].
  destruct (playlist_items_list yt (requests st) playlist_id (next_page_token st))
    as [response|e] eqn:Hans.
  - destruct (opt_truthy (nextPageToken response)) eqn:Htok.
    + specialize (IH (EnumState
        (video_ids st ++ truthy_ids (page_video_ids response))
        (nextPageToken response) (S (requests st))
        ((enum_log st ++ [EvRequest (next_page_token st) (Ok response)])
           ++ [EvSleep 100%N]))).
      destruct (fetch_pages yt playlist_id fuel _) as [st'|e st'|]; [| |done].
      * destruct IH as (evs & Hlog & Hids & Htr). simpl in *.
        exists (EvRequest (next_page_token st) (Ok response) :: EvSleep 100%N :: evs).
        split; [by rewrite Hlog, <- !app_assoc|].
        split.
        { by rewrite Hids, collected_page, app_assoc. }
        intros f. by apply trace_next_page.
      * destruct IH as (evs & Hlog & Hids & Hreq & Hpos & Htr). simpl in *.
        exists (EvRequest (next_page_token st) (Ok response) :: EvSleep 100%N :: evs).
        split; [by rewrite Hlog, <- !app_assoc|].
        split.
        { by rewrite Hids, collected_page, app_assoc. }
        split; [done|]. split; [done|].
        intros f k Hk. simpl. apply trace_next_page; auto.
    + exists [EvRequest (next_page_token st) (Ok response)]. simpl.
      split; [done|]. split; [by rewrite !app_nil_r|].
      intros f. by apply trace_last_page.
  - exists []. simpl. rewrite Nat.sub_0_r.
    split; [done|]. split; [by rewrite app_nil_r|].
    split; [done|]. split; [lia|]. auto.
Qed.

Lemma retry_pages_trace (fuel retries : nat) (st st' : enum_state) :
  0 < retries <= 3 ->
  retry_pages yt playlist_id fuel 3 retries st = Some (Ok st') ->
  exists evs,
    enum_log st' = enum_log st ++ evs
    /\ video_ids st' = video_ids st ++ collected evs
    /\ retry_trace yt playlist_id (requests st) (3 - retries)
                   (next_page_token st) evs.
Proof.
  revert st. induction retries as [|retries' IH]; intros st Hr; [lia|].
  simpl. pose proof (fetch_pages_trace fuel st) as Hf.
  destruct (fetch_pages yt playlist_id fuel st) as [st1|e st1|]; [| |done].
  - intros [= <-]. destruct Hf as (evs & ? & ? & Htr). eauto.
  - destruct Hf as (evs & Hlog & Hids & Hreq & Hpos & Hk).
    assert (Hfatal : (forall msg, e <> HttpError msg) -> Some (Ok st1) = Some (Ok st') ->
      exists evs0, enum_log st' = enum_log st ++ evs0
        /\ video_ids st' = video_ids st ++ collected evs0
        /\ retry_trace yt playlist_id (requests st) (3 - S retries')
                       (next_page_token st) evs0).
    { intros Hne [= <-].
      exists (evs ++ [EvRequest (next_page_token st1) (Raise e)]).
      split; [done|]. split.
      { by rewrite collected_app, collected_refused, app_nil_r. }
      apply Hk. by apply trace_unexpected. }
    destruct e as [msg| | | | |]; try (apply Hfatal; congruence).
    clear Hfatal. destruct retries' as [|retries''].
    + intros [= <-].
      exists (evs ++ [EvRequest (next_page_token st1) (Raise (HttpError msg))]).
      split; [done|]. split.
      { by rewrite collected_app, collected_refused, app_nil_r. }
      apply Hk. by apply trace_exhausted.
    + intros Hrec. apply IH in Hrec; [|lia].
      destruct Hrec as (evs2 & Hlog2 & Hids2 & Htr2).
      cbn [video_ids next_page_token requests enum_log] in *.
      exists (evs ++ EvRequest (next_page_token st1) (Raise (HttpError msg))
                  :: EvSleep (1000 * 2 ^ N.of_nat (3 - S retries''))%N :: evs2).
      split.
      { rewrite Hlog2, Hlog, <- !app_assoc. done. }
      split.
      { rewrite Hids2, Hids, <- app_assoc. f_equal.
        rewrite collected_app. f_equal. }
      apply Hk.
      replace (3 - S retries'') with (S (3 - S (S retries''))) by lia.
      apply trace_retry; [done|lia|].
      replace (S (requests st1 - 1)) with (requests st1) by lia.
      replace (S (3 - S (S retries''))) with (3 - S retries'') by lia.
      exact Htr2.
Qed.

(** The inner loop needs no more pages than the service has continuations. *)
Lemma fetch_pages_enough (bound fuel : nat) (st : enum_state) :
  (forall n token response, bound <= n ->
     playlist_items_list yt n playlist_id token = Ok response ->
     opt_truthy (nextPageToken response) = false) ->
  0 < fuel -> bound < requests st + fuel ->
  match fetch_pages yt playlist_id fuel st with
  | PagesReturn st' | PagesRaise _ st' => requests st <= requests st'
  | PagesOutOfFuel => False
  end.
Proof.
  intros Hb. revert st. induction fuel as [|fuel IH]; intros st Hpos Hlt; simpl.
  - lia.
  - destruct (playlist_items_list yt (requests st) playlist_id (next_page_token st))
      as [response|e] eqn:Hans; simpl; [|lia].
    destruct (opt_truthy (nextPageToken response)) eqn:Htok; simpl; [|lia].
    assert (requests st < bound) as Hn.
    { destruct (Nat.lt_ge_cases (requests st) bound) as [|Hge]; [done|].
      rewrite (Hb _ _ _ Hge Hans) in Htok. done. }
    match goal with |- context [fetch_pages yt playlist_id fuel ?s] =>
      specialize (IH s) end.
    cbn [requests] in IH.
    destruct (fetch_pages yt playlist_id fuel _); lia.
Qed.

Lemma retry_pages_enough (bound fuel retries : nat) (st : enum_state) :
  (forall n token response, bound <= n ->
     playlist_items_list yt n playlist_id token = Ok response ->
     opt_truthy (nextPageToken response) = false) ->
  0 < fuel -> bound < requests st + fuel ->
  exists st', retry_pages yt playlist_id fuel 3 retries st = Some (Ok st').
Proof.
  intros Hb Hpos. revert st.
  induction retries as [|retries' IH]; intros st Hlt; simpl.
  { eauto. }
  pose proof (fetch_pages_enough bound fuel st Hb Hpos Hlt) as Hf.
  destruct (fetch_pages yt playlist_id fuel st) as [st1|e st1|]; [eauto| |done].
  destruct e; eauto. destruct retries'; [eauto|].
  apply IH. simpl. lia.
Qed.

Lemma retry_pages_never_raises (fuel retries : nat) (st : enum_state) (e : exn) :
  retry_pages yt playlist_id fuel 3 retries st <> Some (Raise e).
Proof.
  revert st. induction retries as [|retries' IH]; intros st; simpl; [done|].
  destruct (fetch_pages yt playlist_id fuel st) as [st1|e1 st1|]; [done| |done].
  destruct e1; try done. destruct retries'; [done|]. apply IH.
Qed.

End EnumFacts.

(** C6, as amended. A run of [get_all_video_ids_in_playlist] never raises.
    When it finishes, its requests and pauses form a [retry_trace] from the
    first page with no failure behind it. The run has one budget of three
    failures for all its pages, which an answered page does not restore: a
    refused request is followed, after two to the power of the number of
    failures of the run so far seconds, by a request for the same page; the
    third refusal of the run, on whatever page, or any other exception ends
    the run; and the list handed back is exactly what the answered pages
    carried, in order, whatever failed in between. The run finishes
    whenever the service stops naming successor pages. *)
Theorem get_all_video_ids_in_playlist_retries (yt : youtube_service)
    (playlist_id : string) :
  (forall fuel e,
     get_all_video_ids_in_playlist (Some yt) playlist_id fuel <> Some (Raise e))
  /\ (forall fuel st,
        Py.truthy playlist_id = true ->
        enumerate_playlist (Some yt) playlist_id fuel = Some (Ok st) ->
        retry_trace yt playlist_id 0 0 None (enum_log st)
        /\ video_ids st = collected (enum_log st)
        /\ get_all_video_ids_in_playlist (Some yt) playlist_id fuel
           = Some (Ok (collected (enum_log st))))
  /\ (forall bound,
        (forall n token response, bound <= n ->
           playlist_items_list yt n playlist_id token = Ok response ->
           opt_truthy (nextPageToken response) = false) ->
        exists ids,
          get_all_video_ids_in_playlist (Some yt) playlist_id (S bound)
          = Some (Ok ids)).
Proof.
  split; [|split].
  - intros fuel e. unfold get_all_video_ids_in_playlist, enumerate_playlist.
    destruct (Py.truthy playlist_id); cbn [negb]; [|by cbv].
    pose proof (retry_pages_never_raises yt playlist_id fuel 3
                  (EnumState [] None 0 [])) as Hn.
    destruct (retry_pages yt playlist_id fuel 3 3 _) as [[st|e']|];
      [by cbv| |by cbv].
    by destruct (Hn e').
  - intros fuel st Htr Hrun.
    unfold get_all_video_ids_in_playlist. rewrite Hrun.
    unfold enumerate_playlist in Hrun. rewrite Htr in Hrun. cbn [negb] in Hrun.
    apply retry_pages_trace in Hrun; [|lia].
    destruct Hrun as (evs & Hlog & Hids & Htrace).
    cbn [video_ids next_page_token requests enum_log app] in *.
    rewrite Hlog. repeat split; [exact Htrace|exact Hids|].
    cbn. by rewrite Hids.
  - intros bound Hb. unfold get_all_video_ids_in_playlist, enumerate_playlist.
    destruct (Py.truthy playlist_id); cbn [negb]; [|by eexists].
    destruct (retry_pages_enough yt playlist_id bound (S bound) 3
                (EnumState [] None 0 []) Hb) as [st' ->]; [lia|simpl; lia|].
    by eexists.
Qed.

(** Witness for C6: the first page arrives, the second is refused three
    times; the two identifiers of the first page come back after pauses of
    two and four seconds, each refusal being followed by a request for the
    same page. *)
Lemma get_all_video_ids_in_playlist_retries_witness :
  get_all_video_ids_in_playlist (Some Samples.flaky_playlist) "UU" 5
    = Some (Ok ["v1"; "v2"])
  /\ retry_trace Samples.flaky_playlist "UU" 0 0 None
       [ EvRequest None (Ok (PlaylistPage [Some "v1"; None; Some "v2"] (Some "page2")));
         EvSleep 100%N;
         EvRequest (Some "page2") (Raise (HttpError "503"));
         EvSleep 2000%N;
         EvRequest (Some "page2") (Raise (HttpError "503"));
         EvSleep 4000%N;
         EvRequest (Some "page2") (Raise (HttpError "503")) ]
  /\ exists ids,
       get_all_video_ids_in_playlist (Some Samples.flaky_playlist) "UU" 2
       = Some (Ok ids).
Proof.
  destruct (get_all_video_ids_in_playlist_retries Samples.flaky_playlist "UU")
    as (_ & H2 & H3).
  assert (Hrun : exists st,
    enumerate_playlist (Some Samples.flaky_playlist) "UU" 5 = Some (Ok st)
    /\ enum_log st =
       [ EvRequest None (Ok (PlaylistPage [Some "v1"; None; Some "v2"] (Some "page2")));
         EvSleep 100%N;
         EvRequest (Some "page2") (Raise (HttpError "503"));
         EvSleep 2000%N;
         EvRequest (Some "page2") (Raise (HttpError "503"));
         EvSleep 4000%N;
         EvRequest (Some "page2") (Raise (HttpError "503")) ]).
  { eexists. split; vm_compute; reflexivity. }
  destruct Hrun as (st & Hrun & Hlog).
  destruct (H2 5 st eq_refl Hrun) as (Ht & _ & Hr).
  rewrite Hlog in Ht, Hr.
  split; [exact Hr|]. split; [exact Ht|].
  apply (H3 1). intros [|n] token response Hle Hans; [lia|discriminate].
Defined.

(** Counterexample to C6 as it was written: the first request for each of
    three pages is refused. The refusal on the second page is followed by a
    pause of four seconds, not two, and the refusal on the third page ends
    the run without a second request for that page, which would have been
    answered: the run hands back the identifiers of two pages. *)
Lemma get_all_video_ids_in_playlist_retries_counterexample :
  exists st,
    enumerate_playlist (Some Samples.failing_pages) "UU" 10 = Some (Ok st)
    /\ get_all_video_ids_in_playlist (Some Samples.failing_pages) "UU" 10
       = Some (Ok ["v1"; "v2"])
    /\ enum_log st =
       [ EvRequest None (Raise (HttpError "503")); EvSleep 2000%N;
         EvRequest None (Ok (PlaylistPage [Some "v1"] (Some "t1"))); EvSleep 100%N;
         EvRequest (Some "t1") (Raise (HttpError "503")); EvSleep 4000%N;
         EvRequest (Some "t1") (Ok (PlaylistPage [Some "v2"] (Some "t2"))); EvSleep 100%N;
         EvRequest (Some "t2") (Raise (HttpError "503")) ]
    /\ playlist_items_list Samples.failing_pages 5 "UU" (Some "t2")
       = Ok (PlaylistPage [Some "v3"] None).
Proof.
  eexists. split; [vm_compute; reflexivity|].
  split; [vm_compute; reflexivity|]. split; reflexivity.
Qed.

(** ** get_videos_metadata *)

Section BatchFacts.

Lemma batches_chunks (video_ids : list string) :
  batches video_ids =
  (fun k => take 50 (drop (k * 50) video_ids))
    <$> seq 0 ((length video_ids + 49) / 50).
Proof.
  unfold batches, py_range. rewrite <- list_fmap_compose.
  rewrite Nat.sub_0_r. change (50 - 1) with 49.
  apply list_fmap_ext. intros _ k _. unfold slice. simpl.
  by replace (k * 50 + 50 - k * 50) with 50 by lia.
Qed.

Lemma concat_chunks (l : list string) (m : nat) :
  concat ((fun k => take 50 (drop (k * 50) l)) <$> seq 0 m) = take (m * 50) l.
Proof.
  induction m as [|m IH]; [done|].
  rewrite seq_S, fmap_app, concat_app, IH. simpl. rewrite app_nil_r.
  rewrite take_take_drop. f_equal. lia.
Qed.

Lemma chunk_count_covers (n : nat) : n <= (n + 49) / 50 * 50.
Proof.
  pose proof (Nat.div_mod_eq (n + 49) 50).
  pose proof (Nat.mod_upper_bound (n + 49) 50). lia.
Qed.

Lemma chunk_count_tight (n k : nat) : k < (n + 49) / 50 -> k * 50 < n.
Proof.
  pose proof (Nat.div_mod_eq (n + 49) 50).
  pose proof (Nat.mod_upper_bound (n + 49) 50). nia.
Qed.

Lemma batches_concat (video_ids : list string) :
  concat (batches video_ids) = video_ids.
Proof.
  rewrite batches_chunks, concat_chunks. apply take_ge, chunk_count_covers.
Qed.

Lemma batches_lookup (video_ids : list string) (k : nat) (b : list string) :
  batches video_ids !! k = Some b ->
  k < (length video_ids + 49) / 50 /\ b = take 50 (drop (k * 50) video_ids).
Proof.
  rewrite batches_chunks, list_lookup_fmap.
  destruct (seq 0 _ !! k) as [j|] eqn:Hj; [|done].
  apply lookup_seq in Hj as [-> ?]. simpl. by intros [= <-].
Qed.

Lemma batches_sizes (video_ids : list string) :
  Forall (fun b => 0 < length b <= 50) (batches video_ids).
Proof.
  apply Forall_lookup. intros k b [Hk ->]%batches_lookup.
  rewrite length_take, length_drop.
  pose proof (chunk_count_tight _ _ Hk). lia.
Qed.

Lemma batches_full (video_ids : list string) (k : nat) (b : list string) :
  batches video_ids !! k = Some b -> S k < length (batches video_ids) ->
  length b = 50.
Proof.
  intros [Hk ->]%batches_lookup. rewrite batches_chunks, length_fmap, length_seq.
  intros Hlast. rewrite length_take, length_drop.
  pose proof (chunk_count_tight _ _ Hlast). lia.
Qed.

Lemma batches_120 (video_ids : list string) :
  length video_ids = 120 -> length <$> batches video_ids = [50; 50; 20].
Proof.
  intros Hlen. rewrite batches_chunks, Hlen.
  change ((120 + 49) / 50) with 3. cbn [seq fmap list_fmap].
  rewrite !length_take, !length_drop, Hlen. reflexivity.
Qed.

End BatchFacts.

Lemma for_each_fmap {A B S} (body : S -> B -> result S) (g : A -> B)
    (st : S) (l : list A) :
  for_each (fun s a => body s (g a)) st l = for_each body st (g <$> l).
Proof.
  revert st. induction l as [|a l IH]; intros st; simpl; [done|].
  destruct (body st (g a)); simpl; [apply IH|done].
Qed.

Lemma for_each_app {A S} (body : S -> A -> result S) (st : S) (l1 l2 : list A) :
  for_each body st (l1 ++ l2) =
  (st1 ←r for_each body st l1; for_each body st1 l2).
Proof.
  revert st. induction l1 as [|a l1 IH]; intros st; simpl; [done|].
  destruct (body st a); simpl; [apply IH|done].
Qed.

Section MetadataFacts.
Variable yt : youtube_service.

Lemma fetch_all_metadata_batches (video_ids : list string) :
  fetch_all_metadata yt video_ids =
  for_each (batch_body yt) (MetaState ∅ 0 []) (batches video_ids).
Proof.
  unfold fetch_all_metadata, batches. rewrite <- for_each_fmap. reflexivity.
Qed.

(** *** Nothing escapes the retry loop *)

Lemma fetch_batch_total (batch_ids : list string) (retries : nat)
    (st : meta_state) :
  exists st', fetch_batch yt batch_ids 3 retries st = Ok st'.
Proof.
  revert st. induction retries as [|retries' IH]; intros st; simpl; [eauto|].
  destruct (videos_list yt (meta_requests st) (Py.join "," batch_ids))
    as [items|e]; simpl; [eauto|].
  destruct e; simpl; eauto. destruct retries'; eauto.
Qed.

Lemma batch_body_total (st : meta_state) (batch_ids : list string) :
  exists st', batch_body yt st batch_ids = Ok st'.
Proof.
  unfold batch_body.
  destruct (fetch_batch_total batch_ids 3 st) as [st' ->]. simpl. eauto.
Qed.

Lemma for_each_batches_total (bs : list (list string)) (st : meta_state) :
  exists st', for_each (batch_body yt) st bs = Ok st'.
Proof.
  revert st. induction bs as [|b bs IH]; intros st; simpl; [eauto|].
  destruct (batch_body_total st b) as [st1 ->]. simpl. apply IH.
Qed.

(** *** The marker *)

Lemma mark_failed_present (msg : string) (batch_ids : list string)
    (d : metadata_dict_t) (k : option string) (m : metadata_t) :
  d !! k = Some m -> mark_failed msg batch_ids d !! k = Some m.
Proof.
  unfold mark_failed. revert d.
  induction batch_ids as [|v rest IH]; intros d Hk; simpl; [done|].
  apply IH. destruct (d !! Some v) eqn:Hv; [done|].
  rewrite lookup_insert_ne; [done|]. intros <-. congruence.
Qed.

Lemma mark_failed_absent (msg : string) (batch_ids : list string)
    (d : metadata_dict_t) (vid : string) :
  vid ∈ batch_ids -> d !! Some vid = None ->
  mark_failed msg batch_ids d !! Some vid = Some (error_marker msg).
Proof.
  revert d. induction batch_ids as [|v rest IH]; intros d Hin Hnone.
  { by apply elem_of_nil in Hin. }
  change (mark_failed msg (v :: rest) d) with
    (mark_failed msg rest
       (match d !! Some v with
        | None => <[ Some v := error_marker msg ]> d
        | Some _ => d
        end)).
  destruct (decide (v = vid)) as [->|Hne].
  - rewrite Hnone. apply mark_failed_present. apply lookup_insert_eq.
  - apply elem_of_cons in Hin as [->|Hin]; [done|].
    apply IH; [done|]. destruct (d !! Some v); [done|].
    rewrite lookup_insert_ne; [done|congruence].
Qed.

Lemma mark_failed_other (msg : string) (batch_ids : list string)
    (d : metadata_dict_t) (k : option string) :
  (forall vid, vid ∈ batch_ids -> k <> Some vid) ->
  mark_failed msg batch_ids d !! k = d !! k.
Proof.
  unfold mark_failed. revert d.
  induction batch_ids as [|v rest IH]; intros d Hk; simpl; [done|].
  rewrite IH.
  - destruct (d !! Some v); [done|]. rewrite lookup_insert_ne; [done|].
    intros E. apply (Hk v); [by left|done].
  - intros vid Hin. apply Hk. by right.
Qed.

(** *** A failed batch *)

Lemma fetch_batch_exhausted (batch_ids : list string) (retries : nat)
    (st : meta_state) :
  0 < retries ->
  (forall k, k < retries ->
     exists m, videos_list yt (meta_requests st + k) (Py.join "," batch_ids)
               = Raise (HttpError m)) ->
  exists n log,
    fetch_batch yt batch_ids 3 retries st =
    Ok (MetaState (mark_failed "Metadata fetch failed after retries"
                               batch_ids (metadata_dict st)) n log).
Proof.
  revert st. induction retries as [|retries' IH]; intros st Hpos Hall; [lia|].
  simpl. destruct (Hall 0) as [m Hm]; [lia|].
  rewrite Nat.add_0_r in Hm. rewrite Hm. simpl.
  destruct retries' as [|retries'']; [eauto|].
  match goal with |- context [fetch_batch yt batch_ids 3 _ ?s] =>
    destruct (IH s) as (n & log & ->); [lia| |eauto] end.
  intros k Hk. cbn [meta_requests].
  replace (S (meta_requests st) + k) with (meta_requests st + S k) by lia.
  apply Hall. lia.
Qed.

Lemma fetch_batch_unexpected (batch_ids : list string) (retries k : nat)
    (e : exn) (st : meta_state) :
  k < retries ->
  (forall j, j < k ->
     exists m, videos_list yt (meta_requests st + j) (Py.join "," batch_ids)
               = Raise (HttpError m)) ->
  videos_list yt (meta_requests st + k) (Py.join "," batch_ids) = Raise e ->
  (forall m, e <> HttpError m) ->
  exists n log,
    fetch_batch yt batch_ids 3 retries st =
    Ok (MetaState (mark_failed ("Unexpected metadata fetch error: " +:+ exn_msg e)
                               batch_ids (metadata_dict st)) n log).
Proof.
  revert k st. induction retries as [|retries' IH]; intros k st Hk Hall He Hne; [lia|].
  simpl. destruct k as [|k].
  - rewrite Nat.add_0_r in He. rewrite He. simpl.
    destruct e; try (by eauto). by destruct (Hne msg).
  - destruct (Hall 0) as [m Hm]; [lia|].
    rewrite Nat.add_0_r in Hm. rewrite Hm. simpl.
    destruct retries' as [|retries'']; [lia|].
    match goal with |- context [fetch_batch yt batch_ids 3 _ ?s] =>
      destruct (IH k s) as (n & log & ->); [lia| | |done|eauto] end.
    + intros j Hj. cbn [meta_requests].
      replace (S (meta_requests st) + j) with (meta_requests st + S j) by lia.
      apply Hall. lia.
    + cbn [meta_requests].
      by replace (S (meta_requests st) + k) with (meta_requests st + S k) by lia.
Qed.

Lemma fetch_batch_failure (batch_ids : list string) (msg : string)
    (st st' : meta_state) :
  batch_failure yt (Py.join "," batch_ids) (meta_requests st) msg ->
  batch_body yt st batch_ids = Ok st' ->
  metadata_dict st' = mark_failed msg batch_ids (metadata_dict st).
Proof.
  unfold batch_body. intros Hfail.
  destruct Hfail as [Hall|k e Hk Hall He Hne].
  - destruct (fetch_batch_exhausted batch_ids 3 st) as (n & log & ->);
      [lia|done|]. simpl. by intros [= <-].
  - destruct (fetch_batch_unexpected batch_ids 3 k e st) as (n & log & ->);
      [done..|]. simpl. by intros [= <-].
Qed.

(** *** What later batches leave of a marker *)

Lemma store_items_kept (msg : string) (k : option string)
    (items : list video_item) (d : metadata_dict_t) :
  marked_or_stored msg (d !! k) ->
  marked_or_stored msg (foldl store_item d items !! k).
Proof.
  revert d. induction items as [|item items IH]; intros d Hd; simpl; [done|].
  apply IH. unfold store_item.
  destruct (decide (item_id item = k)) as [->|Hne].
  - rewrite lookup_insert_eq. right. eauto.
  - by rewrite lookup_insert_ne.
Qed.

Lemma mark_failed_kept (msg msg' : string) (k : option string)
    (batch_ids : list string) (d : metadata_dict_t) :
  marked_or_stored msg (d !! k) ->
  marked_or_stored msg (mark_failed msg' batch_ids d !! k).
Proof.
  intros [Hd|[item Hd]].
  - left. by apply mark_failed_present.
  - right. exists item. by apply mark_failed_present.
Qed.

Lemma fetch_batch_kept (msg : string) (k : option string)
    (batch_ids : list string) (retries : nat) (st st' : meta_state) :
  marked_or_stored msg (metadata_dict st !! k) ->
  fetch_batch yt batch_ids 3 retries st = Ok st' ->
  marked_or_stored msg (metadata_dict st' !! k).
Proof.
  revert st. induction retries as [|retries' IH]; intros st Hd; simpl.
  { by intros [= <-]. }
  destruct (videos_list yt (meta_requests st) (Py.join "," batch_ids))
    as [items|e]; simpl.
  { intros [= <-]. by apply store_items_kept. }
  destruct e; simpl;
    try (intros [= <-]; by apply mark_failed_kept).
  destruct retries'.
  - intros [= <-]. by apply mark_failed_kept.
  - apply IH. done.
Qed.

Lemma for_each_batches_kept (msg : string) (k : option string)
    (bs : list (list string)) (st st' : meta_state) :
  marked_or_stored msg (metadata_dict st !! k) ->
  for_each (batch_body yt) st bs = Ok st' ->
  marked_or_stored msg (metadata_dict st' !! k).
Proof.
  revert st. induction bs as [|b bs IH]; intros st Hd; simpl.
  { by intros [= <-]. }
  unfold batch_body at 1.
  destruct (fetch_batch yt b 3 3 st) as [st1|e] eqn:Hb; simpl; [|done].
  apply IH. simpl. by eapply fetch_batch_kept.
Qed.

Lemma get_videos_metadata_nonempty (video_ids : list string) :
  video_ids <> [] ->
  get_videos_metadata (Some yt) video_ids =
  (st ←r for_each (batch_body yt) (MetaState ∅ 0 []) (batches video_ids);
   Ok (metadata_dict st)).
Proof.
  intros Hne. rewrite <- fetch_all_metadata_batches. by destruct video_ids.
Qed.

End MetadataFacts.

(** The scenario of 120 identifiers whose second batch is refused three
    times: its fifty identifiers hold the marker, the answers to the first
    and to the third batch are stored. *)
Example get_videos_metadata_120 :
  match get_videos_metadata (Some Samples.second_batch_refused) Samples.ids120 with
  | Ok d =>
      forallb (fun vid =>
          bool_decide (d !! Some vid
            = Some (error_marker "Metadata fetch failed after retries")))
        (slice Samples.ids120 50 100)
      && bool_decide (d !! Some "v0"
           = Some (item_record (VideoItem (Some "v0") (Some "first") None None)))
      && bool_decide (d !! Some "v100"
           = Some (item_record (VideoItem (Some "v100") (Some "last") None None)))
      && bool_decide (d !! Some "v49" = None)
  | Raise _ => false
  end = true.
Proof. vm_compute. reflexivity. Qed.

(** ** The writer *)

Lemma contiguous_snoc (first : nat) (ranges : list (nat * nat)) (last b : nat) :
  contiguous first ranges last -> last + 1 <= b ->
  contiguous first (ranges ++ [(last + 1, b)]) b.
Proof.
  revert first. induction ranges as [|[a c] rest IH]; intros first; simpl.
  - intros -> Hb. done.
  - intros (-> & Hac & Hrest) Hb. split; [done|]. split; [done|]. by apply IH.
Qed.

Section WriterFacts.
Context `{DateTime}.
Variable cfg : config.
Variable env : environment.
Variable channel_title : string.
Variable output_dir : string.
Variable total_videos : nat.
Variable all_metadata : metadata_dict_t.

Local Abbreviation turn := (process_video cfg env channel_title output_dir total_videos all_metadata).
Local Abbreviation turns := (process_videos cfg env channel_title output_dir total_videos all_metadata).
Local Abbreviation run := (write_all cfg env channel_title output_dir total_videos all_metadata).
Local Abbreviation inv := (writer_inv env output_dir).
Local Abbreviation listed := (listed_name env output_dir).
Local Abbreviation temp_path := (temp_filepath output_dir).
Local Abbreviation final_path := (final_filepath output_dir).

Lemma transcript_of_video_total (video_id : string) (metadata : metadata_t) :
  exists r, transcript_of_video cfg env video_id metadata = Ok r.
Proof.
  unfold transcript_of_video. destruct (metadata !! "error"); [eauto|].
  destruct (get_transcript_for_video_total (list_transcripts env) video_id
              (preferred_languages cfg)) as [[text lang] ->].
  simpl. eauto.
Qed.

Lemma imap_listed_snoc (ranges : list (nat * nat)) (r : nat * nat) :
  imap listed (ranges ++ [r])
  = imap listed ranges ++ [listed (length ranges) r].
Proof. rewrite imap_app. simpl. by rewrite Nat.add_0_r. Qed.

Lemma contiguous_bound (first : nat) (ranges : list (nat * nat)) (last : nat) :
  contiguous first ranges last -> first <= last + 1.
Proof.
  revert first. induction ranges as [|[a b] rest IH]; intros first; simpl.
  - lia.
  - intros (-> & Hab & Hrest). apply IH in Hrest. lia.
Qed.

Local Opaque file_header format_video_entry path_join temp_filename_base
  final_filename_base partial_filename_base Py.word_count.

Lemma start_new_file_ok (st : writer_state) :
  no_fatal_write_error env ->
  start_new_file cfg env channel_title output_dir total_videos st =
  (Continue,
   let temp := temp_path (length (output_filenames st)) in
   let header := file_header cfg env channel_title total_videos
                             (current_video_number st) in
   WriterState (Py.word_count header) (Some temp) (Some temp)
     (current_video_number st) (output_filenames st)
     (successful_transcripts st) (videos_with_issues st)
     (current_video_number st) (<[ temp := [header] ]> (files st))
     (processing st)).
Proof.
  intros [Hopen Hwrite]. unfold start_new_file.
  by rewrite Hopen, Hwrite.
Qed.

Lemma write_entry_ok (text : string) (wc : nat) (handle : string)
    (st : writer_state) :
  no_fatal_write_error env ->
  current_file_handle st = Some handle ->
  write_entry env output_dir text wc st =
  (Continue,
   WriterState (current_word_count st + wc) (Some handle)
     (current_filename_temp st) (file_start_video_number st)
     (output_filenames st) (successful_transcripts st)
     (videos_with_issues st) (current_video_number st)
     (<[ handle := default [] (files st !! handle) ++ [text +:+ Py.nl] ]> (files st))
     (processing st)).
Proof.
  intros [Hopen Hwrite] Hh. unfold write_entry. by rewrite Hh, Hwrite.
Qed.

(** One turn without failure keeps the invariant. *)
Lemma process_video_ok (i : nat) (video_id : string) (ranges : list (nat * nat))
    (st : writer_state) :
  no_fatal_write_error env ->
  inv i ranges st ->
  exists st' ranges',
    turn i video_id st = (Continue, st')
    /\ inv (S i) ranges' st'.
Proof.
  intros Hok (Hnum & Hproc & Hout & Hcont & Hfile).
  destruct st as [cwc handle temp start outs succ issues num fs proc].
  simpl in *. subst num proc outs.
  unfold process_video, entry_of_video. simpl.
  destruct (transcript_of_video_total video_id
              (default ∅ (all_metadata !! Some video_id)))
    as [[[text lang] ok] ->].
  set (entry := format_video_entry (i + 1) video_id _ text lang).
  assert (Hseq : seq 1 i ++ [i + 1] = seq 1 (S i)).
  { rewrite seq_S. f_equal. f_equal. lia. }
  unfold file_for_entry, needs_new_file. simpl.
  destruct i as [|i'].
  - destruct Hfile as [-> ->]. unfold close_previous. simpl.
    rewrite start_new_file_ok by done. simpl.
    erewrite write_entry_ok; [|done|reflexivity]. simpl.
    eexists _, ranges. split; [reflexivity|]. unfold writer_inv. simpl.
    rewrite length_imap. repeat split; auto.
  - destruct Hfile as (-> & -> & Hs1 & Hs2).
    match goal with |- context [if ?c then _ else _] => destruct c eqn:Hnew end.
    + unfold close_previous, close_and_rename. simpl.
      rewrite start_new_file_ok by done. simpl.
      erewrite write_entry_ok; [|done|reflexivity]. simpl.
      eexists _, (ranges ++ [(start, S i')]). split; [reflexivity|].
      unfold writer_inv. simpl.
      rewrite !length_app, length_imap. simpl.
      split; [lia|]. split; [done|]. split.
      { rewrite imap_listed_snoc. f_equal. f_equal.
        unfold listed_name, final_filepath. simpl.
        replace (i' + 1 - 0) with (S i') by lia.
        by destruct (rename_fails env _ _). }
      split.
      { replace (i' + 1 - 0) with (S i') by lia.
        replace start with (start - 1 + 1) at 1 by lia.
        apply contiguous_snoc; [done|lia]. }
      repeat split; try lia.
    + erewrite write_entry_ok; [|done|reflexivity]. simpl.
      eexists _, ranges. split; [reflexivity|].
      unfold writer_inv. simpl.
      repeat split; auto; lia.
Qed.

Lemma start_new_file_continue (st st' : writer_state) :
  start_new_file cfg env channel_title output_dir total_videos st = (Continue, st') ->
  st' =
   (let temp := temp_path (length (output_filenames st)) in
    let header := file_header cfg env channel_title total_videos
                              (current_video_number st) in
    WriterState (Py.word_count header) (Some temp) (Some temp)
      (current_video_number st) (output_filenames st)
      (successful_transcripts st) (videos_with_issues st)
      (current_video_number st) (<[ temp := [header] ]> (files st))
      (processing st)).
Proof.
  unfold start_new_file.
  destruct (open_fails env _); [done|].
  destruct (write_fails env _ _); [done|]. by intros [= <-].
Qed.

Lemma write_entry_continue (text : string) (wc : nat) (handle : string)
    (st st' : writer_state) :
  current_file_handle st = Some handle ->
  write_entry env output_dir text wc st = (Continue, st') ->
  st' =
   WriterState (current_word_count st + wc) (Some handle)
     (current_filename_temp st) (file_start_video_number st)
     (output_filenames st) (successful_transcripts st)
     (videos_with_issues st) (current_video_number st)
     (<[ handle := default [] (files st !! handle) ++ [text +:+ Py.nl] ]> (files st))
     (processing st).
Proof.
  intros Hh. unfold write_entry. rewrite Hh.
  destruct (write_fails env _ _); [done|]. by intros [= <-].
Qed.

(** A turn that ends without [Break] keeps the invariant. *)
Lemma process_video_inv (i : nat) (video_id : string) (ranges : list (nat * nat))
    (st st' : writer_state) :
  inv i ranges st ->
  turn i video_id st = (Continue, st') ->
  exists ranges', inv (S i) ranges' st'.
Proof.
  intros (Hnum & Hproc & Hout & Hcont & Hfile).
  destruct st as [cwc handle temp start outs succ issues num fs proc].
  simpl in *. subst num proc outs.
  unfold process_video, entry_of_video. simpl.
  destruct (transcript_of_video_total video_id
              (default ∅ (all_metadata !! Some video_id)))
    as [[[text lang] ok] ->].
  set (entry := format_video_entry (i + 1) video_id _ text lang).
  assert (Hseq : seq 1 i ++ [i + 1] = seq 1 (S i)).
  { rewrite seq_S. f_equal. f_equal. lia. }
  unfold file_for_entry, needs_new_file. simpl.
  destruct i as [|i'].
  - destruct Hfile as [-> ->]. unfold close_previous. simpl.
    destruct (start_new_file _ _ _ _ _ _) as [fl st1] eqn:Hs.
    destruct fl; try done. apply start_new_file_continue in Hs. simpl in Hs.
    subst st1. intros Hw. eapply write_entry_continue in Hw; [|reflexivity].
    simpl in Hw. subst st'. exists ranges. unfold writer_inv. simpl.
    rewrite length_imap. repeat split; auto.
  - destruct Hfile as (-> & -> & Hs1 & Hs2).
    match goal with |- context [if ?c then _ else _] => destruct c eqn:Hnew end.
    + unfold close_previous, close_and_rename. simpl.
      destruct (start_new_file _ _ _ _ _ _) as [fl st1] eqn:Hs.
      destruct fl; try done. apply start_new_file_continue in Hs. simpl in Hs.
      subst st1. intros Hw. eapply write_entry_continue in Hw; [|reflexivity].
      simpl in Hw. subst st'.
      exists (ranges ++ [(start, S i')]).
      unfold writer_inv. simpl.
      rewrite !length_app, length_imap. simpl.
      split; [lia|]. split; [done|]. split.
      { rewrite imap_listed_snoc. f_equal. f_equal.
        unfold listed_name, final_filepath. simpl.
        replace (i' + 1 - 0) with (S i') by lia.
        by destruct (rename_fails env _ _). }
      split.
      { replace (i' + 1 - 0) with (S i') by lia.
        replace start with (start - 1 + 1) at 1 by lia.
        apply contiguous_snoc; [done|lia]. }
      repeat split; try lia.
    + intros Hw. eapply write_entry_continue in Hw; [|reflexivity].
      simpl in Hw. subst st'. exists ranges.
      unfold writer_inv. simpl.
      repeat split; auto; lia.
Qed.

Lemma process_videos_inv (video_ids : list string) (i : nat)
    (ranges : list (nat * nat)) (st st' : writer_state) :
  inv i ranges st ->
  turns i video_ids st = (Continue, st') ->
  exists ranges', inv (i + length video_ids) ranges' st'.
Proof.
  revert i ranges st.
  induction video_ids as [|video_id rest IH]; intros i ranges st Hinv; simpl.
  - intros [= <-]. exists ranges. by rewrite Nat.add_0_r.
  - destruct (turn i video_id st) as [fl st1] eqn:Hturn.
    destruct fl; try done.
    destruct (process_video_inv _ _ _ _ _ Hinv Hturn) as [ranges1 Hinv1].
    intros Hrest. destruct (IH _ _ _ Hinv1 Hrest) as [ranges2 Hinv2].
    exists ranges2.
    by replace (i + S (length rest)) with (S i + length rest) by lia.
Qed.

Lemma process_videos_ok (video_ids : list string) (i : nat)
    (ranges : list (nat * nat)) (st : writer_state) :
  no_fatal_write_error env ->
  inv i ranges st ->
  exists st' ranges',
    turns i video_ids st = (Continue, st')
    /\ inv (i + length video_ids) ranges' st'.
Proof.
  intros Hok. revert i ranges st.
  induction video_ids as [|video_id rest IH]; intros i ranges st Hinv.
  - exists st, ranges. rewrite Nat.add_0_r. done.
  - destruct (process_video_ok i video_id ranges st Hok Hinv)
      as (st1 & ranges1 & Hturn & Hinv1).
    destruct (IH (S i) ranges1 st1 Hinv1) as (st2 & ranges2 & Hrest & Hinv2).
    exists st2, ranges2. cbn [process_videos length].
    rewrite Hturn, Hrest. split; [done|].
    by replace (i + S (length rest)) with (S i + length rest) by lia.
Qed.

Lemma imap_listed_renamed (ranges : list (nat * nat)) :
  (forall src dst, rename_fails env src dst = false) ->
  imap listed ranges = final_path <$> ranges.
Proof.
  intros Hren. rewrite <- imap_const. apply imap_ext.
  intros k r _. unfold listed_name. by rewrite Hren.
Qed.

(** A run that ends without [Break]: the files it lists, in order, hold
    ranges that follow one another from 1 to the number of videos. *)
Lemma write_all_inv (video_ids : list string) (fs : gmap string (list string))
    (st : writer_state) :
  run video_ids fs = (Continue, st) ->
  exists ranges,
    contiguous 1 ranges (length video_ids)
    /\ output_filenames st = imap listed ranges
    /\ processing st = seq 1 (length video_ids)
    /\ current_file_handle st = None.
Proof.
  unfold write_all.
  destruct (turns 0 video_ids (initial_writer_state fs)) as [fl st0] eqn:Hrun.
  intros [= -> <-].
  assert (Hinit : inv 0 [] (initial_writer_state fs)) by (by repeat split).
  destruct (process_videos_inv video_ids 0 [] _ _ Hinit Hrun)
    as (ranges & (Hnum & Hproc & Hout & Hcont & Hfile)).
  simpl in *. unfold finalize_last_file.
  destruct (length video_ids) as [|n] eqn:Hlen.
  - destruct Hfile as [Hh Hs]. rewrite Hh. exists ranges.
    rewrite Hs in Hcont. done.
  - destruct Hfile as (Hh & Ht & Hs1 & Hs2). rewrite Hh.
    exists (ranges ++ [(file_start_video_number st0, S n)]).
    unfold close_and_rename. simpl.
    split.
    { replace (file_start_video_number st0)
        with (file_start_video_number st0 - 1 + 1) at 1 by lia.
      apply contiguous_snoc; [done|lia]. }
    split; [|done].
    rewrite imap_listed_snoc, Hout, Ht, Hnum. f_equal. f_equal.
    unfold listed_name, final_filepath. simpl.
    by destruct (rename_fails env _ _).
Qed.

(** Where no open and no write fails, the run does end without [Break]. *)
Lemma write_all_completes (video_ids : list string)
    (fs : gmap string (list string)) :
  no_fatal_write_error env -> exists st, run video_ids fs = (Continue, st).
Proof.
  intros Hok.
  assert (Hinit : inv 0 [] (initial_writer_state fs)) by (by repeat split).
  destruct (process_videos_ok video_ids 0 [] _ Hok Hinit)
    as (st & ranges & Hrun & _).
  unfold write_all. rewrite Hrun. eauto.
Qed.

(** *** What every turn does, failing or not *)

Lemma entry_of_video_fields (i : nat) (video_id : string)
    (st st0 : writer_state) (r : result string) :
  entry_of_video cfg env all_metadata i video_id st = (st0, r) ->
  current_video_number st0 = i + 1
  /\ processing st0 = processing st ++ [i + 1].
Proof.
  unfold entry_of_video.
  destruct (transcript_of_video cfg env video_id _) as [[[text lang] ok]|e];
    by intros [= <- <-].
Qed.

Lemma file_for_entry_fields (wc : nat) (st0 st1 : writer_state) (fl : flow) :
  file_for_entry cfg env channel_title output_dir total_videos wc st0 = (fl, st1) ->
  current_video_number st1 = current_video_number st0
  /\ processing st1 = processing st0.
Proof.
  unfold file_for_entry, start_new_file, close_previous, close_and_rename.
  destruct (needs_new_file cfg st0 wc); [|by intros [= <- <-]].
  destruct (current_file_handle st0); simpl;
    repeat match goal with |- context [if ?c then _ else _] => destruct c end;
    by intros [= <- <-].
Qed.

Lemma write_entry_fields (text : string) (wc : nat) (st1 st2 : writer_state)
    (fl : flow) :
  write_entry env output_dir text wc st1 = (fl, st2) ->
  current_video_number st2 = current_video_number st1
  /\ processing st2 = processing st1.
Proof.
  unfold write_entry, close_and_rename.
  destruct (current_file_handle st1); [|by intros [= <- <-]].
  destruct (write_fails env _ _); by intros [= <- <-].
Qed.

Lemma process_video_fields (i : nat) (video_id : string)
    (st st' : writer_state) (fl : flow) :
  turn i video_id st = (fl, st') ->
  current_video_number st' = i + 1
  /\ processing st' = processing st ++ [i + 1].
Proof.
  unfold process_video.
  destruct (entry_of_video cfg env all_metadata i video_id st) as [st0 r] eqn:He.
  apply entry_of_video_fields in He as [Hn Hp].
  destruct r as [text|e]; [|by intros [= <- <-]].
  destruct (file_for_entry _ _ _ _ _ _ st0) as [fl1 st1] eqn:Hf.
  apply file_for_entry_fields in Hf as [Hn1 Hp1].
  destruct fl1; try (intros [= <- <-]; split; congruence).
  intros [Hn2 Hp2]%write_entry_fields. split; congruence.
Qed.

Lemma process_videos_processing (video_ids : list string) (i : nat)
    (st st' : writer_state) :
  turns i video_ids st = (Continue, st') ->
  processing st' = processing st ++ seq (i + 1) (length video_ids).
Proof.
  revert i st. induction video_ids as [|video_id rest IH]; intros i st; simpl.
  - intros [= <-]. by rewrite app_nil_r.
  - destruct (turn i video_id st) as [fl st1] eqn:Hturn.
    apply process_video_fields in Hturn as [_ Hp].
    destruct fl; try done. intros Hrest%IH.
    rewrite Hrest, Hp, <- app_assoc. simpl.
    by replace (S i + 1) with (S (i + 1)) by lia.
Qed.

Lemma process_videos_app (l1 l2 : list string) (i : nat) (st : writer_state) :
  turns i (l1 ++ l2) st =
  match turns i l1 st with
  | (Continue, st') => turns (i + length l1) l2 st'
  | stop => stop
  end.
Proof.
  revert i st. induction l1 as [|v l1 IH]; intros i st; simpl.
  - by rewrite Nat.add_0_r.
  - destruct (turn i v st) as [[| |e] st1]; try done.
    rewrite IH. by replace (S i + length l1) with (i + S (length l1)) by lia.
Qed.

(** *** A write that fails *)

Lemma write_failure_breaks (before rest : list string) (video_id : string)
    (fs : gmap string (list string)) (st st0 st1 : writer_state)
    (text handle : string) :
  turns 0 before (initial_writer_state fs) = (Continue, st) ->
  entry_of_video cfg env all_metadata (length before) video_id st = (st0, Ok text) ->
  file_for_entry cfg env channel_title output_dir total_videos
                 (Py.word_count text) st0 = (Continue, st1) ->
  current_file_handle st1 = Some handle ->
  write_fails env handle (text +:+ Py.nl) = true ->
  run (before ++ video_id :: rest) fs =
    (Break,
     close_and_rename env
       (path_join output_dir
          (partial_filename_base (file_start_video_number st1) (length before)))
       " (partial, rename failed)" st1)
  /\ processing st1 = seq 1 (length before + 1).
Proof.
  intros Hbefore Hentry Hfile Hhandle Hfail.
  pose proof (process_videos_processing _ _ _ _ Hbefore) as Hp.
  pose proof (entry_of_video_fields _ _ _ _ _ Hentry) as [Hn0 Hp0].
  pose proof (file_for_entry_fields _ _ _ _ Hfile) as [Hn1 Hp1].
  split.
  - unfold write_all. rewrite process_videos_app, Hbefore. simpl.
    unfold process_video. rewrite Hentry, Hfile.
    unfold write_entry. rewrite Hhandle, Hfail.
    rewrite Hn1, Hn0. replace (length before + 1 - 1) with (length before) by lia.
    reflexivity.
  - rewrite Hp1, Hp0, Hp. simpl. rewrite seq_app. simpl.
    by rewrite Nat.add_comm.
Qed.

End WriterFacts.



Example output_ranges_three_files :
  output_filenames
    (Samples.sample_run 50 Samples.never Samples.never
       ["both"; "generated"; "french"]).2
  = final_filepath "out" <$> [(1, 1); (2, 2); (3, 3)].
Proof. vm_compute. reflexivity. Qed.

(** Every entry of the sample has 22 words or more, so under a budget of
    10 words each is over the budget alone: each is written to a file of
    its own, and the run ends. *)
Example oversized_entries_alone :
  let r := Samples.sample_run 10 Samples.never Samples.never
             ["both"; "generated"; "french"] in
  r.1 = Continue
  /\ output_filenames r.2 = final_filepath "out" <$> [(1, 1); (2, 2); (3, 3)]
  /\ (length <$> files r.2 !! "out/video-2nd-2nd-transcripts.txt") = Some 2.
Proof. vm_compute. repeat split. Qed.





(** C2, at the failing input. One video, and the write of its entry fails:
    the file that was opened for it is closed with its header alone and
    listed as the PARTIAL file of the range 1st-0th, a finalized file with
    no entry. *)
Theorem partial_file_without_entry :
  exists st header,
    Samples.sample_run 1000 (Samples.entry_write_fails 1) Samples.never ["both"]
      = (Break, st)
    /\ output_filenames st = ["out/video-1st-0th-transcripts_PARTIAL.txt"]
    /\ files st !! "out/video-1st-0th-transcripts_PARTIAL.txt" = Some [header]
    /\ header = file_header (Samples.sample_config 1000)
                  (Samples.writer_env (Samples.entry_write_fails 1) Samples.never)
                  "Channel" 1 1
    /\ processing st = [1].
Proof.
  eexists _, _. split; [vm_compute; reflexivity|].
  split; [vm_compute; reflexivity|].
  split; [vm_compute; reflexivity|].
  split; vm_compute; reflexivity.
Qed.

(** * Further properties *)

(** ** Words and numbers *)

Section MoreStringFacts.
Import Py.

(** Splitting distributes over a seam that is whitespace on its right. *)
Lemma split_app_space (a s : string) :
  starts_with_space s = true -> split (a +:+ s) = split a ++ split s.
Proof.
  intros Hs. induction a as [|c a IH]; [done|].
  change (String c a +:+ s) with (String c (a +:+ s)).
  cbn [split]. destruct (is_space c); [done|].
  destruct a as [|d a].
  - change ("" +:+ s) with s. rewrite Hs. done.
  - change (String d a +:+ s) with (String d (a +:+ s)) in *.
    cbn [starts_with_space]. destruct (is_space d) eqn:Hd.
    + by rewrite IH.
    + rewrite IH. cbn [split]. rewrite Hd.
      destruct (starts_with_space a); [done|].
      by destruct (split a).
Qed.

Lemma word_count_app_space (a s : string) :
  starts_with_space s = true ->
  word_count (a +:+ s) = word_count a + word_count s.
Proof.
  intros Hs. unfold word_count. by rewrite split_app_space, length_app.
Qed.

(** A string whose first character is no whitespace has a word. *)
Lemma word_count_pos (c : ascii) (s : string) :
  is_space c = false -> 0 < word_count (String c s).
Proof.
  intros Hc. unfold word_count. cbn [split]. rewrite Hc.
  destruct (starts_with_space s); [simpl; lia|].
  destruct (split s); simpl; lia.
Qed.

Lemma uint_digits (d : Decimal.uint) :
  Forall is_digit (chars (NilEmpty.string_of_uint d)).
Proof.
  induction d; simpl; [constructor|..];
    (constructor; [unfold is_digit; vm_compute; lia|assumption]).
Qed.

Lemma to_uint_nonnil (n : nat) : Nat.to_uint n <> Decimal.Nil.
Proof.
  rewrite <- (DecimalNat.Unsigned.of_to n) at 1.
  rewrite DecimalNat.Unsigned.to_of. apply DecimalFacts.unorm_nonnil.
Qed.

Lemma str_unfold (n : nat) : str n = NilEmpty.string_of_uint (Nat.to_uint n).
Proof.
  unfold str, NilZero.string_of_uint.
  pose proof (to_uint_nonnil n). by destruct (Nat.to_uint n).
Qed.

Lemma str_digits (n : nat) : Forall is_digit (chars (str n)).
Proof. rewrite str_unfold. apply uint_digits. Qed.

Lemma str_nonempty (n : nat) : str n <> "".
Proof.
  rewrite str_unfold. pose proof (to_uint_nonnil n).
  by destruct (Nat.to_uint n).
Qed.

Lemma str_inj (n m : nat) : str n = str m -> n = m.
Proof.
  rewrite !str_unfold. intros E.
  apply DecimalNat.Unsigned.to_uint_inj.
  apply (f_equal NilEmpty.uint_of_string) in E.
  rewrite !NilEmpty.usu in E. congruence.
Qed.

Lemma digit_no_space (c : ascii) : is_digit c -> is_space c = false.
Proof.
  unfold is_digit, is_space. intros Hc.
  repeat match goal with
  | |- context [Nat.leb ?a ?b] => destruct (Nat.leb_spec a b); try lia
  | |- context [Nat.eqb ?a ?b] => destruct (Nat.eqb_spec a b); try lia
  end; done.
Qed.

Lemma str_token (n : nat) : token (str n).
Proof.
  split; [apply str_nonempty|].
  eapply Forall_impl; [apply str_digits|]. apply digit_no_space.
Qed.

(** Where two strings of characters with the property [P] are each followed
    by a string that starts with a character without it, the seam is at
    the same place. *)
Lemma app_seam_inj (P : ascii -> Prop) (x x' s s' : string) :
  Forall P (chars x) -> Forall P (chars x') ->
  (forall c r, s = String c r -> ~ P c) -> s <> "" ->
  (forall c r, s' = String c r -> ~ P c) -> s' <> "" ->
  x +:+ s = x' +:+ s' -> x = x' /\ s = s'.
Proof.
  intros Hx Hx' Hs Hsne Hs' Hsne'. revert x' Hx'.
  induction x as [|c x IH]; intros [|c' x'] Hx'; simpl.
  - done.
  - intros ->. inversion Hx' as [|? ? Hc _]; subst.
    by destruct (Hs c' (x' +:+ s') eq_refl).
  - intros <-. inversion Hx as [|? ? Hc _]; subst.
    by destruct (Hs' c (x +:+ s) eq_refl).
  - intros [= -> E]. inversion Hx; inversion Hx'; subst.
    destruct (IH ltac:(done) x' ltac:(done) E) as [-> ->]. done.
Qed.

End MoreStringFacts.

(** ** get_ordinal and the file names *)

Lemma get_ordinal_suffix (n : nat) :
  get_ordinal n = Py.str n +:+
    (if Nat.leb 11 (n mod 100) && Nat.leb (n mod 100) 13 then "th"
     else match n mod 10 with
          | 1 => "st" | 2 => "nd" | 3 => "rd" | _ => "th"
          end).
Proof.
  unfold get_ordinal. f_equal.
  destruct (Nat.leb 11 (n mod 100) && Nat.leb (n mod 100) 13); [done|].
  pose proof (Nat.mod_upper_bound n 10 ltac:(lia)) as Hlt.
  destruct (n mod 10) as [|[|[|[|[|k]]]]]; reflexivity.
Qed.

Lemma get_ordinal_shape (n : nat) :
  exists suffix,
    get_ordinal n = Py.str n +:+ suffix
    /\ (suffix = "th" \/ suffix = "st" \/ suffix = "nd" \/ suffix = "rd").
Proof.
  rewrite get_ordinal_suffix. eexists. split; [reflexivity|].
  destruct (Nat.leb 11 (n mod 100) && Nat.leb (n mod 100) 13); [auto|].
  destruct (n mod 10) as [|[|[|[|k]]]]; auto.
Qed.

Lemma get_ordinal_inj_aux (n m : nat) :
  get_ordinal n = get_ordinal m -> n = m.
Proof.
  destruct (get_ordinal_shape n) as (s & -> & Hs).
  destruct (get_ordinal_shape m) as (s' & -> & Hs').
  intros E. apply str_inj.
  apply (app_seam_inj is_digit) in E as [E _]; try apply str_digits; try done.
  - intros c r ->. unfold is_digit.
    destruct Hs as [Hs|[Hs|[Hs|Hs]]]; injection Hs as -> _; vm_compute; lia.
  - destruct Hs as [-> | [-> | [-> | ->]]]; done.
  - intros c r ->. unfold is_digit.
    destruct Hs' as [Hm|[Hm|[Hm|Hm]]]; injection Hm as -> _; vm_compute; lia.
  - destruct Hs' as [-> | [-> | [-> | ->]]]; done.
Qed.

Lemma get_ordinal_no_dash (n : nat) :
  Forall (fun c => c <> "-"%char) (Py.chars (get_ordinal n)).
Proof.
  destruct (get_ordinal_shape n) as (s & -> & Hs).
  rewrite chars_app. apply Forall_app. split.
  - eapply Forall_impl; [apply str_digits|].
    intros c Hc ->. unfold is_digit in Hc. vm_compute in Hc. lia.
  - destruct Hs as [-> | [-> | [-> | ->]]]; by repeat constructor.
Qed.

Lemma ordinal_seam (a a' : nat) (s s' : string) :
  get_ordinal a +:+ String "-" s = get_ordinal a' +:+ String "-" s' ->
  a = a' /\ s = s'.
Proof.
  intros E.
  apply (app_seam_inj (fun c => c <> "-"%char)) in E as [E1 [= E2]];
    try apply get_ordinal_no_dash; try done.
  - split; [by apply get_ordinal_inj_aux|done].
  - intros c r [= <- _]. auto.
  - intros c r [= <- _]. auto.
Qed.

Lemma final_filename_base_inj_aux (a b a' b' : nat) :
  final_filename_base a b = final_filename_base a' b' -> a = a' /\ b = b'.
Proof.
  unfold final_filename_base. intros [= E].
  apply ordinal_seam in E as [-> E]. split; [done|].
  by apply (ordinal_seam b b' "transcripts.txt" "transcripts.txt") in E as [-> _].
Qed.

Lemma partial_filename_base_inj_aux (a b a' b' : nat) :
  partial_filename_base a b = partial_filename_base a' b' -> a = a' /\ b = b'.
Proof.
  unfold partial_filename_base. intros [= E].
  apply ordinal_seam in E as [-> E]. split; [done|].
  by apply (ordinal_seam b b' "transcripts_PARTIAL.txt" "transcripts_PARTIAL.txt")
    in E as [-> _].
Qed.

Lemma final_not_partial (a b a' b' : nat) :
  final_filename_base a b <> partial_filename_base a' b'.
Proof.
  unfold final_filename_base, partial_filename_base. intros [= E].
  apply ordinal_seam in E as [-> E].
  by apply (ordinal_seam b b' "transcripts.txt" "transcripts_PARTIAL.txt")
    in E as [_ ?].
Qed.

Lemma temp_filename_base_inj_aux (k k' : nat) :
  temp_filename_base k = temp_filename_base k' -> k = k'.
Proof.
  unfold temp_filename_base.
  intros E%(String.app_inj "temp_transcripts_part_").
  apply str_inj.
  by apply (app_seam_inj is_digit) in E as [E _];
    try apply str_digits; try done;
    intros c r [= <- _]; unfold is_digit; vm_compute; lia.
Qed.

Lemma path_join_inj (dir x y : string) :
  path_join dir x = path_join dir y -> x = y.
Proof.
  unfold path_join. intros E%(String.app_inj dir). by injection E.
Qed.

(** X1. [get_ordinal] follows the English rule: numbers whose last two
    digits are 11, 12 or 13 take th, others take st, nd or rd after a last
    digit 1, 2 or 3 and th otherwise; and two numbers with the same ordinal
    are the same number. *)
Theorem get_ordinal_rule_inj (n m : nat) :
  get_ordinal n = Py.str n +:+
    (if Nat.leb 11 (n mod 100) && Nat.leb (n mod 100) 13 then "th"
     else match n mod 10 with
          | 1 => "st" | 2 => "nd" | 3 => "rd" | _ => "th"
          end)
  /\ (get_ordinal n = get_ordinal m -> n = m)
  /\ (Py.str n = Py.str m -> n = m).
Proof.
  split; [apply get_ordinal_suffix|].
  split; [apply get_ordinal_inj_aux|apply str_inj].
Qed.

(** Witness for X1. *)
Lemma get_ordinal_rule_inj_witness :
  get_ordinal 112 = "112th" /\ get_ordinal 23 = "23rd" /\ 21 = 21.
Proof.
  split; [reflexivity|]. split; [reflexivity|].
  exact (proj1 (proj2 (get_ordinal_rule_inj 21 21)) eq_refl).
Defined.

(** X2. In one directory the names of the files never clash: a final
    name determines its range, a PARTIAL name too, a temporary name its
    part number, and no name of one kind is a name of another kind. *)
Theorem file_names_distinct (dir : string) (a b a' b' k k' : nat) :
  (path_join dir (final_filename_base a b)
     = path_join dir (final_filename_base a' b') -> a = a' /\ b = b')
  /\ (path_join dir (partial_filename_base a b)
       = path_join dir (partial_filename_base a' b') -> a = a' /\ b = b')
  /\ (path_join dir (temp_filename_base k)
       = path_join dir (temp_filename_base k') -> k = k')
  /\ path_join dir (final_filename_base a b)
       <> path_join dir (partial_filename_base a' b')
  /\ path_join dir (temp_filename_base k)
       <> path_join dir (final_filename_base a b)
  /\ path_join dir (temp_filename_base k)
       <> path_join dir (partial_filename_base a b).
Proof.
  split; [by intros ?%path_join_inj%final_filename_base_inj_aux|].
  split; [by intros ?%path_join_inj%partial_filename_base_inj_aux|].
  split; [by intros ?%path_join_inj%temp_filename_base_inj_aux|].
  split; [by intros ?%path_join_inj%final_not_partial|].
  split; by intros E%path_join_inj.
Qed.

(** Witness for X2. *)
Lemma file_names_distinct_witness :
  path_join "out" (final_filename_base 1 45)
    <> path_join "out" (partial_filename_base 1 45)
  /\ path_join "out" (temp_filename_base 1)
    <> path_join "out" (final_filename_base 1 45).
Proof.
  destruct (file_names_distinct "out" 1 45 1 45 1 1) as (_ & _ & _ & H1 & H2 & _).
  split; [exact H1|exact H2].
Defined.

(** ** sanitize_filename, again *)

Section MoreSanitizeFacts.
Import Py.

Lemma split_lstrip (s : string) : split (lstrip s) = split s.
Proof.
  induction s as [|c s IH]; [done|].
  cbn [lstrip]. destruct (is_space c) eqn:Hc; [|done].
  rewrite IH. simpl. by rewrite Hc.
Qed.

Lemma rstrip_empty (s : string) : rstrip s = "" -> split s = [].
Proof.
  induction s as [|c s IH]; [done|]. simpl.
  destruct (rstrip s) as [|a r]; [|done].
  destruct (is_space c); [|done]. intros _. by apply IH.
Qed.

Lemma rstrip_head (s : string) (a : ascii) (r : string) :
  rstrip s = String a r -> starts_with_space s = is_space a.
Proof.
  destruct s as [|c s]; [done|]. simpl.
  destruct (rstrip s) as [|b r'].
  - destruct (is_space c) eqn:Hc; [done|]. intros [= <- _]. by rewrite Hc.
  - by intros [= -> _].
Qed.

Lemma split_cons (c : ascii) (s : string) :
  split (String c s) =
  if is_space c then split s
  else if starts_with_space s then String c "" :: split s
  else match split s with
       | t :: ts => String c t :: ts
       | [] => [String c ""]
       end.
Proof. reflexivity. Qed.

Lemma split_rstrip (s : string) : split (rstrip s) = split s.
Proof.
  induction s as [|c s IH]; [done|].
  cbn [rstrip]. destruct (rstrip s) as [|a r] eqn:Hr.
  - pose proof (rstrip_empty s Hr) as Hs. simpl. rewrite Hs.
    destruct (is_space c) eqn:Hc; [done|]. simpl. rewrite Hc.
    by destruct (starts_with_space s).
  - rewrite (split_cons c (String a r)), (split_cons c s), IH.
    replace (starts_with_space (String a r)) with (starts_with_space s); [done|].
    by rewrite (rstrip_head s a r Hr).
Qed.

Lemma split_strip (s : string) : split (strip s) = split s.
Proof. unfold strip. by rewrite split_lstrip, split_rstrip. Qed.

Lemma remove_invalid_clean (s : string) :
  Forall (fun c => is_invalid_char c = false) (chars s) -> remove_invalid s = s.
Proof.
  induction s as [|c s IH]; [done|]. simpl.
  intros Hs. inversion Hs as [|? ? Hc Hs']; subst.
  rewrite Hc. f_equal. by apply IH.
Qed.

Lemma sanitize_filename_words (name : string) :
  split (remove_invalid name) <> [] ->
  sanitize_filename name = join " " (split (remove_invalid name)).
Proof.
  intros Hne. unfold sanitize_filename. rewrite split_strip.
  destruct (join_tokens (split (remove_invalid name)) (split_tokens _) Hne)
    as (Hr & _).
  by destruct (join " " (split (remove_invalid name))).
Qed.

Lemma sanitize_filename_fallback (name : string) :
  split (remove_invalid name) = [] -> sanitize_filename name = "youtube_channel".
Proof.
  intros Hnil. unfold sanitize_filename. by rewrite split_strip, Hnil.
Qed.

End MoreSanitizeFacts.

(** X3. Sanitizing twice is sanitizing once; and when the name keeps a word
    after its invalid characters are deleted, the result has exactly the
    words of that cleaned name, in order, with one space between them. *)
Theorem sanitize_filename_idempotent (name : string) :
  sanitize_filename (sanitize_filename name) = sanitize_filename name
  /\ (Py.split (remove_invalid name) <> [] ->
      sanitize_filename name = Py.join " " (Py.split (remove_invalid name))
      /\ Py.split (sanitize_filename name) = Py.split (remove_invalid name)).
Proof.
  assert (Hwords : Py.split (remove_invalid name) <> [] ->
            sanitize_filename name = Py.join " " (Py.split (remove_invalid name))
            /\ Py.split (sanitize_filename name) = Py.split (remove_invalid name)).
  { intros Hne. rewrite (sanitize_filename_words name Hne). split; [done|].
    apply split_join_tokens, split_tokens. }
  split; [|exact Hwords].
  destruct (Py.split (remove_invalid name)) as [|t ts] eqn:Hs.
  - by rewrite (sanitize_filename_fallback name Hs).
  - destruct Hwords as [Hr Hsplit]; [done|].
    assert (Hclean : remove_invalid (sanitize_filename name) = sanitize_filename name).
    { apply remove_invalid_clean. rewrite Hr.
      apply join_chars; [by repeat constructor|].
      rewrite <- Hs. apply split_chars, remove_invalid_chars. }
    rewrite (sanitize_filename_words (sanitize_filename name)).
    + by rewrite Hclean, Hsplit, Hr.
    + by rewrite Hclean, Hsplit.
Qed.

(** Witness for X3. *)
Lemma sanitize_filename_idempotent_witness :
  Py.split (remove_invalid "  My: Channel /  <x>  ") <> []
  /\ sanitize_filename "  My: Channel /  <x>  " = "My Channel x".
Proof.
  assert (Hne : Py.split (remove_invalid "  My: Channel /  <x>  ") <> [])
    by (vm_compute; discriminate).
  split; [exact Hne|].
  exact (proj1 (proj2 (sanitize_filename_idempotent "  My: Channel /  <x>  ") Hne)).
Defined.

(** ** The words of a transcript and of an entry *)

Section MoreTranscriptFacts.
Import Py.

Lemma split_space_cons (x : string) : split (" " +:+ x) = split x.
Proof. reflexivity. Qed.

Lemma split_nl_cons (x : string) : split (nl +:+ x) = split x.
Proof. reflexivity. Qed.

Lemma split_join_clean (texts : list string) :
  split (join " " (clean_text <$> texts)) = texts ≫= split.
Proof.
  induction texts as [|t [|u l] IH].
  - done.
  - simpl. rewrite app_nil_r. apply clean_text_collapsed.
  - change (split (clean_text t +:+ " " +:+ join " " (clean_text <$> u :: l))
            = split t ++ ((u :: l) ≫= split)).
    rewrite split_app_space by done. rewrite split_space_cons, IH.
    f_equal. apply clean_text_collapsed.
Qed.

Lemma length_bind_split (l : list string) :
  length (l ≫= split) = sum_list (word_count <$> l).
Proof.
  induction l as [|x l IH]; [done|].
  change (length (split x ++ (l ≫= split))
          = length (split x) + sum_list (word_count <$> l)).
  by rewrite length_app, IH.
Qed.

Lemma select_transcript_in (tl : transcript_list) (languages : list string)
    (t : transcript) (lang : string) :
  select_transcript tl languages = Ok (t, lang) -> t ∈ all_transcripts tl.
Proof.
  unfold select_transcript, all_transcripts.
  destruct (find_manually_created_transcript tl languages) as [m|e] eqn:Hm; simpl.
  { intros [= -> _]. apply find_transcript_Ok in Hm as [Hin _].
    apply elem_of_app. by left. }
  destruct e; try done. simpl.
  destruct (find_generated_transcript tl languages) as [g|e] eqn:Hg; simpl.
  { intros [= -> _]. apply find_transcript_Ok in Hg as [Hin _].
    apply elem_of_app. by right. }
  destruct e; try done.
  destruct (manually_created tl ++ generated tl) as [|t0 rest]; [done|].
  intros [= -> _]. by left.
Qed.

Lemma word_count_space (a x : string) :
  word_count (a +:+ " " +:+ x) = word_count a + word_count x.
Proof. by rewrite word_count_app_space. Qed.

Lemma word_count_nl_cons (x : string) : word_count (nl +:+ x) = word_count x.
Proof. reflexivity. Qed.

Lemma word_count_nl (a x : string) :
  word_count (a +:+ nl +:+ x) = word_count a + word_count x.
Proof. by rewrite word_count_app_space. Qed.

End MoreTranscriptFacts.

(** X4. A text [get_transcript_for_video] hands back comes from a track of
    the list the service answered with, whose language is the one handed
    back, and its words are exactly the words of the fragments of that
    track that have a non-empty string as text, in order. *)
Theorem transcript_text_words (api : transcript_api) (video_id : string)
    (languages : list string) (text lang : string) :
  get_transcript_for_video api video_id languages = Ok (Some text, lang) ->
  exists tl t fetched,
    api video_id = Ok tl
    /\ t ∈ all_transcripts tl
    /\ lang = language t
    /\ fetch t = Ok fetched
    /\ Py.split text = non_empty_texts fetched ≫= Py.split
    /\ Py.word_count text
       = sum_list (Py.word_count <$> non_empty_texts fetched).
Proof.
  intros Hrun.
  destruct (api video_id) as [tl|e] eqn:Htl.
  2: { by rewrite (get_transcript_failure _ _ _ _ Htl) in Hrun. }
  destruct (select_transcript tl languages) as [[t lang']|e] eqn:Hs.
  2: { unfold get_transcript_for_video in Hrun. rewrite Htl in Hrun.
       simpl in Hrun. rewrite Hs in Hrun. simpl in Hrun.
       by rewrite transcript_handler_total in Hrun. }
  rewrite (get_transcript_selected _ _ _ _ _ _ Htl Hs) in Hrun.
  destruct (fetch t) as [fetched|e] eqn:Hf.
  2: { unfold fetch_text in Hrun. rewrite Hf in Hrun. simpl in Hrun.
       by rewrite transcript_handler_total in Hrun. }
  exists tl, t, fetched.
  assert (Htext : text = Py.join " " (clean_text <$> non_empty_texts fetched)
                  /\ lang = lang').
  { unfold fetch_text in Hrun. rewrite Hf in Hrun. simpl in Hrun.
    destruct fetched as [|f l]; [done|].
    rewrite full_transcript_parts_texts in Hrun.
    destruct (non_empty_texts (f :: l)); simpl in Hrun; [done|].
    by injection Hrun as <- <-. }
  destruct Htext as [-> ->].
  assert (Hsplit : Py.split (Py.join " " (clean_text <$> non_empty_texts fetched))
                   = non_empty_texts fetched ≫= Py.split)
    by apply split_join_clean.
  repeat split; try done.
  - by eapply select_transcript_in.
  - by eapply select_language.
  - unfold Py.word_count at 1. rewrite Hsplit. apply length_bind_split.
Qed.

(** Witness for X4. *)
Lemma transcript_text_words_witness :
  exists tl t fetched,
    Samples.sample_transcripts "both" = Ok tl
    /\ t ∈ all_transcripts tl
    /\ "English" = language t
    /\ fetch t = Ok fetched
    /\ Py.split "hello world again" = non_empty_texts fetched ≫= Py.split
    /\ Py.word_count "hello world again"
       = sum_list (Py.word_count <$> non_empty_texts fetched).
Proof.
  exact (transcript_text_words Samples.sample_transcripts "both" ["en"]
           "hello world again" "English" eq_refl).
Defined.

Section MoreFormatFacts.
Context `{DateTime}.
Import Py.

Lemma format_video_entry_words (video_number : nat) (video_id : string)
    (metadata : metadata_t) (transcript_text : option string)
    (transcript_lang : string) :
  word_count (format_video_entry video_number video_id metadata
                transcript_text transcript_lang)
  = 13 + word_count video_id
    + word_count (get_or_na metadata "url")
    + word_count (get_or_na metadata "title")
    + word_count (published_at_formatted metadata)
    + word_count (get_or_na metadata "description")
    + word_count transcript_lang
    + (if text_truthy transcript_text
       then word_count (default "" transcript_text) else 8).
Proof.
  unfold format_video_entry, entry_lines.
  cbn [app join].
  change ("--- Video " +:+ str video_number +:+ " ---")
    with ("--- Video" +:+ " " +:+ (str video_number +:+ " " +:+ "---")).
  change ("Video ID: " +:+ video_id) with ("Video ID:" +:+ " " +:+ video_id).
  change ("URL: " +:+ ?x) with ("URL:" +:+ " " +:+ x).
  change ("Title: " +:+ get_or_na metadata "title")
    with ("Title:" +:+ " " +:+ get_or_na metadata "title").
  change ("Published: " +:+ published_at_formatted metadata)
    with ("Published:" +:+ " " +:+ published_at_formatted metadata).
  change ("Transcript Language: " +:+ transcript_lang)
    with ("Transcript Language:" +:+ " " +:+ transcript_lang).
  rewrite !append_assoc.
  repeat (rewrite ?word_count_space, ?word_count_nl, ?word_count_nl_cons).
  change (word_count "--- Video") with 2.
  change (word_count "---") with 1.
  change (word_count "Video ID:") with 2.
  change (word_count "URL:") with 1.
  change (word_count "Title:") with 1.
  change (word_count "Published:") with 1.
  change (word_count "Description:") with 1.
  change (word_count "Transcript Language:") with 2.
  change (word_count (repeat "=" 40 +:+ nl)) with 1.
  assert (Hn : word_count (str video_number) = 1).
  { destruct (str_token video_number) as [Hne Hns].
    rewrite <- (append_nil_r (str video_number)).
    unfold word_count. rewrite split_token_app; done. }
  rewrite Hn.
  destruct (text_truthy transcript_text).
  - lia.
  - change (word_count "--- Transcript not available or fetch failed ---") with 8.
    lia.
Qed.

End MoreFormatFacts.

(** X5. The word count the writer charges for an entry is 13, for the
    fixed words of its lines, plus the words of the identifier, of the
    four metadata fields as they are printed and of the language or
    status, plus the words of the transcript or, without one, the 8 words
    of the line that says so. *)
Theorem entry_word_count `{DateTime} (video_number : nat) (video_id : string)
    (metadata : metadata_t) (transcript_text : option string)
    (transcript_lang : string) :
  Py.word_count (format_video_entry video_number video_id metadata
                   transcript_text transcript_lang)
  = 13 + Py.word_count video_id
    + Py.word_count (get_or_na metadata "url")
    + Py.word_count (get_or_na metadata "title")
    + Py.word_count (published_at_formatted metadata)
    + Py.word_count (get_or_na metadata "description")
    + Py.word_count transcript_lang
    + (if text_truthy transcript_text
       then Py.word_count (default "" transcript_text) else 8)
  /\ (metadata = ∅ -> transcript_text = None ->
      Py.word_count (format_video_entry video_number video_id metadata
                       transcript_text transcript_lang)
      = 25 + Py.word_count video_id + Py.word_count transcript_lang).
Proof.
  split; [apply format_video_entry_words|].
  intros -> ->. rewrite format_video_entry_words.
  unfold published_at_formatted, get_or_na. rewrite !lookup_empty. simpl.
  change (Py.word_count "N/A") with 1. lia.
Qed.

(** Witness for X5. *)
Lemma entry_word_count_witness :
  Py.word_count (@format_video_entry SampleDateTime.instance 7 "abc" ∅ None
                   "No Transcript Found")
  = 25 + Py.word_count "abc" + Py.word_count "No Transcript Found".
Proof.
  exact (proj2 (@entry_word_count SampleDateTime.instance 7 "abc" ∅ None
                  "No Transcript Found") eq_refl eq_refl).
Defined.

Section MoreHeaderFacts.
Import Py.

Lemma get_ordinal_token (n : nat) : token (get_ordinal n).
Proof.
  destruct (get_ordinal_shape n) as (s & -> & Hs). split.
  - destruct (str n) eqn:E; [by destruct (str_nonempty n)|done].
  - unfold no_space. rewrite chars_app. apply Forall_app. split.
    + apply str_token.
    + destruct Hs as [-> | [-> | [-> | ->]]]; by repeat constructor.
Qed.

Lemma word_count_token (t : string) : token t -> word_count t = 1.
Proof.
  intros Ht. rewrite <- (append_nil_r t). unfold word_count.
  by rewrite split_token_app.
Qed.

Lemma file_header_words (cfg : config) (env : environment)
    (channel_title : string) (total_videos first : nat) :
  word_count (file_header cfg env channel_title total_videos first)
  = 28 + word_count channel_title
    + word_count (target_channel_id cfg +:+ ")")
    + word_count (now env)
    + word_count (join ", " (preferred_languages cfg)).
Proof.
  unfold file_header.
  change ("Channel: " +:+ ?x) with ("Channel:" +:+ " " +:+ x).
  change (" (ID: " +:+ ?x) with (" " +:+ ("(ID:" +:+ " " +:+ x)).
  change ("Export Date: " +:+ ?x) with ("Export Date:" +:+ " " +:+ x).
  change ("Total Videos Found (in channel): " +:+ ?x)
    with ("Total Videos Found (in channel):" +:+ " " +:+ x).
  change ("Preferred Languages: " +:+ ?x)
    with ("Preferred Languages:" +:+ " " +:+ x).
  change ("--- Videos starting from " +:+ ?x)
    with ("--- Videos starting from" +:+ " " +:+ x).
  change (" in this file ---" +:+ ?x) with (" " +:+ ("in this file ---" +:+ x)).
  rewrite ?append_assoc.
  repeat (rewrite ?word_count_space, ?word_count_nl, ?word_count_nl_cons).
  rewrite <- (append_assoc (target_channel_id cfg) ")").
  repeat (rewrite ?word_count_space, ?word_count_nl, ?word_count_nl_cons).
  rewrite (word_count_token _ (str_token total_videos)).
  rewrite (word_count_token _ (get_ordinal_token first)).
  change (word_count "--- YouTube Channel Transcript Export ---") with 6.
  change (word_count "Channel:") with 1.
  change (word_count "(ID:") with 1.
  change (word_count "Export Date:") with 2.
  change (word_count "Total Videos Found (in channel):") with 5.
  change (word_count "Preferred Languages:") with 2.
  change (word_count "--- Videos starting from") with 4.
  change (word_count "in this file ---") with 4.
  change (word_count (repeat "=" 40)) with 1.
  change (word_count nl) with 0.
  lia.
Qed.

Lemma file_header_words_pos (cfg : config) (env : environment)
    (channel_title : string) (total_videos first : nat) :
  0 < word_count (file_header cfg env channel_title total_videos first).
Proof. rewrite file_header_words. lia. Qed.

End MoreHeaderFacts.

(** X6. The word count a new file starts with, that of its header, is 28
    for the fixed words, the total and the ordinal, plus the words of the
    channel title, of the channel identifier with its closing bracket, of
    the date and of the language list; it is never zero, it does not depend
    on the video the file starts with, and with the settings of the script
    it is 30 plus the words of the title and of the date. *)
Theorem header_word_count (cfg : config) (env : environment)
    (channel_title : string) (total_videos first : nat) :
  Py.word_count (file_header cfg env channel_title total_videos first)
  = 28 + Py.word_count channel_title
    + Py.word_count (target_channel_id cfg +:+ ")")
    + Py.word_count (now env)
    + Py.word_count (Py.join ", " (preferred_languages cfg))
  /\ Py.word_count (file_header default_config env channel_title total_videos first)
     = 30 + Py.word_count channel_title + Py.word_count (now env)
  /\ 0 < Py.word_count (file_header cfg env channel_title total_videos first).
Proof.
  split; [apply file_header_words|].
  split; [|apply file_header_words_pos].
  rewrite file_header_words. simpl.
  change (Py.word_count "UCWrF0oN6unbXrWsTN7RctTw)") with 1.
  change (Py.word_count "en") with 1. lia.
Qed.

(** ** The enumeration of the playlist, again *)

Section MoreEnumFacts.
Variable yt : youtube_service.
Variable playlist_id : string.

Lemma truthy_ids_nonempty (items : list (option string)) :
  Forall (fun v => v <> "") (truthy_ids items).
Proof.
  induction items as [|[v|] l IH]; simpl; auto.
  unfold truthy_ids in *. simpl.
  destruct (Py.truthy v) eqn:Hv; simpl; auto.
  constructor; [|done]. by intros ->.
Qed.

Lemma collected_nonempty (log : list enum_event) :
  Forall (fun v => v <> "") (collected log).
Proof.
  unfold collected. induction log as [|ev log IH]; [constructor|].
  change (Forall (fun v => v <> "")
            (match ev with
             | EvRequest _ (Ok response) => truthy_ids (page_video_ids response)
             | _ => []
             end ++ (log ≫= (fun ev => match ev with
                    | EvRequest _ (Ok response) => truthy_ids (page_video_ids response)
                    | _ => []
                    end)))).
  apply Forall_app. split; [|done].
  destruct ev as [tok [response|e]|ms]; try constructor.
  apply truthy_ids_nonempty.
Qed.

(** The backoff a run can still sleep with [failures] failures behind it. *)
Lemma retry_trace_bounds (n failures : nat) (token : option string)
    (evs : list enum_event) :
  retry_trace yt playlist_id n failures token evs ->
  failures <= 2 ->
  failed_requests evs + failures <= 3
  /\ (total_sleep evs
      <= 100 * N.of_nat (answered_requests evs)
         + match failures with O => 6000 | S O => 4000 | _ => 0 end)%N
  /\ (failed_requests evs = 0 ->
      exists tok response,
        last evs = Some (EvRequest tok (Ok response))
        /\ opt_truthy (nextPageToken response) = false).
Proof.
  unfold failed_requests, answered_requests.
  induction 1 as [n f token response Hans Htok
                 |n f token response rest Hans Htok Hrest IH
                 |n f token msg rest Hans Hlt Hrest IH
                 |n token msg Hans
                 |n f token e Hans Hne]; intros Hf.
  - cbn. split; [lia|]. split; [destruct f as [|[|?]]; lia|]. eauto.
  - specialize (IH Hf). destruct IH as (IH1 & IH2 & IH3).
    cbn [List.filter is_refused is_answered length total_sleep foldr] in *.
    fold (total_sleep rest).
    split; [lia|]. split; [destruct f as [|[|?]]; lia|].
    intros Hz. destruct (IH3 Hz) as (tok & r & Hlast & Hr).
    exists tok, r. split; [|done].
    destruct rest; [done|]. cbn [last]. destruct rest; done.
  - assert (Hf' : S f <= 2) by lia. specialize (IH Hf').
    destruct IH as (IH1 & IH2 & _).
    cbn [List.filter is_refused is_answered length total_sleep foldr] in *.
    fold (total_sleep rest).
    split; [lia|]. split; [|lia].
    destruct f as [|[|?]]; [| |lia].
    + change (1000 * 2 ^ N.of_nat 1)%N with 2000%N. lia.
    + change (1000 * 2 ^ N.of_nat 2)%N with 4000%N. lia.
  - cbn. split; [lia|]. split; [lia|]. lia.
  - cbn. split; [lia|]. split; [destruct f as [|[|?]]; lia|]. lia.
Qed.

End MoreEnumFacts.

(** X7. A run of the enumeration that finishes meets at most three
    exceptions, sleeps at most a tenth of a second per answered page plus
    six seconds of backoff, hands back no empty identifier, and, when no
    request met an exception, ends with a page that names no successor. *)
Theorem playlist_run_bounds (yt : youtube_service) (playlist_id : string)
    (fuel : nat) (st : enum_state) :
  enumerate_playlist (Some yt) playlist_id fuel = Some (Ok st) ->
  failed_requests (enum_log st) <= 3
  /\ (total_sleep (enum_log st)
      <= 100 * N.of_nat (answered_requests (enum_log st)) + 6000)%N
  /\ Forall (fun v => v <> "") (video_ids st)
  /\ (Py.truthy playlist_id = true -> failed_requests (enum_log st) = 0 ->
      exists tok response,
        last (enum_log st) = Some (EvRequest tok (Ok response))
        /\ opt_truthy (nextPageToken response) = false).
Proof.
  unfold enumerate_playlist.
  destruct (Py.truthy playlist_id) eqn:Hp; cbn [negb].
  - intros Hrun. apply retry_pages_trace in Hrun; [|lia].
    destruct Hrun as (evs & Hlog & Hids & Htrace).
    cbn [video_ids next_page_token requests enum_log app] in *.
    rewrite Hlog, Hids.
    destruct (retry_trace_bounds yt playlist_id _ _ _ _ Htrace) as (H1 & H2 & H3);
      [lia|].
    split; [lia|]. split; [exact H2|]. split; [apply collected_nonempty|].
    intros _. exact H3.
  - intros [= <-]. cbn. split; [lia|]. split; [lia|]. split; [constructor|done].
Qed.

(** Witness for X7. *)
Lemma playlist_run_bounds_witness :
  exists st,
    enumerate_playlist (Some Samples.flaky_playlist) "UU" 5 = Some (Ok st)
    /\ failed_requests (enum_log st) <= 3
    /\ Forall (fun v => v <> "") (video_ids st).
Proof.
  assert (Hrun : exists st,
    enumerate_playlist (Some Samples.flaky_playlist) "UU" 5 = Some (Ok st)).
  { eexists. vm_compute. reflexivity. }
  destruct Hrun as [st Hrun]. exists st. split; [exact Hrun|].
  destruct (playlist_run_bounds _ _ _ _ Hrun) as (H1 & _ & H3 & _).
  split; [exact H1|exact H3].
Defined.

(** ** The metadata, again *)

Section MoreMetadataFacts.
Variable yt : youtube_service.

Lemma foldl_store_lookup (items : list video_item) (d : metadata_dict_t)
    (k : option string) (m : metadata_t) :
  foldl store_item d items !! k = Some m ->
  d !! k = Some m
  \/ exists item, item ∈ items /\ item_id item = k /\ m = item_record item.
Proof.
  revert d. induction items as [|a items IH]; intros d; simpl; [auto|].
  intros [Hd|(item & Hin & Hk & Hm)]%IH.
  - unfold store_item in Hd.
    destruct (decide (item_id a = k)) as [<-|Hne].
    + rewrite lookup_insert_eq in Hd. injection Hd as <-.
      right. exists a. split; [by left|done].
    + rewrite lookup_insert_ne in Hd by done. by left.
  - right. exists item. split; [by right|done].
Qed.

Lemma mark_failed_lookup (msg : string) (batch_ids : list string)
    (d : metadata_dict_t) (k : option string) (m : metadata_t) :
  mark_failed msg batch_ids d !! k = Some m ->
  d !! k = Some m
  \/ exists vid, vid ∈ batch_ids /\ k = Some vid /\ m = error_marker msg.
Proof.
  unfold mark_failed. revert d.
  induction batch_ids as [|v rest IH]; intros d; simpl; [auto|].
  intros [Hd|(vid & Hin & Hk & Hm)]%IH.
  - destruct (d !! Some v) eqn:Hv; [by left|].
    destruct (decide (Some v = k)) as [<-|Hne].
    + rewrite lookup_insert_eq in Hd. injection Hd as <-.
      right. exists v. split; [by left|done].
    + rewrite lookup_insert_ne in Hd by done. by left.
  - right. exists vid. split; [by right|done].
Qed.

Lemma fetch_batch_entries (video_ids batch_ids : list string) (retries : nat)
    (st st' : meta_state) :
  (forall vid, vid ∈ batch_ids -> vid ∈ video_ids) ->
  (forall k m, metadata_dict st !! k = Some m -> entry_ok yt video_ids k m) ->
  fetch_batch yt batch_ids 3 retries st = Ok st' ->
  forall k m, metadata_dict st' !! k = Some m -> entry_ok yt video_ids k m.
Proof.
  intros Hsub. revert st.
  induction retries as [|retries' IH]; intros st Hd; simpl.
  { by intros [= <-]. }
  assert (Hmark : forall msg n log, failure_message msg ->
    forall k m,
      metadata_dict (MetaState (mark_failed msg batch_ids (metadata_dict st)) n log)
        !! k = Some m ->
      entry_ok yt video_ids k m).
  { intros msg n log Hmsg k m [Hk|(vid & Hin & -> & ->)]%mark_failed_lookup;
      [by apply Hd|].
    right. exists vid, msg. auto. }
  destruct (videos_list yt (meta_requests st) (Py.join "," batch_ids))
    as [items|e] eqn:Hans; simpl.
  { intros [= <-] k m [Hk|(item & Hin & Hk & Hm)]%foldl_store_lookup;
      [by apply Hd|].
    left. exists item. split; [|done]. by eexists _, _, items. }
  destruct e as [hm| | |om|tm|tn om]; simpl.
  - destruct retries'.
    + intros [= <-]. apply Hmark. by left.
    + apply IH. done.
  - intros [= <-]. apply Hmark. right. by exists TranscriptsDisabled.
  - intros [= <-]. apply Hmark. right. by exists NoTranscriptFound.
  - intros [= <-]. apply Hmark. right. by exists (OSError om).
  - intros [= <-]. apply Hmark. right. by exists (TypeError tm).
  - intros [= <-]. apply Hmark. right. by exists (OtherException tn om).
Qed.

Lemma batch_in_ids (video_ids b : list string) (vid : string) :
  b ∈ batches video_ids -> vid ∈ b -> vid ∈ video_ids.
Proof.
  intros Hb Hin. rewrite <- (batches_concat video_ids).
  apply list_elem_of_In, List.in_concat. exists b.
  split; by apply list_elem_of_In.
Qed.

Lemma for_each_batches_entries (video_ids : list string)
    (bs : list (list string)) (st st' : meta_state) :
  (forall b, b ∈ bs -> b ∈ batches video_ids) ->
  (forall k m, metadata_dict st !! k = Some m -> entry_ok yt video_ids k m) ->
  for_each (batch_body yt) st bs = Ok st' ->
  forall k m, metadata_dict st' !! k = Some m -> entry_ok yt video_ids k m.
Proof.
  revert st. induction bs as [|b bs IH]; intros st Hbs Hd; simpl.
  { by intros [= <-]. }
  unfold batch_body at 1.
  destruct (fetch_batch yt b 3 3 st) as [st1|e] eqn:Hb; simpl; [|done].
  apply IH; [intros b' Hb'; apply Hbs; by right|]. simpl.
  eapply fetch_batch_entries; [|exact Hd|exact Hb].
  intros vid Hin. eapply batch_in_ids; [|exact Hin]. apply Hbs. by left.
Qed.

Lemma item_record_fields (item : video_item) :
  item_record item !! "error" = None
  /\ item_record item !! "url"
     = Some ("https://www.youtube.com/watch?v=" +:+ str_of_id (item_id item))
  /\ item_record item !! "title" = Some (default "N/A" (snippet_title item))
  /\ item_record item !! "description"
     = Some (default "N/A" (snippet_description item))
  /\ item_record item !! "publishedAt"
     = Some (default "N/A" (snippet_publishedAt item)).
Proof.
  unfold item_record.
  repeat split;
    repeat (first [ rewrite lookup_insert_eq; reflexivity
                  | rewrite lookup_insert_ne by done
                  | rewrite lookup_singleton_eq; reflexivity
                  | rewrite lookup_singleton_ne by done; reflexivity ]).
Qed.

(** *** The requests of a run *)

Lemma request_count_app (l1 l2 : list meta_event) :
  request_count (l1 ++ l2) = request_count l1 + request_count l2.
Proof. unfold request_count. by rewrite List.filter_app, length_app. Qed.

Lemma fetch_batch_requests (batch_ids : list string) (retries : nat)
    (st st' : meta_state) :
  fetch_batch yt batch_ids 3 retries st = Ok st' ->
  meta_requests st' <= meta_requests st + retries
  /\ (0 < retries -> meta_requests st < meta_requests st')
  /\ request_count (meta_log st') + meta_requests st
     = request_count (meta_log st) + meta_requests st'.
Proof.
  revert st. induction retries as [|retries' IH]; intros st; simpl.
  { intros [= <-]. lia. }
  destruct (videos_list yt (meta_requests st) (Py.join "," batch_ids))
    as [items|e] eqn:Hans; simpl.
  { intros [= <-]. cbn [meta_requests meta_log].
    rewrite request_count_app. cbn. lia. }
  assert (Hstop : forall d,
    let st1 := MetaState d (S (meta_requests st))
                 (meta_log st ++ [MvRequest (Py.join "," batch_ids) (Raise e)]) in
    meta_requests st1 <= meta_requests st + S retries'
    /\ (0 < S retries' -> meta_requests st < meta_requests st1)
    /\ request_count (meta_log st1) + meta_requests st
       = request_count (meta_log st) + meta_requests st1).
  { intros d. cbn [meta_requests meta_log].
    rewrite request_count_app. cbn. lia. }
  destruct e; simpl; try (intros [= <-]; apply Hstop).
  destruct retries'; [intros [= <-]; apply Hstop|].
  intros Hrec. apply IH in Hrec. cbn [meta_requests meta_log] in Hrec.
  rewrite !request_count_app in Hrec. cbn in Hrec. lia.
Qed.

Lemma for_each_batches_requests (bs : list (list string)) (st st' : meta_state) :
  for_each (batch_body yt) st bs = Ok st' ->
  meta_requests st + length bs <= meta_requests st'
  /\ meta_requests st' <= meta_requests st + 3 * length bs
  /\ request_count (meta_log st') + meta_requests st
     = request_count (meta_log st) + meta_requests st'.
Proof.
  revert st. induction bs as [|b bs IH]; intros st; simpl.
  { intros [= <-]. lia. }
  unfold batch_body at 1.
  destruct (fetch_batch yt b 3 3 st) as [st1|e] eqn:Hb; simpl; [|done].
  apply fetch_batch_requests in Hb as (H1 & H2 & H3).
  intros Hrec. apply IH in Hrec. cbn [meta_requests meta_log] in Hrec.
  rewrite request_count_app in Hrec. cbn in Hrec. lia.
Qed.

(** *** When every request is answered *)

Lemma for_each_batches_answered (bs : list (list string)) (st : meta_state) :
  (forall k b, bs !! k = Some b ->
     exists items, videos_list yt (meta_requests st + k) (Py.join "," b) = Ok items) ->
  exists st',
    for_each (batch_body yt) st bs = Ok st'
    /\ meta_requests st' = meta_requests st + length bs
    /\ metadata_dict st'
       = foldl store_item (metadata_dict st)
           (concat (imap (fun k b => batch_answer yt (meta_requests st + k) b) bs))
    /\ meta_log st'
       = meta_log st
         ++ concat (imap (fun k b =>
              [MvRequest (Py.join "," b)
                 (videos_list yt (meta_requests st + k) (Py.join "," b));
               MvSleep 200%N]) bs).
Proof.
  revert st. induction bs as [|b bs IH]; intros st Hall.
  { exists st. simpl. rewrite Nat.add_0_r, app_nil_r. done. }
  destruct (Hall 0 b eq_refl) as [items Hitems].
  rewrite Nat.add_0_r in Hitems.
  cbn [for_each]. unfold batch_body at 1. cbn [fetch_batch].
  rewrite Hitems. cbn [rbind try_except].
  match goal with |- context [for_each _ ?s bs] =>
    destruct (IH s) as (st' & Hrun & Hreq & Hdict & Hlog) end.
  { intros k b' Hk. cbn [meta_requests].
    replace (S (meta_requests st) + k) with (meta_requests st + S k) by lia.
    by apply Hall. }
  exists st'. cbn [meta_requests metadata_dict meta_log] in *.
  split; [exact Hrun|]. split; [simpl; lia|].
  split.
  - rewrite Hdict. cbn [imap concat]. rewrite foldl_app.
    assert (Hba : batch_answer yt (meta_requests st) b = items)
      by (unfold batch_answer; by rewrite Hitems).
    rewrite Nat.add_0_r, Hba.
    f_equal. f_equal. apply imap_ext. intros k b' _.
    unfold compose. f_equal. lia.
  - rewrite Hlog. cbn [imap concat]. rewrite Nat.add_0_r, Hitems.
    rewrite <- !app_assoc. simpl. do 4 f_equal.
    apply imap_ext. intros k b' _.
    unfold compose. do 3 f_equal. lia.
Qed.

End MoreMetadataFacts.

(** X8. Every entry of the mapping [get_videos_metadata] hands back is
    either the record of an item the service answered with, stored under
    the identifier of that item, with its four fields, a watch address made
    from that identifier and no error field, or an error marker, stored
    under an identifier of the input, whose error field is one of the two
    failure messages. So the test for an error field tells the two apart. *)
Theorem metadata_entries (yt : youtube_service) (video_ids : list string)
    (d : metadata_dict_t) (k : option string) (m : metadata_t) :
  get_videos_metadata (Some yt) video_ids = Ok d ->
  d !! k = Some m ->
  (exists item,
     served yt item /\ item_id item = k /\ m = item_record item
     /\ m !! "error" = None
     /\ m !! "url" = Some ("https://www.youtube.com/watch?v=" +:+ str_of_id k)
     /\ m !! "title" = Some (default "N/A" (snippet_title item))
     /\ m !! "description" = Some (default "N/A" (snippet_description item))
     /\ m !! "publishedAt" = Some (default "N/A" (snippet_publishedAt item)))
  \/ (exists vid msg,
        k = Some vid /\ vid ∈ video_ids /\ m = error_marker msg
        /\ failure_message msg /\ m !! "error" = Some msg).
Proof.
  intros Hrun Hk.
  destruct (decide (video_ids = [])) as [->|Hne].
  { injection Hrun as <-. by rewrite lookup_empty in Hk. }
  rewrite get_videos_metadata_nonempty in Hrun by done.
  destruct (for_each (batch_body yt) _ (batches video_ids)) as [st|e] eqn:Hst;
    [|done].
  injection Hrun as <-.
  assert (Hok : entry_ok yt video_ids k m).
  { eapply for_each_batches_entries; [| |exact Hst|exact Hk]; [done|].
    intros k' m'. cbn. by rewrite lookup_empty. }
  destruct Hok as [(item & Hs & Hid & ->)|(vid & msg & -> & Hin & -> & Hmsg)].
  - left. exists item. destruct (item_record_fields item) as (? & ? & ? & ? & ?).
    subst k. repeat split; done.
  - right. exists vid, msg. repeat split; done.
Qed.

(** Witness for X8: the marker of a refused batch. *)
Lemma metadata_entries_witness :
  exists vid msg,
    Some "a" = Some vid /\ vid ∈ ["a"; "b"; "c"]
    /\ error_marker "Metadata fetch failed after retries" = error_marker msg
    /\ failure_message msg
    /\ error_marker "Metadata fetch failed after retries" !! "error" = Some msg.
Proof.
  assert (Hrun : exists d,
    get_videos_metadata (Some Samples.refused_metadata) ["a"; "b"; "c"] = Ok d
    /\ d !! Some "a" = Some (error_marker "Metadata fetch failed after retries")).
  { eexists. split; vm_compute; reflexivity. }
  destruct Hrun as (d & Hrun & Hk).
  destruct (metadata_entries _ _ _ _ _ Hrun Hk)
    as [(item & _ & _ & Hm & _)|H]; [|exact H].
  exfalso. apply (f_equal (fun m : metadata_t => m !! "error")) in Hm.
  destruct (item_record_fields item) as (He & _). rewrite He in Hm.
  unfold error_marker in Hm. by rewrite lookup_singleton_eq in Hm.
Defined.


(** ** The writer, again *)

Section MoreWriterFacts.
Context `{DateTime}.
Variable cfg : config.
Variable env : environment.
Variable channel_title : string.
Variable output_dir : string.
Variable total_videos : nat.
Variable all_metadata : metadata_dict_t.

Local Abbreviation turn := (process_video cfg env channel_title output_dir total_videos all_metadata).
Local Abbreviation turns := (process_videos cfg env channel_title output_dir total_videos all_metadata).
Local Abbreviation run := (write_all cfg env channel_title output_dir total_videos all_metadata).
Local Abbreviation success := (video_success cfg env all_metadata).
Local Abbreviation entry := (video_entry cfg env all_metadata).

Local Opaque file_header format_video_entry path_join temp_filename_base
  final_filename_base partial_filename_base Py.word_count.

Lemma entry_of_video_step (i : nat) (video_id : string) (st : writer_state) :
  entry_of_video cfg env all_metadata i video_id st =
  (WriterState (current_word_count st) (current_file_handle st)
     (current_filename_temp st) (file_start_video_number st)
     (output_filenames st)
     (if success video_id then S (successful_transcripts st)
      else successful_transcripts st)
     (if success video_id then videos_with_issues st
      else S (videos_with_issues st))
     (i + 1) (files st) (processing st ++ [i + 1]),
   Ok (entry (i + 1) video_id)).
Proof.
  unfold entry_of_video, video_entry, video_success, video_outcome.
  change (default ∅ (all_metadata !! Some video_id))
    with (video_metadata all_metadata video_id).
  destruct (transcript_of_video_total cfg env video_id
              (video_metadata all_metadata video_id))
    as [[[text lang] ok] ->].
  reflexivity.
Qed.

Lemma file_for_entry_counters (wc : nat) (st0 st1 : writer_state) (fl : flow) :
  file_for_entry cfg env channel_title output_dir total_videos wc st0 = (fl, st1) ->
  successful_transcripts st1 = successful_transcripts st0
  /\ videos_with_issues st1 = videos_with_issues st0
  /\ forall e, fl <> Raised e.
Proof.
  unfold file_for_entry, start_new_file, close_previous, close_and_rename.
  destruct (needs_new_file cfg st0 wc); [|by intros [= <- <-]].
  destruct (current_file_handle st0); simpl;
    repeat match goal with |- context [if ?c then _ else _] => destruct c end;
    by intros [= <- <-].
Qed.

Lemma write_entry_counters (text : string) (wc : nat) (st1 st2 : writer_state)
    (fl : flow) :
  write_entry env output_dir text wc st1 = (fl, st2) ->
  successful_transcripts st2 = successful_transcripts st1
  /\ videos_with_issues st2 = videos_with_issues st1
  /\ forall e, fl <> Raised e.
Proof.
  unfold write_entry, close_and_rename.
  destruct (current_file_handle st1); [|by intros [= <- <-]].
  destruct (write_fails env _ _); by intros [= <- <-].
Qed.

Lemma process_video_counters (i : nat) (video_id : string)
    (st st' : writer_state) (fl : flow) :
  turn i video_id st = (fl, st') ->
  successful_transcripts st'
    = (if success video_id then S (successful_transcripts st)
       else successful_transcripts st)
  /\ videos_with_issues st'
     = (if success video_id then videos_with_issues st
        else S (videos_with_issues st))
  /\ forall e, fl <> Raised e.
Proof.
  unfold process_video. rewrite entry_of_video_step.
  destruct (file_for_entry _ _ _ _ _ _ _) as [fl1 st1] eqn:Hf.
  apply file_for_entry_counters in Hf as (Hs1 & Hi1 & Hfl1). simpl in Hs1, Hi1.
  destruct fl1.
  - intros (Hs2 & Hi2 & Hfl2)%write_entry_counters.
    split; [congruence|]. split; [congruence|done].
  - intros [= <- <-]. done.
  - by destruct (Hfl1 e).
Qed.

Lemma process_videos_counters (video_ids : list string) (i : nat)
    (st st' : writer_state) (fl : flow) :
  turns i video_ids st = (fl, st') ->
  exists k,
    k <= length video_ids
    /\ processing st' = processing st ++ seq (i + 1) k
    /\ successful_transcripts st'
       = successful_transcripts st
         + length (List.filter success (take k video_ids))
    /\ successful_transcripts st' + videos_with_issues st'
       = successful_transcripts st + videos_with_issues st + k
    /\ (fl = Continue -> k = length video_ids)
    /\ (fl = Break -> 0 < k)
    /\ forall e, fl <> Raised e.
Proof.
  revert i st. induction video_ids as [|video_id rest IH]; intros i st; simpl.
  - intros [= <- <-]. exists 0. simpl. rewrite app_nil_r.
    repeat split; try done; lia.
  - destruct (turn i video_id st) as [fl1 st1] eqn:Hturn.
    pose proof (process_video_fields _ _ _ _ _ _ _ _ _ _ _ Hturn) as [_ Hp].
    apply process_video_counters in Hturn as (Hs & Hi & Hfl).
    assert (Hstop : fl1 <> Continue -> (fl1, st1) = (fl, st') ->
      exists k, k <= S (length rest)
      /\ processing st' = processing st ++ seq (i + 1) k
      /\ successful_transcripts st'
         = successful_transcripts st
           + length (List.filter success (take k (video_id :: rest)))
      /\ successful_transcripts st' + videos_with_issues st'
         = successful_transcripts st + videos_with_issues st + k
      /\ (fl = Continue -> k = S (length rest))
      /\ (fl = Break -> 0 < k)
      /\ forall e, fl <> Raised e).
    { intros Hne [= <- <-]. exists 1. simpl. rewrite ?take_0.
      split; [lia|]. split; [done|].
      split; [destruct (success video_id); simpl; lia|].
      split; [destruct (success video_id); lia|].
      split; [done|]. split; [lia|done]. }
    destruct fl1; [|by apply Hstop|by apply Hstop]. clear Hstop.
    intros (k & Hk & Hp' & Hs' & Hsum & Hc & Hb & Hr)%IH.
    exists (S k). simpl.
    split; [lia|]. split.
    { rewrite Hp', Hp, <- app_assoc. simpl.
      by replace (S i + 1) with (S (i + 1)) by lia. }
    split; [destruct (success video_id); simpl; lia|].
    split; [destruct (success video_id); lia|].
    split; [intros E; rewrite (Hc E); done|]. split; [lia|done].
Qed.

Lemma finalize_last_file_counters (st : writer_state) :
  successful_transcripts (finalize_last_file env output_dir st)
    = successful_transcripts st
  /\ videos_with_issues (finalize_last_file env output_dir st)
     = videos_with_issues st
  /\ processing (finalize_last_file env output_dir st) = processing st.
Proof.
  unfold finalize_last_file, close_and_rename.
  by destruct (current_file_handle st).
Qed.

Lemma write_all_counters (video_ids : list string)
    (fs : gmap string (list string)) (fl : flow) (st : writer_state) :
  run video_ids fs = (fl, st) ->
  exists k,
    k <= length video_ids
    /\ processing st = seq 1 k
    /\ successful_transcripts st = length (List.filter success (take k video_ids))
    /\ successful_transcripts st + videos_with_issues st = k
    /\ (fl = Continue -> k = length video_ids)
    /\ (fl = Break -> 0 < k)
    /\ forall e, fl <> Raised e.
Proof.
  unfold write_all.
  destruct (turns 0 video_ids (initial_writer_state fs)) as [fl0 st0] eqn:Hrun.
  intros [= <- <-].
  apply process_videos_counters in Hrun
    as (k & Hk & Hp & Hs & Hsum & Hrest).
  destruct (finalize_last_file_counters st0) as (-> & -> & ->).
  exists k. simpl in *. rewrite Hp, Hs. repeat split; try tauto; lia.
Qed.

Lemma video_success_iff (video_id : string) :
  success video_id = true <->
  video_metadata all_metadata video_id !! "error" = None
  /\ exists text lang,
       get_transcript_for_video (list_transcripts env) video_id
         (preferred_languages cfg) = Ok (Some text, lang)
       /\ text <> "".
Proof.
  unfold video_success, video_outcome, transcript_of_video.
  destruct (video_metadata all_metadata video_id !! "error") as [err|]; simpl.
  { split; [done|]. by intros [? _]. }
  destruct (get_transcript_for_video_total (list_transcripts env) video_id
              (preferred_languages cfg)) as [[text lang] ->]. simpl.
  split.
  - intros Ht. split; [done|]. destruct text as [text|]; [|done].
    exists text, lang. split; [done|]. by intros ->.
  - intros (_ & text' & lang' & [= -> ->] & Hne). by destruct text'.
Qed.

End MoreWriterFacts.



(** ** The program *)

Lemma get_channel_upload_playlist_id_pair (yt : youtube_service)
    (channel_id : string) (playlist_id title : option string) :
  get_channel_upload_playlist_id (Some yt) channel_id
    = Ok (RetPair playlist_id title) ->
  opt_truthy playlist_id = true ->
  exists item rest pid,
    channels_list yt channel_id = Ok (Some (item :: rest))
    /\ playlist_id = Some pid /\ uploads item = Some pid /\ pid <> ""
    /\ title = Some (default "Unknown Channel" (channel_title item)).
Proof.
  unfold get_channel_upload_playlist_id.
  destruct (channels_list yt channel_id) as [[[|item rest]|]|e]; simpl;
    try (by intros [= <- <-]).
  - destruct (opt_truthy (uploads item)) eqn:Hu.
    + intros [= <- <-] _. destruct (uploads item) as [pid|] eqn:Hpid; [|done].
      exists item, rest, pid. repeat split; try done. by intros ->.
    + by intros [= <- <-].
  - by destruct e.
Qed.

Lemma channel_lookup_raises (yt : youtube_service) (channel_id : string)
    (e : exn) :
  (v ←r get_channel_upload_playlist_id (Some yt) channel_id; unpack_pair v)
    = Raise e ->
  (channels_list yt channel_id = Raise e /\ forall msg, e <> HttpError msg)
  \/ (exists msg, channels_list yt channel_id = Raise (HttpError msg)
                  /\ e = TypeError "cannot unpack non-iterable NoneType object").
Proof.
  unfold get_channel_upload_playlist_id.
  destruct (channels_list yt channel_id) as [[[|item rest]|]|e']; simpl;
    try done.
  - by destruct (opt_truthy (uploads item)).
  - destruct e'; simpl; intros [= <-]; try (left; split; [done|done]).
    right. by eexists.
Qed.

Lemma get_all_video_ids_never_raises (yt : youtube_service)
    (playlist_id : string) (fuel : nat) (e : exn) :
  get_all_video_ids_in_playlist (Some yt) playlist_id fuel <> Some (Raise e).
Proof.
  unfold get_all_video_ids_in_playlist, enumerate_playlist.
  destruct (Py.truthy playlist_id); cbn [negb]; [|by cbv].
  pose proof (retry_pages_never_raises yt playlist_id fuel 3
                (EnumState [] None 0 [])) as Hn.
  destruct (retry_pages yt playlist_id fuel 3 3 _) as [[st|e']|];
    [by cbv| |by cbv].
  by destruct (Hn e').
Qed.

Lemma get_videos_metadata_total (youtube : option youtube_service)
    (video_ids : list string) :
  exists d, get_videos_metadata youtube video_ids = Ok d.
Proof.
  destruct youtube as [yt|]; [|by eexists; destruct video_ids].
  destruct (decide (video_ids = [])) as [->|Hne]; [by eexists|].
  rewrite get_videos_metadata_nonempty by done.
  destruct (for_each_batches_total yt (batches video_ids) (MetaState ∅ 0 []))
    as [st ->]. simpl. eauto.
Qed.



(** ** What the files hold *)

Lemma temp_filepath_inj (dir : string) (k k' : nat) :
  temp_filepath dir k = temp_filepath dir k' -> k = k'.
Proof.
  unfold temp_filepath. intros E%path_join_inj%temp_filename_base_inj_aux. lia.
Qed.

Lemma temp_not_final_path (dir : string) (k : nat) (r : nat * nat) :
  temp_filepath dir k <> final_filepath dir r.
Proof. unfold temp_filepath, final_filepath. by intros E%path_join_inj. Qed.

Lemma final_filepath_inj (dir : string) (r r' : nat * nat) :
  final_filepath dir r = final_filepath dir r' -> r = r'.
Proof.
  destruct r as [a b], r' as [a' b']. unfold final_filepath. simpl.
  by intros [-> ->]%path_join_inj%final_filename_base_inj_aux.
Qed.

Lemma contiguous_in (first : nat) (ranges : list (nat * nat)) (last : nat)
    (r : nat * nat) :
  contiguous first ranges last -> r ∈ ranges ->
  first <= r.1 /\ r.1 <= r.2 /\ r.2 <= last.
Proof.
  revert first. induction ranges as [|[a b] rest IH]; intros first; simpl.
  { intros _ Hin. by apply elem_of_nil in Hin. }
  intros (-> & Hab & Hrest) [->|Hin]%elem_of_cons.
  - simpl. apply contiguous_bound in Hrest. lia.
  - destruct (IH _ Hrest Hin) as (? & ? & ?). lia.
Qed.

Lemma range_numbers_snoc (a i : nat) :
  a <= i + 1 -> range_numbers (a, S i) = range_numbers (a, i) ++ [S i].
Proof.
  intros Ha. unfold range_numbers. cbn [fst snd].
  replace (S i + 1 - a) with (S (i + 1 - a)) by lia.
  rewrite seq_S. f_equal. f_equal. lia.
Qed.

Lemma range_numbers_one (n : nat) : range_numbers (n, n) = [n].
Proof. unfold range_numbers. cbn [fst snd]. by replace (n + 1 - n) with 1 by lia. Qed.

Section FilesFacts.
Context `{DateTime}.
Variable cfg : config.
Variable env : environment.
Variable channel_title : string.
Variable output_dir : string.
Variable total_videos : nat.
Variable all_metadata : metadata_dict_t.

Local Abbreviation turn := (process_video cfg env channel_title output_dir total_videos all_metadata).
Local Abbreviation turns := (process_videos cfg env channel_title output_dir total_videos all_metadata).
Local Abbreviation run := (write_all cfg env channel_title output_dir total_videos all_metadata).
Local Abbreviation inv := (writer_inv env output_dir).
Local Abbreviation listed := (listed_name env output_dir).
Local Abbreviation temp_path := (temp_filepath output_dir).
Local Abbreviation final_path := (final_filepath output_dir).
Local Abbreviation entry := (video_entry cfg env all_metadata).
Local Abbreviation header := (file_header cfg env channel_title total_videos).
Local Abbreviation content := (file_content cfg env channel_title total_videos all_metadata).
Local Abbreviation closed := (closed_inv cfg env channel_title output_dir total_videos all_metadata).
Local Abbreviation finv := (files_inv cfg env channel_title output_dir total_videos all_metadata).

Local Opaque file_header format_video_entry path_join temp_filename_base
  final_filename_base partial_filename_base Py.word_count.

(** One turn that ends without [Break], spelled out: it opens a new file,
    after closing the one that was open, or it goes on with the open one. *)
Lemma process_video_step (i : nat) (video_id : string)
    (ranges : list (nat * nat)) (st st' : writer_state) :
  inv i ranges st ->
  turn i video_id st = (Continue, st') ->
  let n := i + 1 in
  let wc := Py.word_count (entry n video_id) in
  let chunk := entry n video_id +:+ Py.nl in
  (exists ranges' files1,
     ((i = 0 /\ ranges' = ranges /\ files1 = files st)
      \/ (0 < i
          /\ max_words_per_file cfg < current_word_count st + wc
          /\ 0 < current_word_count st
          /\ ranges' = ranges ++ [(file_start_video_number st, i)]
          /\ files1
             = (if rename_fails env (temp_path (length ranges))
                     (final_path (file_start_video_number st, i))
                then files st
                else rename_file (temp_path (length ranges))
                       (final_path (file_start_video_number st, i)) (files st))))
     /\ inv (S i) ranges' st'
     /\ file_start_video_number st' = n
     /\ current_word_count st' = Py.word_count (header n) + wc
     /\ files st' = <[ temp_path (length ranges') := [header n; chunk] ]> files1)
  \/ (0 < i
      /\ ~ (max_words_per_file cfg < current_word_count st + wc
            /\ 0 < current_word_count st)
      /\ inv (S i) ranges st'
      /\ file_start_video_number st' = file_start_video_number st
      /\ current_word_count st' = current_word_count st + wc
      /\ files st'
         = <[ temp_path (length ranges)
              := default [] (files st !! temp_path (length ranges)) ++ [chunk] ]>
             (files st)).
Proof.
  intros (Hnum & Hproc & Hout & Hcont & Hfile).
  destruct st as [cwc handle temp start outs succ issues num fs0 proc].
  simpl in *. subst num proc outs.
  unfold process_video. rewrite entry_of_video_step. cbn [fst snd].
  assert (Hseq : seq 1 i ++ [i + 1] = seq 1 (S i)).
  { rewrite seq_S. f_equal. f_equal. lia. }
  unfold file_for_entry, needs_new_file. simpl.
  destruct i as [|i'].
  - destruct Hfile as [-> ->]. unfold close_previous. simpl.
    destruct (start_new_file _ _ _ _ _ _) as [fl st1] eqn:Hs.
    destruct fl; try done. apply start_new_file_continue in Hs. simpl in Hs.
    subst st1. intros Hw. eapply write_entry_continue in Hw; [|reflexivity].
    simpl in Hw. subst st'. left. exists ranges, fs0.
    split; [by left|]. simpl. rewrite length_imap.
    split; [unfold writer_inv; simpl; rewrite ?length_imap; repeat split; auto|].
    split; [done|]. split; [done|].
    by rewrite lookup_insert_eq, insert_insert_eq.
  - destruct Hfile as (-> & -> & Hs1 & Hs2).
    match goal with |- context [if ?c then _ else _] => destruct c eqn:Hnew end.
    + apply andb_prop in Hnew as [Hover%Nat.ltb_lt Hpos%Nat.ltb_lt].
      unfold close_previous, close_and_rename. simpl.
      destruct (start_new_file _ _ _ _ _ _) as [fl st1] eqn:Hs.
      destruct fl; try done. apply start_new_file_continue in Hs. simpl in Hs.
      subst st1. intros Hw. eapply write_entry_continue in Hw; [|reflexivity].
      simpl in Hw. subst st'. left.
      replace (i' + 1 - 0) with (S i') in * by lia.
      eexists (ranges ++ [(start, S i')]), _.
      split.
      { right. split; [lia|]. split; [exact Hover|]. split; [exact Hpos|].
        split; [reflexivity|]. simpl. reflexivity. }
      simpl. rewrite !length_app, length_imap. simpl.
      split.
      { unfold writer_inv. simpl. rewrite ?length_app, ?length_imap. simpl.
        split; [lia|]. split; [done|]. split.
        { rewrite imap_listed_snoc. f_equal. f_equal.
          unfold listed_name, final_filepath. simpl.
          by destruct (rename_fails env _ _). }
        split.
        { replace (i' + 1 - 0) with (S i') by lia.
          replace start with (start - 1 + 1) at 1 by lia.
          apply contiguous_snoc; [done|lia]. }
        repeat split; try lia. }
      split; [done|]. split; [done|].
      rewrite lookup_insert_eq, insert_insert_eq. simpl.
      f_equal. unfold final_filepath. simpl.
      by destruct (rename_fails env _ _).
    + intros Hw. eapply write_entry_continue in Hw; [|reflexivity].
      simpl in Hw. subst st'. right.
      split; [lia|]. split.
      { intros [Hover%Nat.ltb_lt Hpos%Nat.ltb_lt]. by rewrite Hover, Hpos in Hnew. }
      split; [unfold writer_inv; simpl; repeat split; auto; lia|].
      done.
Qed.


Lemma entry_at_lookup (video_ids : list string) (i : nat) (video_id : string) :
  video_ids !! i = Some video_id ->
  entry_at cfg env all_metadata video_ids (i + 1) = entry (i + 1) video_id.
Proof.
  intros Hi. unfold entry_at. replace (i + 1 - 1) with i by lia. by rewrite Hi.
Qed.

Lemma file_content_snoc (video_ids : list string) (a i : nat) :
  a <= i + 1 ->
  file_content cfg env channel_title total_videos all_metadata video_ids (a, S i)
  = file_content cfg env channel_title total_videos all_metadata video_ids (a, i)
    ++ [entry_at cfg env all_metadata video_ids (S i) +:+ Py.nl].
Proof.
  intros Ha. unfold file_content. rewrite range_numbers_snoc by done.
  by rewrite fmap_app.
Qed.

Lemma file_words_snoc (video_ids : list string) (a i : nat) :
  a <= i + 1 ->
  file_words cfg env channel_title total_videos all_metadata video_ids (a, S i)
  = file_words cfg env channel_title total_videos all_metadata video_ids (a, i)
    + Py.word_count (entry_at cfg env all_metadata video_ids (S i)).
Proof.
  intros Ha. unfold file_words. rewrite range_numbers_snoc by done.
  rewrite fmap_app, sum_list_with_app. simpl. lia.
Qed.

Lemma file_content_one (video_ids : list string) (n : nat) :
  file_content cfg env channel_title total_videos all_metadata video_ids (n, n)
  = [header n; entry_at cfg env all_metadata video_ids n +:+ Py.nl].
Proof. unfold file_content. by rewrite range_numbers_one. Qed.

Lemma file_words_one (video_ids : list string) (n : nat) :
  file_words cfg env channel_title total_videos all_metadata video_ids (n, n)
  = Py.word_count (header n)
    + Py.word_count (entry_at cfg env all_metadata video_ids n).
Proof. unfold file_words. rewrite range_numbers_one. simpl. lia. Qed.

Lemma file_words_pos (video_ids : list string) (r : nat * nat) :
  0 < file_words cfg env channel_title total_videos all_metadata video_ids r.
Proof.
  unfold file_words.
  pose proof (file_header_words_pos cfg env channel_title total_videos r.1). lia.
Qed.

Lemma stored_path_cases (k : nat) (r : nat * nat) :
  stored_path env output_dir k r = temp_path k
  \/ stored_path env output_dir k r = final_path r.
Proof. unfold stored_path. destruct (rename_fails env _ _); auto. Qed.

Lemma closed_inv_insert_temp (video_ids : list string)
    (fs : gmap string (list string)) (ranges : list (nat * nat))
    (f : gmap string (list string)) (k' : nat) (c : list string) :
  closed video_ids fs ranges f -> length ranges <= k' ->
  closed video_ids fs ranges (<[ temp_path k' := c ]> f).
Proof.
  intros (H1 & H2 & H3) Hk'. split; [|split].
  - intros k r Hk. pose proof (lookup_lt_Some _ _ _ Hk) as Hlt.
    rewrite lookup_insert_ne; [by apply H1|].
    destruct (stored_path_cases k r) as [-> | ->].
    + intros E%temp_filepath_inj. lia.
    + apply temp_not_final_path.
  - intros k r Hk Hrf. pose proof (lookup_lt_Some _ _ _ Hk) as Hlt.
    rewrite lookup_insert_ne; [by eapply H2|].
    intros E%temp_filepath_inj. lia.
  - intros path Ht Hf. rewrite lookup_insert_ne; [by apply H3|].
    intros E. by apply (Ht k').
Qed.

Lemma closed_inv_close (video_ids : list string)
    (fs : gmap string (list string)) (ranges : list (nat * nat))
    (f : gmap string (list string)) (r : nat * nat) :
  closed video_ids fs ranges f ->
  f !! temp_path (length ranges) = Some (content video_ids r) ->
  (forall r', r' ∈ ranges -> r' <> r) ->
  closed video_ids fs (ranges ++ [r])
    (if rename_fails env (temp_path (length ranges)) (final_path r)
     then f
     else rename_file (temp_path (length ranges)) (final_path r) f).
Proof.
  intros (H1 & H2 & H3) Htemp Hfresh.
  assert (Hsplit : forall k r0, (ranges ++ [r]) !! k = Some r0 ->
            (ranges !! k = Some r0 /\ k < length ranges)
            \/ (k = length ranges /\ r0 = r)).
  { intros k r0 [Hk|[Hk Hr]]%lookup_app_Some.
    - left. split; [done|]. by eapply lookup_lt_Some.
    - right. apply list_lookup_singleton_Some in Hr as [Hz <-]. split; [lia|done]. }
  destruct (rename_fails env (temp_path (length ranges)) (final_path r)) eqn:Hrf.
  - split; [|split; [|done]].
    + intros k r0 [[Hk _]|[-> ->]]%Hsplit; [by apply H1|].
      unfold stored_path. by rewrite Hrf.
    + intros k r0 [[Hk _]|[-> ->]]%Hsplit Hok; [by eapply H2|congruence].
  - unfold rename_file. rewrite Htemp. split; [|split].
    + intros k r0 [[Hk Hlt]|[-> ->]]%Hsplit.
      * assert (Hin : r0 ∈ ranges) by (by eapply list_elem_of_lookup_2).
        rewrite lookup_insert_ne, lookup_delete_ne; [by apply H1| |].
        -- destruct (stored_path_cases k r0) as [-> | ->].
           ++ intros E%temp_filepath_inj. lia.
           ++ apply temp_not_final_path.
        -- destruct (stored_path_cases k r0) as [-> | ->].
           ++ intros E. symmetry in E. by apply temp_not_final_path in E.
           ++ intros E%final_filepath_inj. by apply (Hfresh r0).
      * unfold stored_path. rewrite Hrf. by rewrite lookup_insert_eq.
    + intros k r0 [[Hk Hlt]|[-> ->]]%Hsplit Hok.
      * rewrite lookup_insert_ne, lookup_delete_ne; [by eapply H2| |].
        -- intros E%temp_filepath_inj. lia.
        -- intros E. symmetry in E. by apply temp_not_final_path in E.
      * rewrite lookup_insert_ne, lookup_delete_eq; [done|].
        intros E. symmetry in E. by apply temp_not_final_path in E.
    + intros path Ht Hf.
      rewrite lookup_insert_ne, lookup_delete_ne; [by apply H3| |].
      * intros E. by apply (Ht (length ranges)).
      * intros E. by apply (Hf r).
Qed.

(** One turn that ends without [Break] keeps both invariants. *)
Lemma files_inv_step (video_ids : list string) (fs : gmap string (list string))
    (i : nat) (video_id : string) (ranges : list (nat * nat))
    (st st' : writer_state) :
  video_ids !! i = Some video_id ->
  inv i ranges st ->
  finv video_ids fs i ranges st ->
  turn i video_id st = (Continue, st') ->
  exists ranges', inv (S i) ranges' st' /\ finv video_ids fs (S i) ranges' st'.
Proof.
  intros Hi Hinv (Hclosed & [Hbudget Hgreedy] & Hopen) Hturn.
  pose proof (entry_at_lookup video_ids i video_id Hi) as Hentry.
  replace (i + 1) with (S i) in Hentry by lia.
  pose proof Hinv as (_ & _ & _ & Hcont & Hfile).
  destruct (process_video_step i video_id ranges st st' Hinv Hturn)
    as [(ranges' & files1 & Hcase & Hinv' & Hstart & Hcwc & Hfiles)
       |(Hpos & Hfit & Hinv' & Hstart & Hcwc & Hfiles)];
    cbn zeta in *; replace (i + 1) with (S i) in * by lia.
  - exists ranges'. split; [exact Hinv'|].
    assert (Hnew : closed_inv cfg env channel_title output_dir total_videos
                     all_metadata video_ids fs ranges' files1
                   /\ budget_inv cfg env channel_title total_videos all_metadata
                        video_ids ranges').
    { destruct Hcase as [(-> & -> & ->)|(Hpos & Hover & Hcpos & -> & ->)];
        [done|].
      destruct i as [|i']; [lia|].
      destruct Hopen as (Htemp & Hwords & Hfits).
      destruct Hfile as (_ & _ & Hs1 & Hs2).
      split.
      - apply closed_inv_close; [done|done|].
        intros r' Hin ->.
        destruct (contiguous_in _ _ _ _ Hcont Hin) as (_ & ? & ?). simpl in *. lia.
      - split.
        + intros r [Hin| ->%list_elem_of_singleton]%elem_of_app; [by apply Hbudget|].
          exact Hfits.
        + intros r [Hin| ->%list_elem_of_singleton]%elem_of_app; [by apply Hgreedy|].
          cbn [fst snd]. rewrite <- Hwords.
          replace (S i' + 1) with (S (S i')) by lia.
          rewrite Hentry. exact Hover. }
    destruct Hnew as [Hclosed' Hbudget'].
    split; [|split; [exact Hbudget'|]].
    + rewrite Hfiles. by apply closed_inv_insert_temp.
    + cbn zeta. rewrite Hstart, Hfiles, lookup_insert_eq.
      rewrite file_content_one, file_words_one, Hentry.
      split; [done|]. split; [done|]. by left.
  - exists ranges. split; [exact Hinv'|].
    destruct i as [|i']; [lia|].
    destruct Hopen as (Htemp & Hwords & Hfits).
    destruct Hfile as (_ & _ & Hs1 & Hs2).
    split; [|split; [done|]].
    + rewrite Hfiles. by apply closed_inv_insert_temp.
    + cbn zeta. rewrite Hstart, Hfiles, lookup_insert_eq, Htemp.
      rewrite (file_content_snoc video_ids (file_start_video_number st) (S i')),
        (file_words_snoc video_ids (file_start_video_number st) (S i')) by lia.
      rewrite Hentry.
      split; [done|]. split; [lia|].
      right. rewrite <- Hwords.
      pose proof (file_words_pos video_ids (file_start_video_number st, S i')).
      lia.
Qed.

Lemma files_inv_loop (video_ids : list string) (fs : gmap string (list string))
    (rest : list string) (i : nat) (ranges : list (nat * nat))
    (st st' : writer_state) :
  (exists before after,
     video_ids = before ++ rest ++ after /\ length before = i) ->
  inv i ranges st ->
  finv video_ids fs i ranges st ->
  turns i rest st = (Continue, st') ->
  exists ranges',
    inv (i + length rest) ranges' st'
    /\ finv video_ids fs (i + length rest) ranges' st'.
Proof.
  revert i ranges st.
  induction rest as [|video_id rest IH]; intros i ranges st Hsplit Hinv Hfinv; simpl.
  - intros [= <-]. exists ranges. by rewrite Nat.add_0_r.
  - destruct (turn i video_id st) as [fl st1] eqn:Hturn.
    destruct fl; try done.
    destruct Hsplit as (before & after & Hids & Hlen).
    assert (Hi : video_ids !! i = Some video_id).
    { rewrite Hids, <- Hlen. apply list_lookup_middle. done. }
    destruct (files_inv_step _ _ _ _ _ _ _ Hi Hinv Hfinv Hturn)
      as (ranges1 & Hinv1 & Hfinv1).
    intros Hrest.
    destruct (IH (S i) ranges1 st1) as (ranges2 & Hinv2 & Hfinv2); try done.
    { exists (before ++ [video_id]), after. rewrite <- app_assoc.
      split; [done|]. rewrite length_app. simpl. lia. }
    exists ranges2.
    by replace (i + S (length rest)) with (S i + length rest) by lia.
Qed.

(** A run that ends without [Break]: where the files are and what they
    hold. *)
Lemma write_all_files (video_ids : list string) (fs : gmap string (list string))
    (st : writer_state) :
  run video_ids fs = (Continue, st) ->
  exists ranges,
    contiguous 1 ranges (length video_ids)
    /\ output_filenames st = imap listed ranges
    /\ closed video_ids fs ranges (files st)
    /\ (forall r, r ∈ ranges ->
          r.1 = r.2
          \/ file_words cfg env channel_title total_videos all_metadata
               video_ids r <= max_words_per_file cfg)
    /\ (forall r, r ∈ ranges ->
          r.2 = length video_ids
          \/ max_words_per_file cfg
             < file_words cfg env channel_title total_videos all_metadata
                 video_ids r
               + Py.word_count (entry_at cfg env all_metadata video_ids (r.2 + 1))).
Proof.
  unfold write_all.
  destruct (turns 0 video_ids (initial_writer_state fs)) as [fl st0] eqn:Hrun.
  intros [= -> <-].
  assert (Hinit : inv 0 [] (initial_writer_state fs)) by (by repeat split).
  assert (Hfinit : finv video_ids fs 0 [] (initial_writer_state fs)).
  { split; [|split; [|done]].
    - split; [|split]; try done.
    - split; intros r Hin; by apply elem_of_nil in Hin. }
  destruct (files_inv_loop video_ids fs video_ids 0 [] _ _
              ltac:(exists [], []; by rewrite app_nil_r) Hinit Hfinit Hrun)
    as (ranges & Hinv & Hclosed & [Hbudget Hgreedy] & Hopen).
  destruct Hinv as (Hnum & Hproc & Hout & Hcont & Hfile).
  simpl in *. unfold finalize_last_file.
  destruct (length video_ids) as [|n] eqn:Hlen.
  - destruct Hfile as [Hh Hs]. rewrite Hh. exists ranges.
    rewrite Hs in Hcont. repeat split; try done; try apply Hclosed.
    intros r Hin. right. by apply Hgreedy.
  - destruct Hfile as (Hh & Ht & Hs1 & Hs2). rewrite Hh.
    destruct Hopen as (Htemp & Hwords & Hfits).
    exists (ranges ++ [(file_start_video_number st0, S n)]).
    unfold close_and_rename. simpl. rewrite Ht, Hnum. simpl.
    split.
    { replace (file_start_video_number st0)
        with (file_start_video_number st0 - 1 + 1) at 1 by lia.
      apply contiguous_snoc; [done|lia]. }
    split.
    { rewrite imap_listed_snoc, Hout. f_equal. f_equal.
      unfold listed_name, final_filepath. simpl.
      by destruct (rename_fails env _ _). }
    split.
    { pose proof (closed_inv_close video_ids fs ranges (files st0)
                    (file_start_video_number st0, S n) Hclosed Htemp) as Hc.
      unfold final_filepath in Hc. simpl in Hc.
      destruct (rename_fails env _ _); apply Hc;
        intros r' Hin ->;
        destruct (contiguous_in _ _ _ _ Hcont Hin) as (_ & ? & ?);
        simpl in *; lia. }
    split.
    + intros r [Hin| ->%list_elem_of_singleton]%elem_of_app; [by apply Hbudget|].
      exact Hfits.
    + intros r [Hin| ->%list_elem_of_singleton]%elem_of_app.
      * right. by apply Hgreedy.
      * by left.
Qed.

End FilesFacts.

Section FileTextFacts.
Import Py.

Lemma word_count_chunk (c : string) : word_count (c +:+ nl) = word_count c.
Proof.
  rewrite <- (append_nil_r (c +:+ nl)), append_assoc, word_count_nl.
  change (word_count "") with 0. lia.
Qed.

Lemma word_count_file_text (chunks : list string) :
  Forall (fun c => exists c', c = c' +:+ nl) chunks ->
  word_count (file_text chunks) = sum_list (word_count <$> chunks).
Proof.
  induction 1 as [|c rest [c' ->] _ IH]; [done|].
  cbn [file_text foldr fmap list_fmap sum_list_with].
  change (foldr String.append "" rest) with (file_text rest).
  rewrite append_assoc, word_count_nl, word_count_chunk, IH. done.
Qed.

Lemma file_header_ends_nl (cfg : config) (env : environment)
    (channel_title : string) (total_videos first : nat) :
  exists c', file_header cfg env channel_title total_videos first = c' +:+ nl.
Proof. unfold file_header. rewrite <- !append_assoc. by eexists. Qed.

Lemma file_text_words `{DateTime} (cfg : config) (env : environment)
    (channel_title : string) (total_videos : nat)
    (all_metadata : metadata_dict_t) (video_ids : list string) (r : nat * nat) :
  word_count (file_text (file_content cfg env channel_title total_videos
                           all_metadata video_ids r))
  = file_words cfg env channel_title total_videos all_metadata video_ids r.
Proof.
  rewrite word_count_file_text.
  - unfold file_content, file_words. cbn [fmap list_fmap sum_list_with].
    f_equal. induction (range_numbers r) as [|n l IH]; [done|].
    cbn [fmap list_fmap sum_list_with]. rewrite word_count_chunk. by f_equal.
  - unfold file_content. constructor; [apply file_header_ends_nl|].
    induction (range_numbers r) as [|n l IH]; constructor; [by eexists|done].
Qed.

Lemma file_words_entry `{DateTime} (cfg : config) (env : environment)
    (channel_title : string) (total_videos : nat)
    (all_metadata : metadata_dict_t) (video_ids : list string) (r : nat * nat)
    (n : nat) :
  r.1 <= n <= r.2 ->
  word_count (entry_at cfg env all_metadata video_ids n)
  < file_words cfg env channel_title total_videos all_metadata video_ids r.
Proof.
  intros Hn. unfold file_words.
  pose proof (file_header_words_pos cfg env channel_title total_videos r.1) as Hh.
  assert (Hin : n ∈ range_numbers r).
  { unfold range_numbers. apply elem_of_seq. lia. }
  revert Hin. generalize (range_numbers r). intros l Hin.
  induction l as [|m l IH]; [by apply elem_of_nil in Hin|].
  cbn [fmap list_fmap sum_list_with]. unfold id at 1.
  apply elem_of_cons in Hin as [<-|Hin]; [lia|]. specialize (IH Hin). lia.
Qed.

End FileTextFacts.

(** X12. In a run of the writer that ends without [Break], every file
    the run lists is found where its name says, under its final name or,
    when the renaming failed, still under its temporary name, and holds
    its header followed by the entries of the videos of its range, in
    order, each followed by a newline, and nothing else; the temporary name
    of a renamed file is gone; and no path other than the temporary and
    final names of the output directory is created, changed or removed. *)
Theorem output_files_content `{DateTime} (cfg : config) (env : environment)
    (channel_title output_dir : string) (total_videos : nat)
    (all_metadata : metadata_dict_t) (video_ids : list string)
    (fs : gmap string (list string)) (st : writer_state) :
  write_all cfg env channel_title output_dir total_videos all_metadata
            video_ids fs = (Continue, st) ->
  exists ranges,
    contiguous 1 ranges (length video_ids)
    /\ output_filenames st = imap (listed_name env output_dir) ranges
    /\ (forall k r, ranges !! k = Some r ->
          files st !! stored_path env output_dir k r
          = Some (file_content cfg env channel_title total_videos all_metadata
                    video_ids r))
    /\ (forall k r, ranges !! k = Some r ->
          rename_fails env (temp_filepath output_dir k)
                       (final_filepath output_dir r) = false ->
          files st !! final_filepath output_dir r
          = Some (file_content cfg env channel_title total_videos all_metadata
                    video_ids r)
          /\ files st !! temp_filepath output_dir k = None)
    /\ (forall path,
          (forall k, path <> temp_filepath output_dir k) ->
          (forall r, path <> final_filepath output_dir r) ->
          files st !! path = fs !! path).
Proof.
  intros Hrun.
  destruct (write_all_files _ _ _ _ _ _ _ _ _ Hrun)
    as (ranges & Hcont & Hout & (H1 & H2 & H3) & _).
  exists ranges. split; [done|]. split; [done|]. split; [done|].
  split; [|done].
  intros k r Hk Hrf. split; [|by eapply H2].
  specialize (H1 k r Hk). unfold stored_path in H1. by rewrite Hrf in H1.
Qed.

(** Witness for X12: three videos in one file. *)
Lemma output_files_content_witness :
  exists st ranges,
    Samples.sample_run 1000 Samples.never Samples.never
      ["both"; "generated"; "french"] = (Continue, st)
    /\ contiguous 1 ranges 3
    /\ forall k r, ranges !! k = Some r ->
         files st !! final_filepath "out" r
         = Some (@file_content SampleDateTime.instance
                   (Samples.sample_config 1000)
                   (Samples.writer_env Samples.never Samples.never)
                   "Channel" 3 ∅ ["both"; "generated"; "french"] r).
Proof.
  destruct (@write_all_completes SampleDateTime.instance
              (Samples.sample_config 1000)
              (Samples.writer_env Samples.never Samples.never)
              "Channel" "out" 3 ∅ ["both"; "generated"; "french"] ∅)
    as [st Hrun].
  { split; intros; reflexivity. }
  destruct (output_files_content _ _ _ _ _ _ _ _ _ Hrun)
    as (ranges & Hcont & _ & _ & Hfinal & _).
  exists st, ranges. split; [exact Hrun|]. split; [exact Hcont|].
  intros k r Hk. by apply (Hfinal k r Hk).
Defined.

(** X13. In a run of the writer that ends without [Break], the words
    charged to a file, those of its header and of its entries, are the
    words of its text; a file that holds more than one video is charged at
    most the budget; every file but the last was closed because the entry
    of the next video would have taken it over the budget; so an entry
    that alone exceeds the budget is alone in its file. *)
Theorem output_files_budget `{DateTime} (cfg : config) (env : environment)
    (channel_title output_dir : string) (total_videos : nat)
    (all_metadata : metadata_dict_t) (video_ids : list string)
    (fs : gmap string (list string)) (st : writer_state) :
  write_all cfg env channel_title output_dir total_videos all_metadata
            video_ids fs = (Continue, st) ->
  exists ranges,
    contiguous 1 ranges (length video_ids)
    /\ output_filenames st = imap (listed_name env output_dir) ranges
    /\ (forall r,
          Py.word_count
            (file_text (file_content cfg env channel_title total_videos
                          all_metadata video_ids r))
          = file_words cfg env channel_title total_videos all_metadata
              video_ids r)
    /\ (forall r, r ∈ ranges ->
          r.1 = r.2
          \/ file_words cfg env channel_title total_videos all_metadata
               video_ids r <= max_words_per_file cfg)
    /\ (forall r, r ∈ ranges ->
          r.2 = length video_ids
          \/ max_words_per_file cfg
             < file_words cfg env channel_title total_videos all_metadata
                 video_ids r
               + Py.word_count (entry_at cfg env all_metadata video_ids (r.2 + 1)))
    /\ (forall r n, r ∈ ranges -> r.1 <= n <= r.2 ->
          max_words_per_file cfg
          < Py.word_count (entry_at cfg env all_metadata video_ids n) ->
          r = (n, n)).
Proof.
  intros Hrun.
  destruct (write_all_files _ _ _ _ _ _ _ _ _ Hrun)
    as (ranges & Hcont & Hout & _ & Hbudget & Hgreedy).
  exists ranges. split; [done|]. split; [done|].
  split; [intros r; apply file_text_words|].
  split; [done|]. split; [done|].
  intros [a b] n Hin Hn Hbig. simpl in Hn.
  pose proof (file_words_entry cfg env channel_title total_videos all_metadata
                video_ids (a, b) n Hn) as Hlt.
  destruct (Hbudget _ Hin) as [Heq|Hle]; simpl in *; [|lia].
  f_equal; lia.
Qed.

(** Witness for X13: a budget every entry exceeds puts each video in a file
    of its own. *)
Lemma output_files_budget_witness :
  exists st ranges,
    Samples.sample_run 10 Samples.never Samples.never ["both"; "generated"]
      = (Continue, st)
    /\ contiguous 1 ranges 2
    /\ output_filenames st
       = imap (listed_name (Samples.writer_env Samples.never Samples.never) "out")
              ranges.
Proof.
  destruct (@write_all_completes SampleDateTime.instance
              (Samples.sample_config 10)
              (Samples.writer_env Samples.never Samples.never)
              "Channel" "out" 2 ∅ ["both"; "generated"] ∅)
    as [st Hrun].
  { split; intros; reflexivity. }
  destruct (output_files_budget _ _ _ _ _ _ _ _ _ Hrun)
    as (ranges & Hcont & Hout & _).
  exists st, ranges. split; [exact Hrun|]. split; [exact Hcont|exact Hout].
Defined.

(** ** A file that cannot be started *)

Section OpenFailureFacts.
Context `{DateTime}.
Variable cfg : config.
Variable env : environment.
Variable channel_title : string.
Variable output_dir : string.
Variable total_videos : nat.
Variable all_metadata : metadata_dict_t.

Local Opaque file_header format_video_entry path_join temp_filename_base
  final_filename_base partial_filename_base Py.word_count.

Lemma first_turn (video_id : string) (fs : gmap string (list string)) :
  process_video cfg env channel_title output_dir total_videos all_metadata
    0 video_id (initial_writer_state fs)
  = match
      start_new_file cfg env channel_title output_dir total_videos
        (WriterState 0 None None 1 []
           (if video_success cfg env all_metadata video_id then 1 else 0)
           (if video_success cfg env all_metadata video_id then 0 else 1)
           1 fs [1])
    with
    | (Continue, st) =>
        write_entry env output_dir
          (video_entry cfg env all_metadata 1 video_id)
          (Py.word_count (video_entry cfg env all_metadata 1 video_id)) st
    | stop => stop
    end.
Proof.
  unfold process_video. rewrite entry_of_video_step.
  unfold file_for_entry, needs_new_file, close_previous. reflexivity.
Qed.

End OpenFailureFacts.

(** X14. When the first temporary file cannot be opened, the run stops
    in the first turn: the transcript of the first video has been fetched
    and counted, no later video is begun, no file is listed and the file
    system is as it was. When the file opens but its header cannot be
    written, the same holds except that the empty temporary file is left
    behind, unlisted. *)
Theorem first_file_failure `{DateTime} (cfg : config) (env : environment)
    (channel_title output_dir : string) (total_videos : nat)
    (all_metadata : metadata_dict_t) (video_id : string) (rest : list string)
    (fs : gmap string (list string)) :
  let temp := temp_filepath output_dir 0 in
  let header := file_header cfg env channel_title total_videos 1 in
  let r := write_all cfg env channel_title output_dir total_videos all_metadata
             (video_id :: rest) fs in
  (open_fails env temp = true \/ write_fails env temp header = true ->
   r.1 = Break
   /\ output_filenames r.2 = []
   /\ current_file_handle r.2 = None
   /\ processing r.2 = [1]
   /\ successful_transcripts r.2 + videos_with_issues r.2 = 1
   /\ files r.2 = (if open_fails env temp then fs else <[ temp := [] ]> fs)).
Proof.
  intros temp header r Hfail. subst r. unfold write_all.
  cbn [process_videos]. rewrite first_turn.
  unfold start_new_file. cbn [output_filenames length current_video_number].
  change (path_join output_dir (temp_filename_base (0 + 1))) with temp.
  fold header.
  destruct (open_fails env temp) eqn:Hopen.
  - cbn. by destruct (video_success cfg env all_metadata video_id).
  - destruct Hfail as [|Hwrite]; [done|]. rewrite Hwrite.
    cbn. by destruct (video_success cfg env all_metadata video_id).
Qed.

(** Witness for X14: a directory in which nothing can be opened. *)
Lemma first_file_failure_witness :
  let env := Environment (Some "key") (Ok Samples.refused_service)
               Samples.sample_transcripts "2025-01-01 00:00:00"
               (fun _ => true) Samples.never Samples.never
               (fun _ => Ok tt) in
  let r := @write_all SampleDateTime.instance (Samples.sample_config 1000) env
             "Channel" "out" 2 ∅ ["both"; "generated"] ∅ in
  r.1 = Break /\ output_filenames r.2 = [] /\ processing r.2 = [1].
Proof.
  intros env r.
  destruct (@first_file_failure SampleDateTime.instance
              (Samples.sample_config 1000) env "Channel" "out" 2 ∅
              "both" ["generated"] ∅ (or_introl eq_refl))
    as (H1 & H2 & _ & H4 & _).
  split; [exact H1|]. split; [exact H2|exact H4].
Defined.

(** ** What a PARTIAL file holds *)

Lemma temp_not_partial_path (dir : string) (k a b : nat) :
  temp_filepath dir k <> path_join dir (partial_filename_base a b).
Proof. unfold temp_filepath. by intros E%path_join_inj. Qed.

Lemma final_not_partial_path (dir : string) (r : nat * nat) (a b : nat) :
  final_filepath dir r <> path_join dir (partial_filename_base a b).
Proof.
  unfold final_filepath. by intros E%path_join_inj%final_not_partial.
Qed.

Section PartialFacts.
Context `{DateTime}.
Variable cfg : config.
Variable env : environment.
Variable channel_title : string.
Variable output_dir : string.
Variable total_videos : nat.
Variable all_metadata : metadata_dict_t.

Local Abbreviation turns := (process_videos cfg env channel_title output_dir total_videos all_metadata).
Local Abbreviation run := (write_all cfg env channel_title output_dir total_videos all_metadata).
Local Abbreviation listed := (listed_name env output_dir).
Local Abbreviation temp_path := (temp_filepath output_dir).
Local Abbreviation entry := (video_entry cfg env all_metadata).
Local Abbreviation content := (file_content cfg env channel_title total_videos all_metadata).

Local Opaque file_header format_video_entry path_join temp_filename_base
  final_filename_base partial_filename_base Py.word_count.

Lemma write_failure_files (before rest : list string) (video_id : string)
    (fs : gmap string (list string)) (st : writer_state) :
  let video_ids := before ++ video_id :: rest in
  let n := length before + 1 in
  let chunk := entry n video_id +:+ Py.nl in
  let start := file_start_video_number st in
  let temp := temp_path (length (output_filenames st)) in
  let partial :=
    path_join output_dir (partial_filename_base start (length before)) in
  turns 0 before (initial_writer_state fs) = (Continue, st) ->
  0 < length before ->
  current_word_count st + Py.word_count (entry n video_id)
    <= max_words_per_file cfg ->
  write_fails env temp chunk = true ->
  exists st' ranges,
    run video_ids fs = (Break, st')
    /\ contiguous 1 ranges (start - 1)
    /\ 1 <= start <= length before
    /\ output_filenames st'
       = imap listed ranges
         ++ [if rename_fails env temp partial
             then temp +:+ " (partial, rename failed)" else partial]
    /\ files st' !! (if rename_fails env temp partial then temp else partial)
       = Some (content video_ids (start, length before))
    /\ (forall k r, ranges !! k = Some r ->
          files st' !! stored_path env output_dir k r
          = Some (content video_ids r)).
Proof.
  intros video_ids n chunk start temp partial Hbefore Hpos Hfit Hfail.
  assert (Hinit : writer_inv env output_dir 0 [] (initial_writer_state fs))
    by (by repeat split).
  assert (Hfinit : files_inv cfg env channel_title output_dir total_videos
                     all_metadata video_ids fs 0 [] (initial_writer_state fs)).
  { split; [|split; [|done]].
    - split; [|split]; try done.
    - split; intros r Hin; by apply elem_of_nil in Hin. }
  destruct (files_inv_loop cfg env channel_title output_dir total_videos
              all_metadata video_ids fs before 0 [] _ _
              ltac:(by exists [], (video_id :: rest)) Hinit Hfinit Hbefore)
    as (ranges & Hinv & (H1 & H2 & H3) & _ & Hopen).
  simpl in Hinv, Hopen.
  destruct Hinv as (Hnum & Hproc & Hout & Hcont & Hfile).
  destruct (length before) as [|m] eqn:Hlen; [lia|].
  destruct Hfile as (Hh & Ht & Hs1 & Hs2).
  destruct Hopen as (Htemp & Hwords & _).
  assert (Hk : length (output_filenames st) = length ranges)
    by (by rewrite Hout, length_imap).
  subst temp. rewrite Hk in *.
  set (temp := temp_path (length ranges)) in *.
  set (st0 := WriterState (current_word_count st) (current_file_handle st)
     (current_filename_temp st) (file_start_video_number st)
     (output_filenames st)
     (if video_success cfg env all_metadata video_id
      then S (successful_transcripts st) else successful_transcripts st)
     (if video_success cfg env all_metadata video_id
      then videos_with_issues st else S (videos_with_issues st))
     (S m + 1) (files st) (processing st ++ [S m + 1])).
  destruct (write_failure_breaks cfg env channel_title output_dir total_videos
              all_metadata before rest video_id fs st st0 st0
              (entry n video_id) temp Hbefore) as [Hrun _].
  { subst n. rewrite Hlen. apply entry_of_video_step. }
  { unfold file_for_entry, needs_new_file. subst st0. simpl. rewrite Hh.
    replace (Nat.ltb (max_words_per_file cfg) _) with false; [done|].
    symmetry. apply Nat.ltb_ge. exact Hfit. }
  { subst st0. simpl. exact Hh. }
  { exact Hfail. }
  fold video_ids in Hrun. rewrite Hlen in Hrun.
  eexists _, ranges. split; [exact Hrun|].
  split; [exact Hcont|]. split; [fold start in Hs1, Hs2; lia|].
  unfold close_and_rename. subst st0. simpl. rewrite Ht. simpl.
  fold start. fold partial.
  split; [by rewrite Hout; destruct (rename_fails env temp partial)|].
  destruct (rename_fails env temp partial) eqn:Hrf; simpl.
  - split; [exact Htemp|exact H1].
  - unfold rename_file. rewrite Htemp. split; [by rewrite lookup_insert_eq|].
    intros k r Hkr. pose proof (lookup_lt_Some _ _ _ Hkr) as Hlt.
    rewrite lookup_insert_ne, lookup_delete_ne; [by apply H1| |].
    + destruct (stored_path_cases env output_dir k r) as [-> | ->].
      * intros E%temp_filepath_inj. lia.
      * apply temp_not_final_path.
    + destruct (stored_path_cases env output_dir k r) as [-> | ->].
      * intros E. symmetry in E. by apply temp_not_partial_path in E.
      * intros E. symmetry in E. by apply final_not_partial_path in E.
Qed.

End PartialFacts.



(** ** A video without metadata *)

(** X16. A video whose metadata entry is an error marker is not looked
    up in the transcript service: whatever that service would answer, the
    video counts as an issue and its entry shows N/A for the address, the
    title, the date and the description, the marker's message as a skipped
    status and the line that says no transcript is available. A video with
    no metadata entry at all is looked up, and its entry shows N/A for the
    four fields. *)
Theorem entry_without_metadata `{DateTime} (cfg : config) (env : environment)
    (all_metadata : metadata_dict_t) (n : nat) (video_id : string) :
  (forall msg,
     all_metadata !! Some video_id = Some (error_marker msg) ->
     video_outcome cfg env all_metadata video_id
       = (None, "Skipped (" +:+ msg +:+ ")", false)
     /\ video_success cfg env all_metadata video_id = false
     /\ video_entry cfg env all_metadata n video_id
        = "--- Video " +:+ Py.str n +:+ " ---" +:+ Py.nl
          +:+ "Video ID: " +:+ video_id +:+ Py.nl
          +:+ "URL: N/A" +:+ Py.nl
          +:+ "Title: N/A" +:+ Py.nl
          +:+ "Published: N/A" +:+ Py.nl
          +:+ "Description:" +:+ Py.nl +:+ "N/A" +:+ Py.nl
          +:+ Py.nl
          +:+ "Transcript Language: Skipped (" +:+ msg +:+ ")" +:+ Py.nl
          +:+ "--- Transcript not available or fetch failed ---" +:+ Py.nl
          +:+ Py.nl +:+ Py.repeat "=" 40 +:+ Py.nl)
  /\ (all_metadata !! Some video_id = None ->
      forall text lang,
        get_transcript_for_video (list_transcripts env) video_id
          (preferred_languages cfg) = Ok (text, lang) ->
        video_outcome cfg env all_metadata video_id
          = (text, lang, text_truthy text)
        /\ video_entry cfg env all_metadata n video_id
           = "--- Video " +:+ Py.str n +:+ " ---" +:+ Py.nl
             +:+ "Video ID: " +:+ video_id +:+ Py.nl
             +:+ "URL: N/A" +:+ Py.nl
             +:+ "Title: N/A" +:+ Py.nl
             +:+ "Published: N/A" +:+ Py.nl
             +:+ "Description:" +:+ Py.nl +:+ "N/A" +:+ Py.nl
             +:+ Py.nl
             +:+ "Transcript Language: " +:+ lang +:+ Py.nl
             +:+ (if text_truthy text then default "" text
                  else "--- Transcript not available or fetch failed ---")
             +:+ Py.nl
             +:+ Py.nl +:+ Py.repeat "=" 40 +:+ Py.nl).
Proof.
  split.
  - intros msg Hm.
    assert (Ho : video_outcome cfg env all_metadata video_id
                 = (None, "Skipped (" +:+ msg +:+ ")", false)).
    { unfold video_outcome, transcript_of_video, video_metadata.
      rewrite Hm. simpl. unfold error_marker. by rewrite lookup_singleton_eq. }
    split; [exact Ho|]. split; [unfold video_success; by rewrite Ho|].
    unfold video_entry. rewrite Ho. cbn [fst snd].
    unfold video_metadata. rewrite Hm.
    change (default ∅ (Some (error_marker msg))) with (error_marker msg).
    unfold format_video_entry, entry_lines, published_at_formatted, get_or_na.
    unfold error_marker.
    rewrite !lookup_singleton_ne by done.
    change (default "N/A" None) with "N/A".
    cbn [app Py.join text_truthy String.eqb Ascii.eqb Bool.eqb].
    rewrite !append_assoc. reflexivity.
  - intros Hm text lang Ht.
    assert (Ho : video_outcome cfg env all_metadata video_id
                 = (text, lang, text_truthy text)).
    { unfold video_outcome, transcript_of_video, video_metadata.
      rewrite Hm. simpl. rewrite lookup_empty, Ht. done. }
    split; [exact Ho|].
    unfold video_entry. rewrite Ho. cbn [fst snd].
    unfold video_metadata. rewrite Hm.
    change (default ∅ None) with (∅ : metadata_t).
    unfold format_video_entry, entry_lines, published_at_formatted, get_or_na.
    rewrite !lookup_empty.
    change (default "N/A" None) with "N/A".
    cbn [app Py.join String.eqb Ascii.eqb Bool.eqb].
    rewrite !append_assoc. reflexivity.
Qed.

(** Witness for X16. *)
Lemma entry_without_metadata_witness :
  video_success (Samples.sample_config 1000)
    (Samples.writer_env Samples.never Samples.never)
    {[ Some "both" := error_marker "Metadata fetch failed after retries" ]}
    "both" = false.
Proof.
  refine (proj1 (proj2 (proj1 (@entry_without_metadata SampleDateTime.instance
    (Samples.sample_config 1000)
    (Samples.writer_env Samples.never Samples.never)
    {[ Some "both" := error_marker "Metadata fetch failed after retries" ]}
    1 "both") "Metadata fetch failed after retries" _))).
  apply lookup_singleton_eq.
Defined.

(** ** The channel lookup *)

(** X17. What [get_channel_upload_playlist_id] hands back when it does
    not raise: the bare [None] exactly when the request was refused;
    otherwise a pair whose first component is either [None] or the
    non-empty uploads identifier of the first item of the answer, and in
    the second case the second component is the title of that item, or
    Unknown Channel when the item has none. A playlist identifier never
    comes without a title, and without a service no request is made. *)
Theorem channel_lookup_result (youtube : option youtube_service)
    (channel_id : string) (v : channel_lookup) :
  get_channel_upload_playlist_id youtube channel_id = Ok v ->
  match v with
  | RetNone =>
      exists yt msg,
        youtube = Some yt /\ channels_list yt channel_id = Raise (HttpError msg)
  | RetPair None title =>
      youtube = None /\ title = None
      \/ exists yt items,
           youtube = Some yt /\ channels_list yt channel_id = Ok items
           /\ match items with
              | None | Some [] => title = None
              | Some (item :: _) =>
                  opt_truthy (uploads item) = false
                  /\ title = Some (default "Unknown Channel" (channel_title item))
              end
  | RetPair (Some pid) title =>
      exists yt item rest,
        youtube = Some yt
        /\ channels_list yt channel_id = Ok (Some (item :: rest))
        /\ uploads item = Some pid /\ pid <> ""
        /\ title = Some (default "Unknown Channel" (channel_title item))
  end.
Proof.
  destruct youtube as [yt|]; simpl.
  2: { intros [= <-]. by left. }
  unfold try_except.
  destruct (channels_list yt channel_id) as [[[|item rest]|]|e] eqn:Hc; simpl.
  - intros [= <-]. right. by exists yt, (Some []).
  - destruct (opt_truthy (uploads item)) eqn:Hu.
    + intros [= <-]. destruct (uploads item) as [pid|] eqn:Hpid; [|done].
      exists yt, item, rest. repeat split; try done. by intros ->.
    + intros [= <-]. right. exists yt, (Some (item :: rest)). by repeat split.
  - intros [= <-]. right. by exists yt, None.
  - destruct e; try done. intros [= <-]. by exists yt, msg.
Qed.

(** Witness for X17: the refused lookup. *)
Lemma channel_lookup_result_witness :
  exists yt msg,
    Some Samples.refused_service = Some yt
    /\ channels_list yt "CH" = Raise (HttpError msg).
Proof.
  exact (channel_lookup_result (Some Samples.refused_service) "CH" RetNone
           eq_refl).
Defined.

(** ** The log of the metadata run, batch by batch *)

Section BatchLogFacts.
Variable yt : youtube_service.

Lemma request_count_refusals (s : string) (j : nat) (msgs : list string) :
  request_count (concat (imap (fun i => refusal s (j + i)) msgs)) = length msgs.
Proof.
  revert j. induction msgs as [|m msgs IH]; intros j; [done|].
  cbn [imap concat]. rewrite request_count_app.
  rewrite (imap_ext _ (fun i => refusal s (S j + i))).
  - rewrite IH. reflexivity.
  - intros i x _. unfold compose. f_equal. lia.
Qed.

Lemma batch_segment_requests (b : list string) (seg : list meta_event) :
  batch_segment b seg ->
  1 <= request_count seg <= 3
  /\ last seg = Some (MvSleep 200%N).
Proof.
  intros (msgs & answer & Hlen & -> & _).
  rewrite request_count_app.
  pose proof (request_count_refusals (Py.join "," b) 0 msgs) as Hc.
  cbn [Nat.add] in Hc.
  change (fun i : nat => refusal (Py.join "," b) i)
    with (refusal (Py.join "," b)) in Hc.
  rewrite Hc.
  split; [cbn; lia|].
  rewrite last_app. done.
Qed.

(** The requests of one batch, with [3 - retries] refusals behind them. *)
Lemma fetch_batch_log (batch_ids : list string) (retries : nat)
    (st st' : meta_state) :
  0 < retries <= 3 ->
  fetch_batch yt batch_ids 3 retries st = Ok st' ->
  exists msgs answer,
    S (length msgs) <= retries
    /\ meta_log st'
       = meta_log st
         ++ concat (imap (fun i => refusal (Py.join "," batch_ids) (3 - retries + i))
                         msgs)
         ++ [MvRequest (Py.join "," batch_ids) answer]
    /\ (S (length msgs) < retries -> forall msg, answer <> Raise (HttpError msg)).
Proof.
  revert st. induction retries as [|retries' IH]; intros st Hr; [lia|].
  simpl.
  destruct (videos_list yt (meta_requests st) (Py.join "," batch_ids))
    as [items|e] eqn:Hans; simpl.
  { intros [= <-]. exists [], (Ok items). simpl. split; [lia|]. split; [done|].
    by intros _ msg. }
  assert (Hstop : forall d, (forall msg, e <> HttpError msg) \/ retries' = 0 ->
    exists msgs answer,
      S (length msgs) <= S retries'
      /\ meta_log (MetaState d (S (meta_requests st))
           (meta_log st ++ [MvRequest (Py.join "," batch_ids) (Raise e)]))
         = meta_log st
           ++ concat (imap (fun i => refusal (Py.join "," batch_ids)
                                       (3 - S retries' + i)) msgs)
           ++ [MvRequest (Py.join "," batch_ids) answer]
      /\ (S (length msgs) < S retries' ->
          forall msg, answer <> Raise (HttpError msg))).
  { intros d Hcase. exists [], (Raise e). simpl. split; [lia|]. split; [done|].
    intros Hlt msg [= ->]. destruct Hcase as [Hne | ->]; [by apply (Hne msg)|lia]. }
  destruct e as [hm| | |om|tm|tn om]; simpl;
    try (intros [= <-]; apply Hstop; left; by intros msg).
  destruct retries' as [|retries''].
  { intros [= <-]. apply Hstop. by right. }
  intros Hrec. apply IH in Hrec; [|lia].
  destruct Hrec as (msgs & answer & Hlen & Hlog & Hlast).
  cbn [meta_log] in Hlog.
  exists (hm :: msgs), answer. split; [simpl; lia|]. split.
  - rewrite Hlog. cbn [imap concat]. rewrite <- !app_assoc. f_equal.
    unfold refusal at 2. cbn [app]. f_equal. f_equal.
    + do 3 f_equal. lia.
    + do 2 f_equal. apply imap_ext. intros i x _. unfold compose. f_equal. lia.
  - intros Hlt. apply Hlast. simpl in Hlt. lia.
Qed.

Lemma batch_body_segment (st st' : meta_state) (b : list string) :
  batch_body yt st b = Ok st' ->
  exists seg, meta_log st' = meta_log st ++ seg /\ batch_segment b seg.
Proof.
  unfold batch_body.
  destruct (fetch_batch yt b 3 3 st) as [st1|e] eqn:Hb; simpl; [|done].
  intros [= <-]. cbn [meta_log].
  apply fetch_batch_log in Hb as (msgs & answer & Hlen & Hlog & Hlast); [|lia].
  eexists. split.
  - rewrite Hlog, <- !app_assoc. reflexivity.
  - exists msgs, answer. split; [lia|]. split.
    + cbn [app]. do 2 f_equal.
    + intros Hlt. apply Hlast. lia.
Qed.

Lemma for_each_batches_segments (bs : list (list string)) (st st' : meta_state) :
  for_each (batch_body yt) st bs = Ok st' ->
  exists segs,
    meta_log st' = meta_log st ++ concat segs
    /\ Forall2 batch_segment bs segs.
Proof.
  revert st. induction bs as [|b bs IH]; intros st; simpl.
  { intros [= <-]. exists []. simpl. by rewrite app_nil_r. }
  destruct (batch_body yt st b) as [st1|e] eqn:Hb; simpl; [|done].
  apply batch_body_segment in Hb as (seg & Hlog & Hseg).
  intros (segs & Hlog' & Hsegs)%IH.
  exists (seg :: segs). split; [|by constructor].
  rewrite Hlog', Hlog, <- app_assoc. done.
Qed.

End BatchLogFacts.

(** X9. The log of a run of the metadata fetch is made of one part per
    batch, in the order of the batches: up to two refused requests, each
    followed by its pause of two and then four seconds, one more request,
    refused only if it is the third, and the pause of a fifth of a second;
    every request of the part asks for the identifiers of its batch. So
    each batch takes at least one and at most three requests, and the run
    counts exactly the requests of its log. When the service answers every
    request, the run sends one request per batch and hands back the items
    of the answers stored in order, a later item replacing an earlier one
    with the same identifier. *)
Theorem metadata_requests (yt : youtube_service) (video_ids : list string) :
  (forall st,
     fetch_all_metadata yt video_ids = Ok st ->
     exists segs,
       meta_log st = concat segs
       /\ Forall2 batch_segment (batches video_ids) segs
       /\ Forall (fun seg =>
                    1 <= request_count seg <= 3
                    /\ last seg = Some (MvSleep 200%N)) segs
       /\ request_count (meta_log st) = meta_requests st)
  /\ ((forall k b, batches video_ids !! k = Some b ->
         exists items, videos_list yt k (Py.join "," b) = Ok items) ->
      exists st,
        fetch_all_metadata yt video_ids = Ok st
        /\ meta_requests st = length (batches video_ids)
        /\ metadata_dict st
           = foldl store_item ∅
               (concat (imap (batch_answer yt) (batches video_ids)))
        /\ meta_log st
           = concat (imap (fun k b =>
               [MvRequest (Py.join "," b) (videos_list yt k (Py.join "," b));
                MvSleep 200%N]) (batches video_ids))).
Proof.
  split.
  - intros st Hrun. rewrite fetch_all_metadata_batches in Hrun.
    pose proof (for_each_batches_requests _ _ _ _ Hrun) as (_ & _ & Hcount).
    apply for_each_batches_segments in Hrun as (segs & Hlog & Hsegs).
    cbn [meta_requests meta_log app] in *.
    change (request_count []) with 0 in Hcount.
    exists segs. split; [done|]. split; [done|]. split; [|lia].
    clear Hlog Hcount. induction Hsegs as [|b seg bs segs Hseg _ IH];
      constructor; [|done].
    exact (batch_segment_requests b seg Hseg).
  - intros Hall. rewrite fetch_all_metadata_batches.
    destruct (for_each_batches_answered yt (batches video_ids) (MetaState ∅ 0 []))
      as (st & Hrun & Hreq & Hdict & Hlog); [exact Hall|].
    exists st. cbn in Hreq, Hdict, Hlog. done.
Qed.

(** Witness for X9: 120 identifiers, the three requests for the second
    batch refused; five requests in all. *)
Lemma metadata_requests_witness :
  exists st segs,
    fetch_all_metadata Samples.second_batch_refused Samples.ids120 = Ok st
    /\ meta_requests st = 5
    /\ meta_log st = concat segs
    /\ Forall2 batch_segment (batches Samples.ids120) segs
    /\ request_count (meta_log st) = meta_requests st.
Proof.
  eassert (Hst : fetch_all_metadata Samples.second_batch_refused Samples.ids120
                 = Ok _) by (vm_compute; reflexivity).
  destruct (proj1 (metadata_requests Samples.second_batch_refused Samples.ids120)
              _ Hst) as (segs & Hlog & Hsegs & _ & Hcount).
  eexists _, segs. split; [exact Hst|]. split; [reflexivity|].
  split; [exact Hlog|]. split; [exact Hsegs|exact Hcount].
Defined.

Example metadata_requests_120 :
  match fetch_all_metadata Samples.second_batch_refused Samples.ids120 with
  | Ok st =>
      Nat.eqb (meta_requests st) 5
      && bool_decide
           ((fun ev => match ev with
                       | MvRequest _ (Ok _) => 0
                       | MvRequest _ (Raise _) => 1
                       | MvSleep ms => N.to_nat ms
                       end) <$> meta_log st
            = [0; 200; 1; 2000; 1; 4000; 1; 200; 0; 200])
  | Raise _ => false
  end = true.
Proof. vm_compute. reflexivity. Qed.

(** ** What the mapping holds after a failed batch *)

Section StoredFacts.
Variable yt : youtube_service.

Lemma answered_items_app (l1 l2 : list meta_event) :
  answered_items (l1 ++ l2) = answered_items l1 ++ answered_items l2.
Proof. unfold answered_items. apply bind_app. Qed.

Lemma stored_under_app (k : option string) (items1 items2 : list video_item) :
  stored_under k (items1 ++ items2)
  = match stored_under k items2 with
    | Some item => Some item
    | None => stored_under k items1
    end.
Proof. unfold stored_under. by rewrite filter_app, last_app. Qed.

(** What the mapping holds once the items of an answer are stored. *)
Lemma foldl_store_last (items : list video_item) (d : metadata_dict_t)
    (k : option string) :
  foldl store_item d items !! k
  = match stored_under k items with
    | Some item => Some (item_record item)
    | None => d !! k
    end.
Proof.
  induction items as [|item items IH] using rev_ind; [done|].
  rewrite foldl_app, stored_under_app. cbn [foldl]. unfold store_item at 1.
  unfold stored_under at 1. rewrite filter_cons, filter_nil.
  destruct (decide (item_id item = k)) as [->|Hne].
  - by rewrite lookup_insert_eq.
  - rewrite lookup_insert_ne by done. cbn [last]. exact IH.
Qed.

(** An entry after the requests of [later]: the record of the last item an
    answer carried under the key, and without one the entry there was. *)
Lemma fetch_batch_later (batch_ids : list string) (retries : nat)
    (st st' : meta_state) :
  fetch_batch yt batch_ids 3 retries st = Ok st' ->
  exists later,
    meta_log st' = meta_log st ++ later
    /\ forall k,
         match stored_under k (answered_items later) with
         | Some item => metadata_dict st' !! k = Some (item_record item)
         | None => forall m, metadata_dict st !! k = Some m ->
                     metadata_dict st' !! k = Some m
         end.
Proof.
  revert st. induction retries as [|retries' IH]; intros st; simpl.
  { intros [= <-]. exists []. rewrite app_nil_r. split; [done|]. intros k. cbn. by intros m. }
  destruct (videos_list yt (meta_requests st) (Py.join "," batch_ids))
    as [items|e]; simpl.
  { intros [= <-]. eexists. split; [reflexivity|]. intros k.
    cbn [meta_log metadata_dict]. unfold answered_items. cbn [mbind list_bind].
    rewrite app_nil_r, foldl_store_last.
    destruct (stored_under k items); [done|]. by intros m. }
  assert (Hmark : forall msg n,
    exists later,
      meta_log (MetaState (mark_failed msg batch_ids (metadata_dict st)) n
                  (meta_log st ++ [MvRequest (Py.join "," batch_ids) (Raise e)]))
      = meta_log st ++ later
      /\ forall k,
           match stored_under k (answered_items later) with
           | Some item =>
               metadata_dict (MetaState (mark_failed msg batch_ids (metadata_dict st)) n
                  (meta_log st ++ [MvRequest (Py.join "," batch_ids) (Raise e)]))
               !! k = Some (item_record item)
           | None => forall m, metadata_dict st !! k = Some m ->
               metadata_dict (MetaState (mark_failed msg batch_ids (metadata_dict st)) n
                  (meta_log st ++ [MvRequest (Py.join "," batch_ids) (Raise e)]))
               !! k = Some m
           end).
  { intros msg n. eexists. split; [reflexivity|]. intros k. cbn.
    intros m Hm. by apply mark_failed_present. }
  destruct e as [hm| | |om|tm|tn om]; simpl;
    try (intros [= <-]; apply Hmark).
  destruct retries' as [|retries''].
  { intros [= <-]. apply Hmark. }
  intros (later & Hlog & Hd)%IH. cbn [meta_log metadata_dict] in Hlog, Hd.
  eexists. split; [rewrite Hlog, <- !app_assoc; reflexivity|].
  intros k. rewrite !answered_items_app. cbn. exact (Hd k).
Qed.

Lemma for_each_batches_later (bs : list (list string)) (st st' : meta_state) :
  for_each (batch_body yt) st bs = Ok st' ->
  exists later,
    meta_log st' = meta_log st ++ later
    /\ forall k,
         match stored_under k (answered_items later) with
         | Some item => metadata_dict st' !! k = Some (item_record item)
         | None => forall m, metadata_dict st !! k = Some m ->
                     metadata_dict st' !! k = Some m
         end.
Proof.
  revert st. induction bs as [|b bs IH]; intros st; simpl.
  { intros [= <-]. exists []. rewrite app_nil_r. split; [done|]. intros k. cbn. by intros m. }
  unfold batch_body at 1.
  destruct (fetch_batch yt b 3 3 st) as [st1|e] eqn:Hb; simpl; [|done].
  apply fetch_batch_later in Hb as (l1 & Hlog1 & Hd1).
  intros (l2 & Hlog2 & Hd2)%IH. cbn [meta_log metadata_dict] in Hlog2, Hd2.
  exists (l1 ++ [MvSleep 200%N] ++ l2). split.
  { rewrite Hlog2, Hlog1, <- !app_assoc. done. }
  intros k. specialize (Hd1 k). specialize (Hd2 k).
  rewrite !answered_items_app, stored_under_app.
  change (answered_items [MvSleep 200%N]) with (@nil video_item).
  cbn [app].
  destruct (stored_under k (answered_items l2)) as [i2|]; [done|].
  destruct (stored_under k (answered_items l1)) as [i1|].
  - by apply Hd2.
  - intros m Hm. by apply Hd2, Hd1.
Qed.

(** A batch that is answered, after refusals only. *)
Lemma fetch_batch_answered (batch_ids : list string) (retries k : nat)
    (items : list video_item) (st : meta_state) :
  k < retries ->
  (forall j, j < k ->
     exists m, videos_list yt (meta_requests st + j) (Py.join "," batch_ids)
               = Raise (HttpError m)) ->
  videos_list yt (meta_requests st + k) (Py.join "," batch_ids) = Ok items ->
  exists n log,
    fetch_batch yt batch_ids 3 retries st =
    Ok (MetaState (foldl store_item (metadata_dict st) items) n log).
Proof.
  revert k st. induction retries as [|retries' IH]; intros k st Hk Hall He; [lia|].
  simpl. destruct k as [|k].
  - rewrite Nat.add_0_r in He. rewrite He. simpl. eauto.
  - destruct (Hall 0) as [m Hm]; [lia|].
    rewrite Nat.add_0_r in Hm. rewrite Hm. simpl.
    destruct retries' as [|retries'']; [lia|].
    match goal with |- context [fetch_batch yt batch_ids 3 _ ?s] =>
      destruct (IH k s) as (n & log & ->); [lia| | |eauto] end.
    + intros j Hj. cbn [meta_requests].
      replace (S (meta_requests st) + j) with (meta_requests st + S j) by lia.
      apply Hall. lia.
    + cbn [meta_requests].
      by replace (S (meta_requests st) + k) with (meta_requests st + S k) by lia.
Qed.

End StoredFacts.

(** C5, as amended. [get_videos_metadata] never raises. It walks through
    the identifiers in consecutive batches of at most fifty, all but the
    last of exactly fifty, in the order of the list (120 identifiers make
    batches of 50, 50 and 20). A batch that is answered, at once or after
    one or two refusals, stores the record of each item of the answer under
    the identifier of the item, the last one where two items share an
    identifier, and leaves every other entry as it was. When a batch fails,
    by three refused requests or by another exception, every identifier of
    the batch that had no entry gets the error marker and the entries
    already there stay; the batches after it are processed all the same,
    each by its own one to three requests. In the mapping handed back,
    such an identifier holds the record of the last item a later answer
    carried under it, and the error marker only when no later answer
    carried one: an identifier that occurs again in a later batch, or that
    a later answer names, loses its marker. *)
Theorem get_videos_metadata_batches (yt : youtube_service)
    (video_ids : list string) :
  (forall youtube, exists d, get_videos_metadata youtube video_ids = Ok d)
  /\ concat (batches video_ids) = video_ids
  /\ Forall (fun b => 0 < length b <= 50) (batches video_ids)
  /\ (forall k b, batches video_ids !! k = Some b ->
        S k < length (batches video_ids) -> length b = 50)
  /\ (length video_ids = 120 -> length <$> batches video_ids = [50; 50; 20])
  /\ fetch_all_metadata yt video_ids
     = for_each (batch_body yt) (MetaState ∅ 0 []) (batches video_ids)
  /\ (forall before b after st k items,
        batches video_ids = before ++ b :: after ->
        for_each (batch_body yt) (MetaState ∅ 0 []) before = Ok st ->
        k < 3 ->
        (forall j, j < k ->
           exists m, videos_list yt (meta_requests st + j) (Py.join "," b)
                     = Raise (HttpError m)) ->
        videos_list yt (meta_requests st + k) (Py.join "," b) = Ok items ->
        exists st1,
          batch_body yt st b = Ok st1
          /\ forall key,
               metadata_dict st1 !! key
               = match stored_under key items with
                 | Some item => Some (item_record item)
                 | None => metadata_dict st !! key
                 end)
  /\ (forall before b after st msg,
        batches video_ids = before ++ b :: after ->
        for_each (batch_body yt) (MetaState ∅ 0 []) before = Ok st ->
        batch_failure yt (Py.join "," b) (meta_requests st) msg ->
        exists st1 st2 segs,
          batch_body yt st b = Ok st1
          /\ (forall vid, vid ∈ b -> metadata_dict st !! Some vid = None ->
                metadata_dict st1 !! Some vid = Some (error_marker msg))
          /\ (forall k m, metadata_dict st !! k = Some m ->
                metadata_dict st1 !! k = Some m)
          /\ for_each (batch_body yt) st1 after = Ok st2
          /\ get_videos_metadata (Some yt) video_ids = Ok (metadata_dict st2)
          /\ meta_log st2 = meta_log st1 ++ concat segs
          /\ Forall2 batch_segment after segs
          /\ (forall vid, vid ∈ b -> metadata_dict st !! Some vid = None ->
                metadata_dict st2 !! Some vid
                = match stored_under (Some vid) (answered_items (concat segs)) with
                  | Some item => Some (item_record item)
                  | None => Some (error_marker msg)
                  end)).
Proof.
  split.
  { intros [yt'|]; [|by eexists; destruct video_ids].
    destruct (decide (video_ids = [])) as [->|Hne]; [by eexists|].
    rewrite get_videos_metadata_nonempty by done.
    destruct (for_each_batches_total yt' (batches video_ids) (MetaState ∅ 0 []))
      as [st ->]. simpl. eauto. }
  split; [apply batches_concat|]. split; [apply batches_sizes|].
  split; [apply batches_full|]. split; [apply batches_120|].
  split; [apply fetch_all_metadata_batches|]. split.
  { intros before b after st k items _ _ Hk Hall Hans. unfold batch_body.
    destruct (fetch_batch_answered yt b 3 k items st Hk Hall Hans)
      as (n & log & ->).
    eexists. split; [reflexivity|]. intros key. cbn [metadata_dict].
    apply foldl_store_last. }
  intros before b after st msg Hsplit Hbefore Hfail.
  destruct (batch_body_total yt st b) as [st1 Hst1].
  destruct (for_each_batches_total yt after st1) as [st2 Hst2].
  pose proof (fetch_batch_failure yt b msg st st1 Hfail Hst1) as Hd.
  destruct (for_each_batches_segments yt after st1 st2 Hst2)
    as (segs & Hlog & Hsegs).
  destruct (for_each_batches_later yt after st1 st2 Hst2)
    as (later & Hlater & Hkeys).
  assert (later = concat segs) as ->.
  { rewrite Hlog in Hlater. by apply app_inv_head in Hlater. }
  exists st1, st2, segs. split; [done|].
  split; [intros vid Hin Hnone; rewrite Hd; by apply mark_failed_absent|].
  split; [intros k m Hk; rewrite Hd; by apply mark_failed_present|].
  split; [done|]. split.
  { rewrite get_videos_metadata_nonempty.
    - rewrite Hsplit, for_each_app, Hbefore. simpl. rewrite Hst1. simpl.
      by rewrite Hst2.
    - intros ->. by destruct before. }
  split; [done|]. split; [done|].
  intros vid Hin Hnone. specialize (Hkeys (Some vid)).
  destruct (stored_under (Some vid) (answered_items (concat segs))); [done|].
  apply Hkeys. rewrite Hd. by apply mark_failed_absent.
Qed.

(** Witness for C5: 120 identifiers, the first batch answered, the three
    requests for the second refused, the third answered. *)
Lemma get_videos_metadata_batches_witness :
  (exists st1,
     batch_body Samples.second_batch_refused (MetaState ∅ 0 [])
                (slice Samples.ids120 0 50) = Ok st1
     /\ metadata_dict st1 !! Some "v0"
        = Some (item_record (VideoItem (Some "v0") (Some "first") None None))
     /\ metadata_dict st1 !! Some "v1" = None)
  /\ (exists d segs,
        get_videos_metadata (Some Samples.second_batch_refused) Samples.ids120
        = Ok d
        /\ Forall2 batch_segment [slice Samples.ids120 100 150] segs
        /\ forall vid, vid ∈ slice Samples.ids120 50 100 ->
             d !! Some vid
             = match stored_under (Some vid) (answered_items (concat segs)) with
               | Some item => Some (item_record item)
               | None => Some (error_marker "Metadata fetch failed after retries")
               end).
Proof.
  destruct (get_videos_metadata_batches Samples.second_batch_refused Samples.ids120)
    as (_ & _ & _ & _ & _ & _ & Hans & Hfail).
  split.
  - destruct (Hans [] (slice Samples.ids120 0 50)
                [slice Samples.ids120 50 100; slice Samples.ids120 100 150]
                (MetaState ∅ 0 []) 0
                [VideoItem (Some "v0") (Some "first") None None])
      as (st1 & Hst1 & Hkeys).
    + vm_compute. reflexivity.
    + reflexivity.
    + lia.
    + intros j Hj. lia.
    + reflexivity.
    + exists st1. split; [exact Hst1|].
      split; [exact (Hkeys (Some "v0"))|exact (Hkeys (Some "v1"))].
  - eassert (Hbefore : for_each (batch_body Samples.second_batch_refused)
                         (MetaState ∅ 0 []) [slice Samples.ids120 0 50]
                       = Ok _) by (vm_compute; reflexivity).
    match type of Hbefore with _ = Ok ?st =>
      destruct (Hfail [slice Samples.ids120 0 50] (slice Samples.ids120 50 100)
                  [slice Samples.ids120 100 150] st
                  "Metadata fetch failed after retries")
        as (st1 & st2 & segs & _ & _ & _ & _ & Hret & _ & Hsegs & Hkeys)
    end.
    + vm_compute. reflexivity.
    + exact Hbefore.
    + apply failure_exhausted. intros k Hk. exists "503".
      destruct k as [|[|[|k]]]; [reflexivity..|lia].
    + exists (metadata_dict st2), segs. split; [exact Hret|].
      split; [exact Hsegs|]. intros vid Hin. apply Hkeys; [exact Hin|].
      revert vid Hin. apply Forall_forall.
      apply (bool_decide_unpack _). vm_compute. exact I.
Defined.

(** Counterexample to C5 as it was written: 101 identifiers of which the
    51st and the 101st are the same. The three requests for the second
    batch are refused, so the batch fails, and the identifier had no entry
    before; the third batch is answered with an item for it. In the mapping
    handed back it holds the record of that item and not the error
    marker, while its neighbour in the failed batch holds the marker. *)
Lemma get_videos_metadata_batches_counterexample :
  batches Samples.ids_dup
  = [slice Samples.ids_dup 0 50; slice Samples.ids_dup 50 100; ["dup"]]
  /\ "dup" ∈ slice Samples.ids_dup 50 100
  /\ "b0" ∈ slice Samples.ids_dup 50 100
  /\ for_each (batch_body Samples.dup_answered_later) (MetaState ∅ 0 [])
       [slice Samples.ids_dup 0 50]
     = Ok (MetaState ∅ 1
             [MvRequest (Py.join "," (slice Samples.ids_dup 0 50)) (Ok []);
              MvSleep 200%N])
  /\ batch_failure Samples.dup_answered_later
       (Py.join "," (slice Samples.ids_dup 50 100)) 1
       "Metadata fetch failed after retries"
  /\ exists d,
       get_videos_metadata (Some Samples.dup_answered_later) Samples.ids_dup = Ok d
       /\ d !! Some "dup"
          = Some (item_record (VideoItem (Some "dup") (Some "T") None None))
       /\ d !! Some "dup"
          <> Some (error_marker "Metadata fetch failed after retries")
       /\ d !! Some "b0"
          = Some (error_marker "Metadata fetch failed after retries").
Proof.
  split; [vm_compute; reflexivity|].
  split; [apply (bool_decide_unpack _); vm_compute; exact I|].
  split; [apply (bool_decide_unpack _); vm_compute; exact I|].
  split; [vm_compute; reflexivity|].
  split.
  { apply failure_exhausted. intros k Hk. exists "503".
    destruct k as [|[|[|k]]]; [reflexivity..|lia]. }
  assert (Hb :
    match get_videos_metadata (Some Samples.dup_answered_later) Samples.ids_dup with
    | Ok d =>
        bool_decide (d !! Some "dup"
          = Some (item_record (VideoItem (Some "dup") (Some "T") None None)))
        && negb (bool_decide (d !! Some "dup"
             = Some (error_marker "Metadata fetch failed after retries")))
        && bool_decide (d !! Some "b0"
             = Some (error_marker "Metadata fetch failed after retries"))
    | Raise _ => false
    end = true) by (vm_compute; reflexivity).
  destruct (get_videos_metadata (Some Samples.dup_answered_later) Samples.ids_dup)
    as [d|e]; [|discriminate].
  apply andb_prop in Hb as [Hb Hb0]. apply andb_prop in Hb as [Hdup Hnot].
  apply bool_decide_eq_true in Hdup, Hb0.
  apply negb_true_iff, bool_decide_eq_false in Hnot.
  by exists d.
Qed.

(** ** The publication date *)

Module IsoFacts.
Import Iso.

Lemma all_digits_cons (k : nat) (c : ascii) (f : string) :
  all_digits (S k) (String c f) = is_digit_char c && all_digits k f.
Proof.
  unfold all_digits. cbn [String.length Py.chars list_ascii_of_string forallb].
  change (S (String.length f) =? S k) with (String.length f =? k).
  fold (Py.chars f).
  destruct (String.length f =? k), (is_digit_char c); reflexivity.
Qed.

Lemma all_digits_nil (k : nat) : all_digits k "" = true -> k = 0.
Proof. unfold all_digits. destruct k; [done|]. discriminate. Qed.

Lemma all_digits_zero (f : string) : all_digits 0 f = true -> f = "".
Proof. destruct f; [done|]. discriminate. Qed.

Lemma all_digits_inv (k : nat) (f : string) :
  all_digits (S k) f = true ->
  exists c f', f = String c f' /\ is_digit_char c = true /\ all_digits k f' = true.
Proof.
  destruct f as [|c f']; [discriminate|].
  rewrite all_digits_cons. intros [Hc Hf]%andb_prop. eauto.
Qed.

Lemma field_app (k : nat) (f r : string) :
  all_digits k f = true -> field k (f +:+ r) = Some (f, r).
Proof.
  revert f. induction k as [|k IH]; intros f Hf.
  { apply all_digits_zero in Hf as ->. reflexivity. }
  apply all_digits_inv in Hf as (c & f' & -> & Hc & Hf').
  cbn [String.append field]. rewrite Hc, (IH f' Hf'). reflexivity.
Qed.

(** Fewer digits than asked for, followed by something else. *)
Lemma field_short (j k : nat) (f r : string) :
  all_digits j f = true -> j < k ->
  (forall c r', r = String c r' -> is_digit_char c = false) ->
  field k (f +:+ r) = None.
Proof.
  revert j f. induction k as [|k IH]; intros j f Hf Hjk Hr; [lia|].
  destruct j as [|j].
  - apply all_digits_zero in Hf as ->. cbn [String.append field].
    destruct r as [|c r']; [done|]. by rewrite (Hr c r' eq_refl).
  - apply all_digits_inv in Hf as (c & f' & -> & Hc & Hf').
    cbn [String.append field]. rewrite Hc, (IH j f' Hf'); [done|lia|done].
Qed.

Lemma year_prefix_field (s : string) :
  year_prefix s = false -> field 4 s = None.
Proof.
  destruct s as [|a [|b [|c [|d s]]]]; cbn [year_prefix field]; try done;
    destruct (is_digit_char a); try done;
    destruct (is_digit_char b); try done;
    destruct (is_digit_char c); try done;
    destruct (is_digit_char d); done.
Qed.

Lemma year_prefix_digits (f r : string) :
  all_digits 4 f = true -> year_prefix (f +:+ r) = true.
Proof.
  intros (a & f1 & -> & Ha & H1)%all_digits_inv.
  apply all_digits_inv in H1 as (b & f2 & -> & Hb & H2).
  apply all_digits_inv in H2 as (c & f3 & -> & Hc & H3).
  apply all_digits_inv in H3 as (d & f4 & -> & Hd & H4).
  cbn [String.append year_prefix]. by rewrite Ha, Hb, Hc, Hd.
Qed.

(** *** Reading back what is written *)

Lemma parse_offset_written (o : written_offset) :
  valid_offset o = true ->
  parse_offset (offset_to_string o) = Some (Some (offset_of o)).
Proof.
  unfold valid_offset, offset_to_string, offset_of.
  intros [[[Hh Hhv]%andb_prop Hm]%andb_prop Hmv]%andb_prop.
  destruct (w_negative o); cbn [String.append parse_offset Ascii.eqb Bool.eqb orb];
    rewrite (field_app 2 _ _ Hh); cbn [mbind option_bind String.append expect Ascii.eqb Bool.eqb];
    rewrite <- (append_nil_r (w_off_minute o)) at 1;
    rewrite (field_app 2 _ _ Hm); cbn [mbind option_bind String.eqb andb];
    by rewrite Hhv, Hmv.
Qed.

(** What follows the seconds: nothing, or an offset. *)
Lemma offset_first (off : option written_offset) (c : ascii) (r : string) :
  match off with None => "" | Some o => offset_to_string o end = String c r ->
  c = "+"%char \/ c = "-"%char.
Proof.
  destruct off as [o|]; [|done]. unfold offset_to_string.
  destruct (w_negative o); cbn [String.append]; intros [= <- _]; auto.
Qed.

Lemma parse_offset_option (off : option written_offset) :
  match off with None => true | Some o => valid_offset o end = true ->
  parse_offset match off with None => "" | Some o => offset_to_string o end
  = Some (offset_of <$> off).
Proof.
  destruct off as [o|]; [apply parse_offset_written|done].
Qed.

Lemma parse_second_written (s : option (string * option string))
    (off : option written_offset) :
  valid_second s = true ->
  parse_second (second_to_string s
                +:+ match off with None => "" | Some o => offset_to_string o end)
  = Some (match s with Some (sec, _) => value sec | None => 0 end,
          match off with None => "" | Some o => offset_to_string o end).
Proof.
  pose proof (offset_first off) as Hfirst.
  set (rest := match off with None => "" | Some o => offset_to_string o end) in *.
  destruct s as [[sec fraction]|]; cbn [valid_second second_to_string].
  - intros [[Hs Hsv]%andb_prop Hf]%andb_prop.
    destruct fraction as [f|].
    + rewrite !append_assoc. cbn [String.append parse_second Ascii.eqb Bool.eqb].
      rewrite (field_app 2 _ _ Hs).
      cbn [mbind option_bind String.append parse_fraction Ascii.eqb Bool.eqb].
      apply orb_prop in Hf as [Hf|Hf].
      * rewrite (field_short 3 6 f rest Hf); [|lia|].
        { rewrite (field_app 3 _ _ Hf). reflexivity. }
        intros c r' Hr. by destruct (Hfirst c r' Hr) as [-> | ->].
      * rewrite (field_app 6 _ _ Hf). reflexivity.
    + cbn [String.append parse_second Ascii.eqb Bool.eqb].
      rewrite (field_app 2 _ _ Hs). cbn [mbind option_bind].
      destruct rest as [|c r'] eqn:Hrest; [reflexivity|].
      destruct (Hfirst c r' eq_refl) as [-> | ->]; reflexivity.
  - intros _. cbn [String.append].
    destruct rest as [|c r'] eqn:Hrest; [reflexivity|].
    destruct (Hfirst c r' eq_refl) as [-> | ->]; reflexivity.
Qed.

(** The reader reads every valid written timestamp as its fields say. *)
Lemma parse_written (w : written) :
  valid w = true -> parse (to_string w) = Some (timestamp_of w).
Proof.
  unfold valid, to_string, timestamp_of, parse.
  intros [[[[[[[[Hy Hyv]%andb_prop Hm]%andb_prop Hm1]%andb_prop Hm2]%andb_prop
            Hd]%andb_prop Hd1]%andb_prop Hd2]%andb_prop Ht]%andb_prop.
  rewrite (field_app 4 _ _ Hy).
  cbn [mbind option_bind String.append expect Ascii.eqb Bool.eqb].
  rewrite (field_app 2 _ _ Hm).
  cbn [mbind option_bind String.append expect Ascii.eqb Bool.eqb].
  rewrite (field_app 2 _ _ Hd).
  cbn [mbind option_bind].
  rewrite Hyv, Hm1, Hm2, Hd1, Hd2. cbn [andb].
  destruct (w_time w) as [t|]; [|reflexivity].
  unfold valid_time in Ht.
  apply andb_prop in Ht as [[[[[[Hsep Hh]%andb_prop Hhv]%andb_prop Hmi]%andb_prop
                               Hmiv]%andb_prop Hsec]%andb_prop Hoff].
  unfold time_to_string. rewrite Hsep.
  rewrite (field_app 2 _ _ Hh).
  cbn [mbind option_bind String.append expect Ascii.eqb Bool.eqb].
  rewrite (field_app 2 _ _ Hmi).
  cbn [mbind option_bind].
  rewrite (parse_second_written _ _ Hsec).
  cbn [mbind option_bind].
  rewrite (parse_offset_option _ Hoff).
  cbn [mbind option_bind].
  rewrite Hhv, Hmiv. cbn [andb].
  destruct (w_second t) as [[sec fraction]|]; [|reflexivity].
  cbn [valid_second] in Hsec.
  apply andb_prop in Hsec as [[_ ->]%andb_prop _]. reflexivity.
Qed.

(** *** Printing back the number a field denotes *)

Lemma digit_char_cases (c : ascii) :
  is_digit_char c = true ->
  c = "0"%char \/ c = "1"%char \/ c = "2"%char \/ c = "3"%char \/ c = "4"%char
  \/ c = "5"%char \/ c = "6"%char \/ c = "7"%char \/ c = "8"%char \/ c = "9"%char.
Proof.
  destruct c as [[] [] [] [] [] [] [] []]; vm_compute; intros Hc;
    try discriminate; tauto.
Qed.

Lemma digit_not_z (c : ascii) :
  is_digit_char c = true -> Ascii.eqb c "Z" = false.
Proof.
  intros Hc. destruct (Ascii.eqb_spec c "Z") as [-> |]; [discriminate|done].
Qed.

Lemma digits_uint (k : nat) (f : string) :
  all_digits k f = true ->
  exists u, NilEmpty.uint_of_string f = Some u
            /\ NilEmpty.string_of_uint u = f
            /\ Decimal.nb_digits u = k.
Proof.
  revert f. induction k as [|k IH]; intros f Hf.
  { apply all_digits_zero in Hf as ->. by exists Decimal.Nil. }
  apply all_digits_inv in Hf as (c & f' & -> & Hc & Hf').
  destruct (IH f' Hf') as (u & Hu & Hs & Hn).
  cbn [NilEmpty.uint_of_string]. rewrite Hu.
  destruct (digit_char_cases c Hc)
    as [-> | [-> | [-> | [-> | [-> | [-> | [-> | [-> | [-> | ->]]]]]]]]];
    eexists; (split; [reflexivity|]); cbn; by rewrite Hs, Hn.
Qed.

Lemma repeat_zero_snoc (n : nat) :
  Py.repeat "0" (S n) = Py.repeat "0" n +:+ "0".
Proof.
  induction n as [|n IH]; [done|].
  change (Py.repeat "0" (S (S n))) with ("0" +:+ Py.repeat "0" (S n)).
  rewrite IH at 1.
  change (Py.repeat "0" (S n)) with ("0" +:+ Py.repeat "0" n).
  by rewrite append_assoc.
Qed.

Lemma uint_string_length (u : Decimal.uint) :
  String.length (NilEmpty.string_of_uint u) = Decimal.nb_digits u.
Proof. induction u; cbn; congruence. Qed.

(** A numeral is its leading zeros and the rest. *)
Lemma uint_string_nzhead (u : Decimal.uint) :
  NilEmpty.string_of_uint u
  = Py.repeat "0" (Decimal.nb_digits u - Decimal.nb_digits (Decimal.nzhead u))
    +:+ NilEmpty.string_of_uint (Decimal.nzhead u).
Proof.
  induction u; cbn [Decimal.nzhead];
    try (rewrite Nat.sub_diag; reflexivity).
  pose proof (DecimalFacts.nb_digits_nzhead u) as Hle.
  cbn [Decimal.nb_digits NilEmpty.string_of_uint].
  replace (S (Decimal.nb_digits u) - Decimal.nb_digits (Decimal.nzhead u))
    with (S (Decimal.nb_digits u - Decimal.nb_digits (Decimal.nzhead u))) by lia.
  cbn [Py.repeat String.append]. by rewrite <- IHu.
Qed.

Lemma pad_value (k : nat) (f : string) :
  0 < k -> all_digits k f = true -> SampleDateTime.pad k (value f) = f.
Proof.
  intros Hk (u & Hu & Hs & Hn)%digits_uint.
  unfold SampleDateTime.pad, value. rewrite Hu.
  assert (Hstr : Py.str (Nat.of_uint u)
                 = NilEmpty.string_of_uint (Decimal.unorm u)).
  { unfold Py.str. rewrite DecimalNat.Unsigned.to_of.
    unfold NilZero.string_of_uint.
    pose proof (DecimalFacts.unorm_nonnil u). by destruct (Decimal.unorm u). }
  rewrite Hstr, uint_string_length. rewrite <- Hs.
  rewrite (uint_string_nzhead u), <- Hn. unfold Decimal.unorm.
  destruct (Decimal.nzhead u) eqn:Hnz; try reflexivity.
  cbn [Decimal.nb_digits NilEmpty.string_of_uint].
  rewrite Nat.sub_0_r. destruct (Decimal.nb_digits u) as [|n]; [lia|].
  rewrite repeat_zero_snoc. replace (S n - 1) with n by lia.
  by rewrite append_nil_r.
Qed.

(** *** Replacing the Z *)

Lemma replace_char_app (old : ascii) (new a b : string) :
  Py.replace_char old new (a +:+ b)
  = Py.replace_char old new a +:+ Py.replace_char old new b.
Proof.
  induction a as [|c a IH]; [done|].
  cbn [String.append Py.replace_char]. rewrite IH.
  destruct (Ascii.eqb c old); [by rewrite append_assoc|done].
Qed.

Lemma replace_digits (k : nat) (f : string) :
  all_digits k f = true -> Py.replace_char "Z" "+00:00" f = f.
Proof.
  revert f. induction k as [|k IH]; intros f Hf.
  { by apply all_digits_zero in Hf as ->. }
  apply all_digits_inv in Hf as (c & f' & -> & Hc & Hf').
  cbn [Py.replace_char]. by rewrite (digit_not_z c Hc), (IH f' Hf').
Qed.

Lemma year_prefix_replace (s : string) :
  year_prefix s = false ->
  year_prefix (Py.replace_char "Z" "+00:00" s) = false.
Proof.
  destruct s as [|a [|b [|c [|d s]]]]; cbn [Py.replace_char];
    repeat match goal with
    | |- context [Ascii.eqb ?x "Z"] =>
        destruct (Ascii.eqb_spec x "Z") as [-> |?]
    end;
    cbn [String.append year_prefix]; intros Hp;
    repeat match goal with
    | |- context [is_digit_char ?x] =>
        is_var x; destruct (is_digit_char x)
    | H : context [is_digit_char ?x] |- _ =>
        is_var x; destruct (is_digit_char x)
    end; try done.
Qed.

(** The reader meets the two laws. *)
Lemma instance_laws : @DateTimeLaws instance.
Proof.
  split.
  - intros w Hw. exists (timestamp_of w). split; [|reflexivity].
    by apply parse_written.
  - intros s Hs. change (parse s = None). unfold parse.
    by rewrite (year_prefix_field s Hs).
Qed.

(** *** The form the listing service sends *)

Lemma utc_written_fields (y mo d h mi s : string) :
  valid (utc_written y mo d h mi s) = true ->
  all_digits 4 y = true /\ all_digits 2 mo = true /\ all_digits 2 d = true
  /\ all_digits 2 h = true /\ all_digits 2 mi = true /\ all_digits 2 s = true.
Proof.
  intros Hv. unfold valid, utc_written in Hv.
  cbn [w_year w_month w_day w_time] in Hv. unfold valid_time in Hv.
  cbn [w_sep w_hour w_minute w_second w_offset valid_second] in Hv.
  rewrite !andb_true_iff in Hv. tauto.
Qed.

Lemma utc_form_replace (y mo d h mi s : string) :
  valid (utc_written y mo d h mi s) = true ->
  Py.replace_char "Z" "+00:00" (utc_form y mo d h mi s)
  = to_string (utc_written y mo d h mi s).
Proof.
  intros (Hy & Hmo & Hd & Hh & Hmi & Hs)%utc_written_fields.
  unfold utc_form, to_string, time_to_string, second_to_string, offset_to_string.
  cbn [utc_written w_year w_month w_day
    w_time w_sep w_hour w_minute w_second w_offset w_negative w_off_hour w_off_minute].
  rewrite !replace_char_app.
  rewrite (replace_digits 4 y), (replace_digits 2 mo), (replace_digits 2 d),
    (replace_digits 2 h), (replace_digits 2 mi), (replace_digits 2 s) by done.
  rewrite ?append_assoc. reflexivity.
Qed.

Lemma utc_form_render (y mo d h mi s : string) :
  valid (utc_written y mo d h mi s) = true ->
  render (timestamp_of (utc_written y mo d h mi s)) = utc_rendered y mo d h mi s.
Proof.
  intros (Hy & Hmo & Hd & Hh & Hmi & Hs)%utc_written_fields.
  unfold render, timestamp_of, utc_rendered.
  cbn [utc_written w_year w_month w_day w_time w_sep w_hour w_minute w_second
    w_offset year month day hour minute second utcoffset fmap option_fmap
    option_map offset_of w_negative w_off_hour w_off_minute].
  rewrite (pad_value 4 y), (pad_value 2 mo), (pad_value 2 d),
    (pad_value 2 h), (pad_value 2 mi), (pad_value 2 s) by (done || lia).
  reflexivity.
Qed.

End IsoFacts.

Section FormatLaws.
Context `{DateTimeLaws}.

Lemma year_prefix_written (w : Iso.written) :
  Iso.valid w = true -> Iso.year_prefix (Iso.to_string w) = true.
Proof.
  unfold Iso.valid. rewrite !andb_true_iff. intros Hv.
  unfold Iso.to_string. apply IsoFacts.year_prefix_digits. tauto.
Qed.

(** A timestamp of one of the forms, with or without its Z, is printed as
    [render] says. *)
Lemma published_written (metadata : metadata_t) (raw : string) (w : Iso.written) :
  metadata !! "publishedAt" = Some raw ->
  Py.replace_char "Z" "+00:00" raw = Iso.to_string w ->
  Iso.valid w = true ->
  published_at_formatted metadata = Iso.render (Iso.timestamp_of w).
Proof.
  intros Hm Hraw Hw.
  destruct (fromisoformat_reads w Hw) as (dt & Hread & Hprint).
  rewrite <- Hprint. apply (published_parsed metadata raw dt Hm); [|by rewrite Hraw].
  intros ->. apply year_prefix_written in Hw. rewrite <- Hraw in Hw. discriminate.
Qed.

(** A value that does not start with the digits of a year stands as it
    is. *)
Lemma published_no_year (metadata : metadata_t) (raw : string) :
  metadata !! "publishedAt" = Some raw ->
  Iso.year_prefix raw = false ->
  published_at_formatted metadata = raw.
Proof.
  intros Hm Hraw. apply (published_malformed metadata raw Hm).
  apply fromisoformat_rejects. by apply IsoFacts.year_prefix_replace.
Qed.


End FormatLaws.

